(** * BSC testnet wallet operations: a shallow embedding

    The development follows the Python package [bsc_wallet]:
    - [config.py]            constants ([Config]);
    - [wallet_generator.py]  mnemonic validation and BIP44 derivation
                             ([WalletGenerator]);
    - [bnb_transfer.py]      native transfers ([BNBTransfer]);
    - [token_transfer.py]    BEP-20 transfers ([TokenTransfer]);
    - [bsc_wallet.py]        the facade over the three ([BSCWallet]).

    Python values are modelled as follows.
    - [int] is [Z]; [str] is [string]; [float] is an IEEE 754 binary64 value,
      [spec_float] with precision 53 and maximal exponent 1024, whose
      operations are the round-to-nearest-even ones of the Standard Library.
    - A dict with a fixed set of keys is a record.
    - An exception is a value [Exn]; a method is a function in the monad
      [M], which threads the [World] (clock, node, log, collaborator calls,
      entropy source) and either returns or raises.  The world survives a raise, as the
      effects of a Python call do.
    - The cryptographic and encoding libraries ([mnemonic], [bip_utils],
      [eth_account], the web3 codecs) are collaborators: section variables
      or fields of a record, never re-implemented. *)

From Stdlib Require Import ZArith NArith QArith Bool List String Ascii Lia.
From Stdlib Require Import DecimalString.
From Stdlib Require Import Floats.SpecFloat.
Import ListNotations.

Local Open Scope Z_scope.

(* ===================================================================== *)
(** * Python floats *)
(* ===================================================================== *)

Module PyFloat.

Definition float := spec_float.

Definition prec : Z := 53.
Definition emax : Z := 1024.

Definition zero : float := S754_zero false.

(** [x * y] on two floats. *)
Definition mul (x y : float) : float := SFmul prec emax x y.

(** [x < y] and [x == y]. *)
Definition ltb (x y : float) : bool := SFltb x y.
Definition eqb (x y : float) : bool := SFeqb x y.

(** The float nearest to the rational [n / d] ([d > 0]), ties to even.
    This is what Python computes for [n / d] on two ints, for [float(x)]
    on a [Decimal] whose value is [n / d], and for a decimal literal. *)
Definition of_ratio (n d : Z) : float :=
  match n, d with
  | Z0, Zpos _ => S754_zero false
  | Zpos a, Zpos b =>
      SFdiv prec emax (S754_finite false a 0) (S754_finite false b 0)
  | Zneg a, Zpos b =>
      SFdiv prec emax (S754_finite true a 0) (S754_finite false b 0)
  | _, _ => S754_nan
  end.

(** The implicit conversion of an int operand in [float * int]:
    nearest float, [None] for the [OverflowError] of an int that is too
    large. *)
Definition of_int (z : Z) : option float :=
  match binary_normalize prec emax z 0 false with
  | S754_infinity _ => None
  | S754_nan => None
  | f => Some f
  end.

(** [int(x)]: truncation toward zero; [None] when Python raises
    ([OverflowError] on an infinity, [ValueError] on a NaN). *)
Definition to_int (x : float) : option Z :=
  match x with
  | S754_zero _ => Some 0
  | S754_finite s m e =>
      let a := match e with
               | Zneg p => Z.shiftr (Zpos m) (Zpos p)
               | _ => Z.shiftl (Zpos m) e
               end in
      Some (if s then - a else a)
  | S754_infinity _ => None
  | S754_nan => None
  end.

(** The exact rational value of a finite float (used in statements only). *)
Definition to_Q (x : float) : option Q :=
  match x with
  | S754_zero _ => Some (0 # 1)
  | S754_finite s m e =>
      let v := match e with
               | Zneg p => Zpos m # (2 ^ p)
               | _ => (Zpos m * 2 ^ e) # 1
               end in
      Some (if s then Qopp v else v)
  | S754_infinity _ => None
  | S754_nan => None
  end.

End PyFloat.

(* ===================================================================== *)
(** * Python strings *)
(* ===================================================================== *)

Module PyStr.

Local Open Scope string_scope.

(** [c.lower()] on one character (ASCII letters). *)
Definition lower_ascii (c : ascii) : ascii :=
  let n := nat_of_ascii c in
  if (Nat.leb 65 n && Nat.leb n 90)%bool then ascii_of_nat (n + 32) else c.

(** [s.lower()]. *)
Fixpoint lower (s : string) : string :=
  match s with
  | EmptyString => EmptyString
  | String c s' => String (lower_ascii c) (lower s')
  end.

(** [s.startswith(p)]. *)
Definition startswith (s p : string) : bool := String.prefix p s.

(** [p in s]: [p] occurs somewhere in [s]. *)
Fixpoint contains (p s : string) : bool :=
  String.prefix p s ||
  match s with
  | EmptyString => false
  | String _ s' => contains p s'
  end.

(** [s[n:]]. *)
Fixpoint drop (n : nat) (s : string) : string :=
  match n, s with
  | O, _ => s
  | S _, EmptyString => EmptyString
  | S n', String _ s' => drop n' s'
  end.

(** [str(z)], also what an f-string prints for an int. *)
Definition of_int (z : Z) : string := NilZero.string_of_int (Z.to_int z).

(** A string of hexadecimal digits, as [bytes.hex()] produces. *)
Definition is_hex_digit (c : ascii) : bool :=
  let n := nat_of_ascii c in
  ((Nat.leb 48 n && Nat.leb n 57) || (Nat.leb 97 n && Nat.leb n 102)
   || (Nat.leb 65 n && Nat.leb n 70))%bool.

Fixpoint is_hex (s : string) : bool :=
  match s with
  | EmptyString => true
  | String c s' => is_hex_digit c && is_hex s'
  end.

(** The characters [str.split()] treats as separators. *)
Definition is_space (c : ascii) : bool :=
  let n := nat_of_ascii c in
  ((Nat.leb 9 n && Nat.leb n 13) || (Nat.leb 28 n && Nat.leb n 32))%bool.

(** [len(s.split())]: the number of maximal runs of characters that are not
    separators; [in_word] tells whether the previous character was in a
    run. *)
Fixpoint count_words_from (in_word : bool) (s : string) : nat :=
  match s with
  | EmptyString => O
  | String c s' =>
      if is_space c then count_words_from false s'
      else ((if in_word then 0 else 1) + count_words_from true s')%nat
  end.

Definition count_words (s : string) : nat := count_words_from false s.

End PyStr.

(* ===================================================================== *)
(** * config.py *)
(* ===================================================================== *)

Module Config.

Local Open Scope string_scope.

Definition BSC_TESTNET_CHAIN_ID : Z := 97.
Definition BSC_TESTNET_EXPLORER : string := "https://testnet.bscscan.com".
Definition BSC_TESTNET_FAUCETS : list string :=
  [ "https://testnet.bnbchain.org/faucet-smart";
    "https://testnet.binance.org/faucet-smart" ].
Definition BIP44_PATH : string := "m/44'/60'/0'/0/0".
Definition DEFAULT_GAS_LIMIT : Z := 21000.
Definition TOKEN_TRANSFER_GAS_LIMIT : Z := 100000.
Definition DEFAULT_GAS_PRICE : Z := 20000000000.

(** [SAMPLE_TOKENS], in the order of the dict. *)
Definition SAMPLE_TOKENS : list (string * string) :=
  [ ("USDT", "0xA11c8D9DC9b66E209Ef60F0C8D969D3CD988782c");
    ("BUSD", "0xeD24FC36d5Ee211Ea25A80239Fb8C4Cfd80f12Ee");
    ("IVP", "0xf3eeCd4b52ef54c15EdF2d5eD525A2d200701041") ].

End Config.

(* ===================================================================== *)
(** * Exceptions, the world and the monad of effects *)
(* ===================================================================== *)

(** An exception raised inside a collaborator (an RPC failure, a codec
    error): its class name and [str(e)]. *)
Record ExtError := mkExtError { ext_class : string; ext_text : string }.

Definition Ext (A : Type) : Type := (ExtError + A)%type.

(** The pieces of an f-string.  Integers are printed ([PyStr.of_int]) into a
    [Lit]; floats and [Decimal]s are kept as values. *)
Inductive Part :=
| Lit (s : string)
| Flt (x : PyFloat.float)
| Dec (n : Z) (scale : Z).        (* the Decimal n / 10^scale *)

Definition Msg := list Part.

Inductive ExnClass :=
| ValueError
| ConnectionError
| TimeoutError
| OverflowError
| External (name : string).

Record Exn := mkExn { exn_class : ExnClass; exn_msg : Msg }.

Definition exn_of_ext (err : ExtError) : Exn :=
  mkExn (External (ext_class err)) [Lit (ext_text err)].

(** A transaction dict.  [tx_data] is absent for a native transfer and is the
    call [transfer(recipient, amount)] for a token transfer. *)
Inductive CallData :=
| NoData
| TransferCall (recipient : string) (amount : Z).

Record Transaction := mkTransaction {
  tx_nonce : Z;
  tx_to : string;
  tx_value : Z;
  tx_gas : Z;
  tx_gasPrice : Z;
  tx_chainId : Z;
  tx_data : CallData }.

(** A receipt, as far as the code reads it. *)
Record Receipt := mkReceipt {
  rc_status : Z;
  rc_gasUsed : Z;
  rc_blockNumber : Z }.

(** What the node answers at one instant. *)
Record Node := mkNode {
  eth_get_balance : string -> Ext Z;
  eth_gas_price : Ext Z;
  eth_get_transaction_count : string -> Ext Z;
  eth_send_raw_transaction : string -> Ext string;
  eth_get_transaction_receipt : string -> Ext (option Receipt);
  call_name : string -> Ext string;
  call_symbol : string -> Ext string;
  call_decimals : string -> Ext Z;
  call_totalSupply : string -> Ext Z;
  call_balanceOf : string -> string -> Ext Z }.

(** Calls made to the collaborators, in order. *)
Inductive Call :=
| CallGetBalance (addr : string)
| CallGasPrice
| CallGetTransactionCount (addr : string)
| CallSendRawTransaction (raw : string)
| CallGetTransactionReceipt (tx_hash : string)
| CallContract (addr : string) (fn : string)
| CallBuildTransfer (token recipient : string) (amount : Z)
| CallSignTransaction (tx : Transaction) (key : string).

Inductive Level := INFO | WARNING | ERROR.

(** The world: the wall clock in milliseconds, the node's answers over time,
    the duration of a round trip that starts at a given instant, the log,
    the collaborator calls made so far, and the draws the entropy source of
    the system ([os.urandom]) has still to give, the next one first.  Time
    passes in a round trip to the node and in [time.sleep], which lasts
    exactly what it is asked; every other step is instantaneous. *)
Record World := mkWorld {
  w_time : Z;
  w_node : Z -> Node;
  w_rtt : Z -> N;
  w_log : list (Level * Msg);
  w_calls : list Call;
  w_entropy : nat -> Z }.

Inductive Res (A : Type) :=
| Ok (a : A)
| Raise (e : Exn).
Arguments Ok {A} a.
Arguments Raise {A} e.

Definition M (A : Type) : Type := World -> Res A * World.

Definition ret {A} (a : A) : M A := fun w => (Ok a, w).

Definition bind {A B} (c : M A) (k : A -> M B) : M B :=
  fun w => match c w with
           | (Ok a, w') => k a w'
           | (Raise e, w') => (Raise e, w')
           end.

Definition raise {A} (e : Exn) : M A := fun w => (Raise e, w).

(** [try: c  except Exception as e: h e]. *)
Definition try_except {A} (c : M A) (h : Exn -> M A) : M A :=
  fun w => match c w with
           | (Ok a, w') => (Ok a, w')
           | (Raise e, w') => h e w'
           end.

Declare Scope py_scope.
Delimit Scope py_scope with py.
Notation "x <- c ;; k" := (bind c (fun x => k))
  (at level 61, c at next level, right associativity) : py_scope.
Notation "c ;; k" := (bind c (fun _ => k))
  (at level 61, right associativity) : py_scope.
Local Open Scope py_scope.

(** [logger.info], [logger.warning], [logger.error]. *)
Definition log (lvl : Level) (msg : Msg) : M unit :=
  fun w => (Ok tt, mkWorld (w_time w) (w_node w) (w_rtt w)
                           (w_log w ++ [(lvl, msg)]) (w_calls w)
                           (w_entropy w)).

(** [time.time()], in milliseconds. *)
Definition time_time : M Z := fun w => (Ok (w_time w), w).

(** [time.sleep(secs)]. *)
Definition time_sleep (secs : Z) : M unit :=
  fun w => (Ok tt, mkWorld (w_time w + 1000 * secs) (w_node w) (w_rtt w)
                           (w_log w) (w_calls w) (w_entropy w)).

(** A call that stays in the process (signing, encoding): it is recorded and
    takes no time. *)
Definition local_call {A} (c : Call) (r : Ext A) : M A :=
  fun w => let w' := mkWorld (w_time w) (w_node w) (w_rtt w) (w_log w)
                             (w_calls w ++ [c]) (w_entropy w) in
           match r with
           | inl err => (Raise (exn_of_ext err), w')
           | inr a => (Ok a, w')
           end.

(** A call into a library that reads the entropy source of the system: the
    library sees the draws to come, and says what it returns and how many
    draws it has used; those are gone for the calls that follow. *)
Definition entropy_call {A} (f : (nat -> Z) -> Ext A * nat) : M A :=
  fun w => let (r, used) := f (w_entropy w) in
           let w' := mkWorld (w_time w) (w_node w) (w_rtt w) (w_log w)
                             (w_calls w)
                             (fun i => w_entropy w (used + i)%nat) in
           match r with
           | inl err => (Raise (exn_of_ext err), w')
           | inr a => (Ok a, w')
           end.

(** A round trip to the node: the node answers for the instant the call is
    made, the clock advances by the round-trip time, the call is recorded.
    [rpc_ext] hands the collaborator's error to the caller; [rpc] raises it. *)
Definition tick (c : Call) (w : World) : World :=
  mkWorld (w_time w + Z.of_N (w_rtt w (w_time w))) (w_node w) (w_rtt w)
          (w_log w) (w_calls w ++ [c]) (w_entropy w).

Definition rpc_ext {A} (c : Call) (f : Node -> Ext A) : M (Ext A) :=
  fun w => (Ok (f (w_node w (w_time w))), tick c w).

Definition rpc {A} (c : Call) (f : Node -> Ext A) : M A :=
  r <- rpc_ext c f ;;
  match r with
  | inl err => raise (exn_of_ext err)
  | inr a => ret a
  end.

(** The wrapper every method has:
    [except Exception as e: logger.error(f"<prefix>{e}"); raise]. *)
Definition logged {A} (prefix : string) (c : M A) : M A :=
  try_except c (fun e => log ERROR (Lit prefix :: exn_msg e) ;; raise e).

(** A pure collaborator result, raised when it is an error. *)
Definition lift_ext {A} (r : Ext A) : M A :=
  match r with
  | inl err => raise (exn_of_ext err)
  | inr a => ret a
  end.

(* ===================================================================== *)
(** * wallet_generator.py *)
(* ===================================================================== *)

Module WalletGenerator.

Local Open Scope string_scope.

(** [eth_account.Account.from_key(k)], as far as the code reads it. *)
Record EthAccount := mkEthAccount {
  acct_address : string;
  acct_public_key : string }.

(** The calls into [mnemonic], [bip_utils] and [eth_account] that validate
    and derive.  They are functions of their arguments: none reads the
    clock, the node or the entropy source.  ([mnemo.generate], which does
    read the entropy source, is apart: see [mnemo_generate].) *)
Record Libraries := mkLibraries {
  Seed : Type;
  Key : Type;
  (* Mnemonic("english").check *)
  mnemo_check : string -> Ext bool;
  (* Bip39SeedGenerator(mnemonic).Generate() *)
  Bip39SeedGenerator : string -> Ext Seed;
  (* the BIP32 master key of a seed *)
  Bip32FromSeed : Seed -> Ext Key;
  (* the BIP32 child of a key at a raw 32-bit index *)
  Bip32ChildKey : Key -> Z -> Ext Key;
  (* PrivateKey().Raw().ToBytes().hex() *)
  key_hex : Key -> string;
  (* Account.from_key *)
  Account_from_key : string -> Ext EthAccount }.

Definition ext_bind {A B} (r : Ext A) (k : A -> Ext B) : Ext B :=
  match r with
  | inl err => inl err
  | inr a => k a
  end.

(** dict returned by the wallet functions *)
Record WalletInfo := mkWalletInfo {
  mnemonic : string;
  private_key : string;
  public_key : string;
  address : string;
  bip44_path : string }.

(** ** The BIP44 object of [bip_utils]

    A context is a key together with the raw indices walked from the
    master key.  A raw index with bit 31 set is a hardened one. *)
Definition KEY_INDEX_MAX_VAL : Z := 2 ^ 32 - 1.
Definition HARDENED_BIT : Z := 2 ^ 31.

(** [Bip32KeyIndex.HardenIndex]: set bit 31. *)
Definition HardenIndex (index : Z) : Z := Z.lor index HARDENED_BIT.

(** [Bip44Changes.CHAIN_EXT] and the coin index of [Bip44Coins.ETHEREUM]. *)
Definition CHAIN_EXT : Z := 0.
Definition ETHEREUM_COIN_INDEX : Z := 60.
Definition BIP44_PURPOSE : Z := 44.

(** The usual notation of a path: [m], then [/i] for a plain index and
    [/i'] for a hardened one. *)
Definition render_index (raw : Z) : string :=
  if (raw <? HARDENED_BIT)%Z then PyStr.of_int raw
  else PyStr.of_int (raw - HARDENED_BIT) ++ "'".

Fixpoint render_levels (path : list Z) : string :=
  match path with
  | [] => ""
  | raw :: rest => "/" ++ render_index raw ++ render_levels rest
  end.

Definition render_path (path : list Z) : string := "m" ++ render_levels path.

Section WithLibraries.

Variable L : Libraries.

Record Bip44Ctx := mkBip44Ctx {
  bip_key : Key L;
  bip_path : list Z }.

Definition FromSeed (seed_bytes : Seed L) : Ext Bip44Ctx :=
  ext_bind (Bip32FromSeed L seed_bytes) (fun k => inr (mkBip44Ctx k [])).

(** [Bip32.ChildKey]: the index must fit 32 bits. *)
Definition ChildKey (ctx : Bip44Ctx) (raw : Z) : Ext Bip44Ctx :=
  if ((0 <=? raw)%Z && (raw <=? KEY_INDEX_MAX_VAL)%Z)%bool then
    ext_bind (Bip32ChildKey L (bip_key ctx) raw)
             (fun k => inr (mkBip44Ctx k (bip_path ctx ++ [raw])%list))
  else
    inl (mkExtError "ValueError" ("Invalid key index (" ++ PyStr.of_int raw ++ ")")).

Definition Purpose (ctx : Bip44Ctx) : Ext Bip44Ctx :=
  ChildKey ctx (HardenIndex BIP44_PURPOSE).
Definition Coin (ctx : Bip44Ctx) : Ext Bip44Ctx :=
  ChildKey ctx (HardenIndex ETHEREUM_COIN_INDEX).
Definition Account (ctx : Bip44Ctx) (acc_idx : Z) : Ext Bip44Ctx :=
  ChildKey ctx (HardenIndex acc_idx).
Definition Change (ctx : Bip44Ctx) (change_type : Z) : Ext Bip44Ctx :=
  ChildKey ctx change_type.
Definition AddressIndex (ctx : Bip44Ctx) (addr_idx : Z) : Ext Bip44Ctx :=
  ChildKey ctx addr_idx.

(** ** [WalletGenerator] *)

Definition validate_mnemonic (mnemonic : string) : M bool :=
  try_except
    (lift_ext (mnemo_check L mnemonic))
    (fun e => log ERROR (Lit "Error validating mnemonic: " :: exn_msg e) ;;
              ret false).

(** Lines 79 to 82 of [derive_wallet_from_mnemonic]: the walk from the
    seed to the leaf context. *)
Definition derive_leaf (seed_bytes : Seed L) (account_index : Z)
  : Ext Bip44Ctx :=
  ext_bind (FromSeed seed_bytes) (fun bip44_mst_ctx =>
  ext_bind (Purpose bip44_mst_ctx) (fun purpose_ctx =>
  ext_bind (Coin purpose_ctx) (fun coin_ctx =>
  ext_bind (Account coin_ctx account_index) (fun bip44_acc_ctx =>
  ext_bind (Change bip44_acc_ctx CHAIN_EXT) (fun bip44_chg_ctx =>
  AddressIndex bip44_chg_ctx 0))))).

Definition derive_wallet_from_mnemonic (mnemonic : string)
           (account_index : Z) : M WalletInfo :=
  logged "Error deriving wallet from mnemonic: " (
    valid <- validate_mnemonic mnemonic ;;
    if negb valid then
      raise (mkExn ValueError [Lit "Invalid mnemonic phrase"])
    else
      seed_bytes <- lift_ext (Bip39SeedGenerator L mnemonic) ;;
      bip44_addr_ctx <- lift_ext (derive_leaf seed_bytes account_index) ;;
      let private_key_hex := key_hex L (bip_key bip44_addr_ctx) in
      account <- lift_ext (Account_from_key L private_key_hex) ;;
      let public_key := acct_public_key account in
      let wallet_info :=
        mkWalletInfo mnemonic private_key_hex public_key
                     (acct_address account)
                     ("m/44'/60'/0'/0/" ++ PyStr.of_int account_index) in
      log INFO [Lit "Successfully derived wallet for address: ";
                Lit (acct_address account)] ;;
      ret wallet_info).

Definition import_wallet_from_private_key (private_key : string)
  : M WalletInfo :=
  logged "Error importing wallet from private key: " (
    let private_key :=
      if PyStr.startswith private_key "0x" then PyStr.drop 2 private_key
      else private_key in
    account <- lift_ext (Account_from_key L private_key) ;;
    let public_key := acct_public_key account in
    let wallet_info :=
      mkWalletInfo "N/A (imported from private key)" private_key
                   public_key (acct_address account)
                   "N/A (imported from private key)" in
    log INFO [Lit "Successfully imported wallet for address: ";
              Lit (acct_address account)] ;;
    ret wallet_info).

(** [self.mnemo.generate(strength=strength)]: the library makes the words
    from what it draws from the entropy source of the system.  It is given
    the strength and the draws to come, and answers with the mnemonic (or
    its error) and the number of draws it has used. *)
Variable mnemo_generate : Z -> (nat -> Z) -> Ext string * nat.

Definition generate_mnemonic (strength : Z) : M string :=
  logged "Error generating mnemonic: " (
    mnemonic <- entropy_call (mnemo_generate strength) ;;
    log INFO [Lit "Generated new mnemonic with ";
              Lit (PyStr.of_int (Z.of_nat (PyStr.count_words mnemonic)));
              Lit " words"] ;;
    ret mnemonic).

Definition create_new_wallet (strength : Z) : M WalletInfo :=
  logged "Error creating new wallet: " (
    mnemonic <- generate_mnemonic strength ;;
    derive_wallet_from_mnemonic mnemonic 0).

End WithLibraries.

(** A symbolic instance of the libraries, for running the code: a key is
    the list of raw indices that leads to it, every mnemonic is accepted,
    and an address is its key with a prefix. *)
Definition symbolic_key_hex (path : list Z) : string :=
  String.concat "." (map PyStr.of_int path).

Definition symbolic : Libraries :=
  mkLibraries string (list Z)
    (fun _ => inr true)
    (fun mnemonic => inr mnemonic)
    (fun _ => inr [])
    (fun k raw => inr (k ++ [raw])%list)
    symbolic_key_hex
    (fun k => inr (mkEthAccount ("0x" ++ k) ("pub:" ++ k))).

End WalletGenerator.

(* ===================================================================== *)
(** * The web3 object shared by both transfer handlers *)
(* ===================================================================== *)

Module Web3.

Local Open Scope string_scope.

(** The parts of [web3] and [eth_account] that stay in the process. *)
Record Lib := mkLib {
  is_address : string -> bool;
  to_checksum_address : string -> string;
  (* web3.to_wei(x, 'ether') on a float *)
  to_wei_ether : PyFloat.float -> Ext Z;
  (* Account.from_key(k).address *)
  Account_from_key : string -> Ext string;
  (* eth.account.sign_transaction(tx, k).rawTransaction.hex() *)
  account_sign_transaction : Transaction -> string -> Ext string }.

Definition nl : string := String (ascii_of_nat 10) "".

Definition MIN_WEI : Z := 0.
Definition MAX_WEI : Z := 2 ^ 256 - 1.

(** [web3.from_wei(number, unit)] for the unit [10 ^ scale]: the exact
    [Decimal] [number / 10 ^ scale] (the division is carried out with 999
    digits, more than a 256-bit number needs), as the pair
    [(number, scale)]. *)
Definition from_wei (number : Z) (scale : Z) : Ext (Z * Z) :=
  if ((number <? MIN_WEI)%Z || (MAX_WEI <? number)%Z)%bool then
    inl (mkExtError "ValueError" "value must be between 1 and 2**256 - 1")
  else inr (number, scale).

(** [float(d)] on the [Decimal] [n / 10 ^ scale]. *)
Definition float_of_decimal (d : Z * Z) : PyFloat.float :=
  PyFloat.of_ratio (fst d) (10 ^ snd d).

(** [int(x)] with the exception Python raises. *)
Definition py_int (x : PyFloat.float) : Ext Z :=
  match PyFloat.to_int x with
  | Some z => inr z
  | None =>
      match x with
      | S754_nan =>
          inl (mkExtError "ValueError" "cannot convert float NaN to integer")
      | _ =>
          inl (mkExtError "OverflowError"
                          "cannot convert float infinity to integer")
      end
  end.

(** [x * n] for a float [x] and an int [n]. *)
Definition float_mul_int (x : PyFloat.float) (n : Z) : Ext PyFloat.float :=
  match PyFloat.of_int n with
  | Some y => inr (PyFloat.mul x y)
  | None => inl (mkExtError "OverflowError" "int too large to convert to float")
  end.

(** [a / b] for two ints, [b > 0]. *)
Definition int_truediv (a b : Z) : Ext PyFloat.float :=
  match PyFloat.of_ratio a b with
  | S754_infinity _ =>
      inl (mkExtError "OverflowError"
                      "integer division result too large for a float")
  | x => inr x
  end.

(** The range of a [uint256] argument; web3 refuses to encode a call whose
    argument is outside. *)
Definition is_encodable_uint256 (v : Z) : bool :=
  ((0 <=? v)%Z && (v <? 2 ^ 256)%Z)%bool.

(** dict returned by both [wait_for_confirmation]s;
    [confirmation_time] is in milliseconds. *)
Record Confirmation := mkConfirmation {
  cf_tx_hash : string;
  cf_status : string;
  cf_gas_used : Z;
  cf_block_number : Z;
  cf_confirmation_time : Z }.

Section Handler.

Variable web3 : Lib.

(** [estimate_gas_price], the same text in both handlers. *)
Definition estimate_gas_price : M Z :=
  try_except
    (gas_price <- rpc CallGasPrice eth_gas_price ;;
     gwei <- lift_ext (from_wei gas_price 9) ;;
     log INFO [Lit "Current gas price: "; Lit (PyStr.of_int gas_price);
               Lit " wei ("; Dec (fst gwei) (snd gwei); Lit " gwei)"] ;;
     ret gas_price)
    (fun e =>
       log WARNING (Lit "Error getting gas price, using default: "
                        :: exn_msg e) ;;
       ret Config.DEFAULT_GAS_PRICE).

(** [sign_transaction]; the handlers differ in the two log texts. *)
Definition sign_transaction_with (ok_text error_prefix : string)
           (transaction : Transaction) (private_key : string) : M string :=
  logged error_prefix (
    let private_key :=
      if PyStr.startswith private_key "0x" then PyStr.drop 2 private_key
      else private_key in
    signed_txn <- local_call (CallSignTransaction transaction private_key)
                    (account_sign_transaction web3 transaction private_key) ;;
    log INFO [Lit ok_text] ;;
    ret signed_txn).

(** The [while] loop of [wait_for_confirmation].  [None] is returned only
    when the fuel is used up. *)
Fixpoint wait_loop (fuel : nat) (confirmed_text timeout_text : string)
         (tx_hash : string) (timeout : Z) (start_time : Z)
  : M (option Confirmation) :=
  match fuel with
  | O => ret None
  | S fuel' =>
      t <- time_time ;;
      if (t - start_time <? 1000 * timeout)%Z then
        found <-
          try_except
            (receipt <- rpc (CallGetTransactionReceipt tx_hash)
                          (fun n => eth_get_transaction_receipt n tx_hash) ;;
             match receipt with
             | Some receipt =>
                 let status := if (rc_status receipt =? 1)%Z
                               then "Success" else "Failed" in
                 log INFO [Lit confirmed_text; Lit status] ;;
                 log INFO [Lit "Gas used: ";
                           Lit (PyStr.of_int (rc_gasUsed receipt))] ;;
                 log INFO [Lit "Block number: ";
                           Lit (PyStr.of_int (rc_blockNumber receipt))] ;;
                 t' <- time_time ;;
                 ret (Some (mkConfirmation tx_hash status
                              (rc_gasUsed receipt) (rc_blockNumber receipt)
                              (t' - start_time)))
             | None => ret None
             end)
            (fun _ => ret None) ;;
        match found with
        | Some result => ret (Some result)
        | None =>
            time_sleep 2 ;;
            wait_loop fuel' confirmed_text timeout_text tx_hash timeout
                      start_time
        end
      else
        raise (mkExn TimeoutError
                 [Lit timeout_text; Lit (PyStr.of_int timeout);
                  Lit " seconds"])
  end.

Definition wait_for_confirmation_with
           (waiting_text confirmed_text timeout_text error_prefix : string)
           (fuel : nat) (tx_hash : string) (timeout : Z)
  : M (option Confirmation) :=
  logged error_prefix (
    log INFO [Lit waiting_text; Lit tx_hash] ;;
    start_time <- time_time ;;
    wait_loop fuel confirmed_text timeout_text tx_hash timeout start_time).

End Handler.

End Web3.

(* ===================================================================== *)
(** * bnb_transfer.py *)
(* ===================================================================== *)

Module BNBTransfer.

Import Web3.
Local Open Scope string_scope.

(** dict returned by [get_balance] *)
Record Balance := mkBalance {
  bal_address : string;
  balance_wei : Z;
  balance_bnb : PyFloat.float }.

(** dict returned by [send_bnb] *)
Record SendResult := mkSendResult {
  sr_tx_hash : string;
  sr_from_address : string;
  sr_to_address : string;
  sr_amount_bnb : PyFloat.float;
  sr_explorer_url : string;
  sr_confirmation : option Confirmation }.

Section Handler.

(** [self.web3] and [self.chain_id]. *)
Variable web3 : Lib.
Definition chain_id : Z := Config.BSC_TESTNET_CHAIN_ID.

Definition get_balance (address : string) : M Balance :=
  logged "Error getting balance: " (
    if negb (is_address web3 address) then
      raise (mkExn ValueError [Lit "Invalid address format"])
    else
      let checksum_address := to_checksum_address web3 address in
      balance_wei <- rpc (CallGetBalance checksum_address)
                       (fun n => eth_get_balance n checksum_address) ;;
      balance_bnb <- lift_ext (from_wei balance_wei 18) ;;
      let result := mkBalance checksum_address balance_wei
                              (float_of_decimal balance_bnb) in
      log INFO [Lit "Balance for "; Lit checksum_address; Lit ": ";
                Dec (fst balance_bnb) (snd balance_bnb); Lit " BNB"] ;;
      ret result).

Definition estimate_gas_price : M Z := Web3.estimate_gas_price.

Definition create_transaction (from_address to_address : string)
           (amount_bnb : PyFloat.float) (gas_price : option Z)
  : M Transaction :=
  logged "Error creating transaction: " (
    if negb (is_address web3 from_address) then
      raise (mkExn ValueError [Lit "Invalid from_address format"])
    else if negb (is_address web3 to_address) then
      raise (mkExn ValueError [Lit "Invalid to_address format"])
    else
      let from_checksum := to_checksum_address web3 from_address in
      let to_checksum := to_checksum_address web3 to_address in
      amount_wei <- lift_ext (to_wei_ether web3 amount_bnb) ;;
      gas_price <- match gas_price with
                   | None => estimate_gas_price
                   | Some p => ret p
                   end ;;
      nonce <- rpc (CallGetTransactionCount from_checksum)
                 (fun n => eth_get_transaction_count n from_checksum) ;;
      let transaction :=
        mkTransaction nonce to_checksum amount_wei
                      Config.DEFAULT_GAS_LIMIT gas_price chain_id NoData in
      log INFO [Lit "Created transaction: "; Flt amount_bnb;
                Lit " BNB from "; Lit from_checksum; Lit " to ";
                Lit to_checksum] ;;
      ret transaction).

Definition sign_transaction : Transaction -> string -> M string :=
  sign_transaction_with web3 "Transaction signed successfully"
                        "Error signing transaction: ".

Definition broadcast_transaction (signed_transaction : string) : M string :=
  sent <- rpc_ext (CallSendRawTransaction signed_transaction)
            (fun n => eth_send_raw_transaction n signed_transaction) ;;
  match sent with
  | inr tx_hash_hex =>
      log INFO [Lit "Transaction broadcasted with hash: "; Lit tx_hash_hex] ;;
      log INFO [Lit "View on BSC Testnet Explorer: ";
                Lit Config.BSC_TESTNET_EXPLORER; Lit "/tx/"; Lit tx_hash_hex] ;;
      ret tx_hash_hex
  | inl e =>
      let error_str := PyStr.lower (ext_text e) in
      if PyStr.contains "insufficient funds" error_str then
        raise (mkExn ValueError [Lit "Insufficient funds: Your wallet doesn't have enough BNB to cover the transaction amount plus gas fees."])
      else if PyStr.contains "nonce too low" error_str then
        raise (mkExn ValueError [Lit "Nonce too low: This transaction has already been processed or there's a nonce conflict."])
      else if PyStr.contains "nonce too high" error_str then
        raise (mkExn ValueError [Lit "Nonce too high: Transaction nonce is higher than expected. Try again in a few seconds."])
      else if PyStr.contains "gas price too low" error_str then
        raise (mkExn ValueError [Lit "Gas price too low: Current network gas price is higher than specified. Try increasing the gas price."])
      else if PyStr.contains "intrinsic gas too low" error_str then
        raise (mkExn ValueError [Lit "Gas limit too low: The transaction requires more gas than specified."])
      else if (PyStr.contains "connection" error_str
               || PyStr.contains "timeout" error_str)%bool then
        raise (mkExn ConnectionError [Lit "Network connection issue: Unable to broadcast transaction. Check your internet connection or try a different RPC endpoint."])
      else
        log ERROR [Lit "Error broadcasting transaction: "; Lit (ext_text e)] ;;
        raise (mkExn ValueError [Lit "Transaction broadcast failed: ";
                                 Lit (ext_text e)])
  end.

Definition wait_for_confirmation
  : nat -> string -> Z -> M (option Confirmation) :=
  wait_for_confirmation_with
    "Waiting for confirmation of transaction: "
    "Transaction confirmed! Status: "
    "Transaction confirmation timeout after "
    "Error waiting for confirmation: ".

(** The text of the error raised by the balance check of [send_bnb].  The
    characters outside ASCII that open the lines of the faucet hint are those
    of the source file, each as the bytes of its UTF-8 encoding. *)
Definition insufficient_balance_msg (balance_info : Balance)
           (amount_bnb : PyFloat.float) (from_address : string) : Msg :=
  ([Lit "Insufficient balance. Available: "; Flt (balance_bnb balance_info);
   Lit " BNB, Required: "; Flt amount_bnb; Lit " BNB"]
  ++ if PyFloat.eqb (balance_bnb balance_info) PyFloat.zero then
        [Lit (nl ++ nl ++ "ðŸš¨ Your wallet has no testnet BNB!");
         Lit (nl ++ nl ++ "ðŸ’¡ To get testnet BNB, visit one of these faucets:")]
        ++ flat_map (fun faucet => [Lit (nl ++ "   â€¢ "); Lit faucet])
                    Config.BSC_TESTNET_FAUCETS
        ++ [Lit (nl ++ nl ++ "ðŸ“ Your wallet address: "); Lit from_address;
            Lit (nl ++ nl ++ "â° Faucets typically give 0.1-1 BNB per request and may have daily limits.")]
     else [])%list.

(** [send_bnb]; [fuel] bounds the polls of the confirmation loop, whose
    timeout is the default of 300 seconds. *)
Definition send_bnb (fuel : nat) (private_key to_address : string)
           (amount_bnb : PyFloat.float) (wait : bool)
  : M (option SendResult) :=
  logged "Error in BNB transfer: " (
    from_address <- lift_ext (Account_from_key web3 private_key) ;;
    log INFO [Lit "=== BNB Transfer Process Started ==="] ;;
    log INFO [Lit "From: "; Lit from_address] ;;
    log INFO [Lit "To: "; Lit to_address] ;;
    log INFO [Lit "Amount: "; Flt amount_bnb; Lit " BNB"] ;;
    balance_info <- get_balance from_address ;;
    if PyFloat.ltb (balance_bnb balance_info) amount_bnb then
      raise (mkExn ValueError
               (insufficient_balance_msg balance_info amount_bnb from_address))
    else
      transaction <- create_transaction from_address to_address amount_bnb None ;;
      signed_tx <- sign_transaction transaction private_key ;;
      tx_hash <- broadcast_transaction signed_tx ;;
      let result confirmation :=
        mkSendResult tx_hash from_address to_address amount_bnb
                     (Config.BSC_TESTNET_EXPLORER ++ "/tx/" ++ tx_hash)
                     confirmation in
      if wait then
        confirmation <- wait_for_confirmation fuel tx_hash 300 ;;
        match confirmation with
        | Some c =>
            log INFO [Lit "=== BNB Transfer Completed ==="] ;;
            ret (Some (result (Some c)))
        | None => ret None
        end
      else
        log INFO [Lit "=== BNB Transfer Completed ==="] ;;
        ret (Some (result None))).

End Handler.

End BNBTransfer.

(* ===================================================================== *)
(** * token_transfer.py *)
(* ===================================================================== *)

Module TokenTransfer.

Import Web3.
Local Open Scope string_scope.

(** dict returned by [get_token_info] *)
Record TokenInfo := mkTokenInfo {
  ti_address : string;
  ti_name : string;
  ti_symbol : string;
  ti_decimals : Z;
  ti_total_supply : Z }.

(** dict returned by [get_token_balance] *)
Record TokenBalance := mkTokenBalance {
  tb_wallet_address : string;
  tb_token_address : string;
  tb_token_name : string;
  tb_token_symbol : string;
  tb_balance_raw : Z;
  tb_balance_formatted : PyFloat.float;
  tb_decimals : Z }.

(** dict returned by [send_token] *)
Record SendResult := mkSendResult {
  sr_tx_hash : string;
  sr_from_address : string;
  sr_to_address : string;
  sr_token_address : string;
  sr_token_name : string;
  sr_token_symbol : string;
  sr_amount : PyFloat.float;
  sr_explorer_url : string;
  sr_confirmation : option Confirmation }.

(** Line 231, [int(amount * (10 ** decimals))]; [decimals] is a decoded
    [uint8], so it is not negative. *)
Definition amount_to_raw (amount : PyFloat.float) (decimals : Z) : Ext Z :=
  match float_mul_int amount (10 ^ decimals) with
  | inl err => inl err
  | inr scaled => py_int scaled
  end.

(** Line 164, [balance_raw / (10 ** decimals)]. *)
Definition raw_to_amount (balance_raw : Z) (decimals : Z) : Ext PyFloat.float :=
  int_truediv balance_raw (10 ^ decimals).

(** [contract.functions.transfer(to, amount).build_transaction(fields)]:
    the given fields, the contract as the recipient of the transaction, no
    value, and the call as data. *)
Definition build_transfer (contract recipient : string) (amount : Z)
           (chainId gas gasPrice nonce : Z) : Ext Transaction :=
  if is_encodable_uint256 amount then
    inr (mkTransaction nonce contract 0 gas gasPrice chainId
                       (TransferCall recipient amount))
  else
    inl (mkExtError "Web3ValidationError"
           "Could not identify the intended function with name `transfer`").

Section Handler.

Variable web3 : Lib.
Definition chain_id : Z := Config.BSC_TESTNET_CHAIN_ID.

(** A contract instance is its checksum address: the ABI only says how a
    call is encoded, which the node interface leaves out. *)
Definition get_token_contract (token_address : string) : M string :=
  logged "Error getting token contract: " (
    if negb (is_address web3 token_address) then
      raise (mkExn ValueError [Lit "Invalid token address format"])
    else
      let checksum_address := to_checksum_address web3 token_address in
      log INFO [Lit "Token contract loaded: "; Lit checksum_address] ;;
      ret checksum_address).

Definition get_token_info (token_address : string) : M TokenInfo :=
  logged "Error getting token info: " (
    contract <- get_token_contract token_address ;;
    name <- try_except
              (rpc (CallContract contract "name")
                   (fun n => call_name n contract))
              (fun _ => ret "Unknown") ;;
    symbol <- try_except
                (rpc (CallContract contract "symbol")
                     (fun n => call_symbol n contract))
                (fun _ => ret "UNK") ;;
    decimals <- try_except
                  (rpc (CallContract contract "decimals")
                       (fun n => call_decimals n contract))
                  (fun _ => ret 18%Z) ;;
    total_supply <- try_except
                      (rpc (CallContract contract "totalSupply")
                           (fun n => call_totalSupply n contract))
                      (fun _ => ret 0%Z) ;;
    let token_info :=
      mkTokenInfo (to_checksum_address web3 token_address) name symbol
                  decimals total_supply in
    log INFO [Lit "Token info: "; Lit name; Lit " ("; Lit symbol;
              Lit ") - "; Lit (PyStr.of_int decimals); Lit " decimals"] ;;
    ret token_info).

Definition get_token_balance (token_address wallet_address : string)
  : M TokenBalance :=
  logged "Error getting token balance: " (
    contract <- get_token_contract token_address ;;
    token_info <- get_token_info token_address ;;
    if negb (is_address web3 wallet_address) then
      raise (mkExn ValueError [Lit "Invalid wallet address format"])
    else
      let checksum_wallet := to_checksum_address web3 wallet_address in
      balance_raw <- rpc (CallContract contract "balanceOf")
                       (fun n => call_balanceOf n contract checksum_wallet) ;;
      let decimals := ti_decimals token_info in
      balance_formatted <- lift_ext (raw_to_amount balance_raw decimals) ;;
      let result :=
        mkTokenBalance checksum_wallet (ti_address token_info)
                       (ti_name token_info) (ti_symbol token_info)
                       balance_raw balance_formatted decimals in
      log INFO [Lit "Token balance: "; Flt balance_formatted; Lit " ";
                Lit (ti_symbol token_info); Lit " for "; Lit checksum_wallet] ;;
      ret result).

Definition estimate_gas_price : M Z := Web3.estimate_gas_price.

Definition create_token_transfer_transaction
           (token_address from_address to_address : string)
           (amount : PyFloat.float) (gas_price : option Z) : M Transaction :=
  logged "Error creating token transfer transaction: " (
    contract <- get_token_contract token_address ;;
    token_info <- get_token_info token_address ;;
    if negb (is_address web3 from_address) then
      raise (mkExn ValueError [Lit "Invalid from_address format"])
    else if negb (is_address web3 to_address) then
      raise (mkExn ValueError [Lit "Invalid to_address format"])
    else
      let from_checksum := to_checksum_address web3 from_address in
      let to_checksum := to_checksum_address web3 to_address in
      let decimals := ti_decimals token_info in
      amount_raw <- lift_ext (amount_to_raw amount decimals) ;;
      gas_price <- match gas_price with
                   | None => estimate_gas_price
                   | Some p => ret p
                   end ;;
      nonce <- rpc (CallGetTransactionCount from_checksum)
                 (fun n => eth_get_transaction_count n from_checksum) ;;
      transaction <-
        local_call (CallBuildTransfer contract to_checksum amount_raw)
          (build_transfer contract to_checksum amount_raw chain_id
                          Config.TOKEN_TRANSFER_GAS_LIMIT gas_price nonce) ;;
      log INFO [Lit "Created token transfer: "; Flt amount; Lit " ";
                Lit (ti_symbol token_info); Lit " from "; Lit from_checksum;
                Lit " to "; Lit to_checksum] ;;
      ret transaction).

Definition sign_transaction : Transaction -> string -> M string :=
  sign_transaction_with web3
    "Token transfer transaction signed successfully"
    "Error signing token transfer transaction: ".

Definition broadcast_transaction (signed_transaction : string) : M string :=
  logged "Error broadcasting token transfer transaction: " (
    tx_hash_hex <- rpc (CallSendRawTransaction signed_transaction)
                     (fun n => eth_send_raw_transaction n signed_transaction) ;;
    log INFO [Lit "Token transfer transaction broadcasted with hash: ";
              Lit tx_hash_hex] ;;
    log INFO [Lit "View on BSC Testnet Explorer: ";
              Lit Config.BSC_TESTNET_EXPLORER; Lit "/tx/"; Lit tx_hash_hex] ;;
    ret tx_hash_hex).

Definition wait_for_confirmation
  : nat -> string -> Z -> M (option Confirmation) :=
  wait_for_confirmation_with
    "Waiting for confirmation of token transfer: "
    "Token transfer confirmed! Status: "
    "Token transfer confirmation timeout after "
    "Error waiting for token transfer confirmation: ".

Definition send_token (fuel : nat)
           (private_key token_address to_address : string)
           (amount : PyFloat.float) (wait : bool) : M (option SendResult) :=
  logged "Error in token transfer: " (
    from_address <- lift_ext (Account_from_key web3 private_key) ;;
    token_info <- get_token_info token_address ;;
    log INFO [Lit "=== Token Transfer Process Started ==="] ;;
    log INFO [Lit "Token: "; Lit (ti_name token_info); Lit " (";
              Lit (ti_symbol token_info); Lit ")"] ;;
    log INFO [Lit "From: "; Lit from_address] ;;
    log INFO [Lit "To: "; Lit to_address] ;;
    log INFO [Lit "Amount: "; Flt amount; Lit " "; Lit (ti_symbol token_info)] ;;
    balance_info <- get_token_balance token_address from_address ;;
    if PyFloat.ltb (tb_balance_formatted balance_info) amount then
      raise (mkExn ValueError
               [Lit "Insufficient token balance. Available: ";
                Flt (tb_balance_formatted balance_info); Lit " ";
                Lit (ti_symbol token_info)])
    else
      transaction <- create_token_transfer_transaction
                       token_address from_address to_address amount None ;;
      signed_tx <- sign_transaction transaction private_key ;;
      tx_hash <- broadcast_transaction signed_tx ;;
      let result confirmation :=
        mkSendResult tx_hash from_address to_address
                     (ti_address token_info) (ti_name token_info)
                     (ti_symbol token_info) amount
                     (Config.BSC_TESTNET_EXPLORER ++ "/tx/" ++ tx_hash)
                     confirmation in
      if wait then
        confirmation <- wait_for_confirmation fuel tx_hash 300 ;;
        match confirmation with
        | Some c =>
            log INFO [Lit "=== Token Transfer Completed ==="] ;;
            ret (Some (result (Some c)))
        | None => ret None
        end
      else
        log INFO [Lit "=== Token Transfer Completed ==="] ;;
        ret (Some (result None))).

End Handler.

End TokenTransfer.

(* ===================================================================== *)
(** * Test doubles *)
(* ===================================================================== *)

Module Fixtures.

Local Open Scope string_scope.

(** [web3.to_wei(x, 'ether')] on a whole number of BNB below [2 ^ 53]: such
    a float prints as its exact value, so the result is [x * 10 ^ 18].  The
    double raises on every other float. *)
Definition to_wei_whole (x : PyFloat.float) : Ext Z :=
  match PyFloat.to_int x with
  | Some z =>
      if ((0 <=? z)%Z && (z <? 2 ^ 53)%Z
          && PyFloat.eqb (PyFloat.of_ratio z 1) x)%bool
      then inr (z * 10 ^ 18)%Z
      else inl (mkExtError "NotImplementedError" "amount outside the double")
  | None => inl (mkExtError "NotImplementedError" "amount outside the double")
  end.

(** A web3 double: every string is an address in checksum form, the
    address of a key is the key behind [addr:], a signed transaction is
    named after the nonce and the key it was signed with. *)
Definition lib : Web3.Lib :=
  Web3.mkLib
    (fun _ => true)
    (fun a => a)
    to_wei_whole
    (fun k => inr ("addr:" ++ k))
    (fun tx k => inr ("signed:" ++ PyStr.of_int (tx_nonce tx) ++ ":" ++ k)).

(** A node double: one balance and one transaction count for every
    address, a gas price of 10 gwei, and the given answers to the
    submission, to the receipt query and to the token's [decimals()]. *)
Definition node (balance count : Z) (send : Ext string)
           (receipt : Ext (option Receipt)) (decimals : Ext Z) : Node :=
  mkNode (fun _ => inr balance) (inr 10000000000%Z) (fun _ => inr count)
         (fun _ => send) (fun _ => receipt)
         (fun _ => inr "Token") (fun _ => inr "TKN") (fun _ => decimals)
         (fun _ => inr (10 ^ 24)%Z) (fun _ _ => inr (5 * 10 ^ 18)%Z).

(** A world that starts at time 0 with an empty log, where the node never
    changes, a round trip takes [rtt] milliseconds and every draw of the
    entropy source is 0. *)
Definition world (n : Node) (rtt : N) : World :=
  mkWorld 0 (fun _ => n) (fun _ => rtt) [] [] (fun _ => 0%Z).

Definition not_found : ExtError :=
  mkExtError "TransactionNotFound" "Transaction with hash not found".

Definition one : PyFloat.float := PyFloat.of_ratio 1 1.

End Fixtures.

(* ===================================================================== *)
(** * bsc_wallet.py *)
(* ===================================================================== *)

Module BSCWallet.

Local Open Scope string_scope.

(** A dict with string keys, in insertion order: [d[k] = v]. *)
Fixpoint dict_set {V : Type} (k : string) (v : V) (d : list (string * V))
  : list (string * V) :=
  match d with
  | [] => [(k, v)]
  | (k', v') :: rest =>
      if String.eqb k k' then (k, v) :: rest else (k', v') :: dict_set k v rest
  end.

(** Reading such a dict: [d.get(k)]. *)
Fixpoint dict_get {V : Type} (k : string) (d : list (string * V)) : option V :=
  match d with
  | [] => None
  | (k', v') :: rest => if String.eqb k k' then Some v' else dict_get k rest
  end.

(** dict returned by [get_all_balances] *)
Record AllBalances := mkAllBalances {
  ab_wallet_address : string;
  ab_bnb_balance : option BNBTransfer.Balance;
  ab_token_balances : list (string * TokenTransfer.TokenBalance) }.

(** A transaction as [get_transaction] returns it, as far as the code reads
    it: the block number, [None] while the transaction is pending. *)
Record TxInfo := mkTxInfo { txi_blockNumber : option Z }.

(** The three dicts [get_transaction_status] returns; they differ in their
    keys. *)
Inductive TxStatus :=
| StatusMined (tx_hash status : string) (block_number gas_used : Z)
              (explorer_url : string)
| StatusPending (tx_hash status : string) (block_number : option Z)
                (explorer_url : string)
| StatusNotFound (tx_hash status explorer_url : string).

Definition status_of (st : TxStatus) : string :=
  match st with
  | StatusMined _ status _ _ _ => status
  | StatusPending _ status _ _ => status
  | StatusNotFound _ status _ => status
  end.

(** Reading an attribute of [None]. *)
Definition attribute_error (attr : string) : Exn :=
  mkExn (External "AttributeError")
        [Lit "'NoneType' object has no attribute '"; Lit attr; Lit "'"].

Section Wallet.

(** [self.wallet_generator], and the web3 object of [self.bnb_transfer] and
    [self.token_transfer] (both are made from the same URL). *)
Variable L : WalletGenerator.Libraries.
Variable mnemo_generate : Z -> (nat -> Z) -> Ext string * nat.
Variable web3 : Web3.Lib.

(** [web3.eth.get_transaction(tx_hash)]: a round trip the node interface
    above does not have; any computation stands for it. *)
Variable eth_get_transaction : string -> M (option TxInfo).

Definition create_new_wallet (strength : Z) : M WalletGenerator.WalletInfo :=
  logged "Error creating new wallet: "
         (WalletGenerator.create_new_wallet L mnemo_generate strength).

Definition import_wallet_from_mnemonic (mnemonic : string) (account_index : Z)
  : M WalletGenerator.WalletInfo :=
  logged "Error importing wallet from mnemonic: "
         (WalletGenerator.derive_wallet_from_mnemonic L mnemonic account_index).

Definition import_wallet_from_private_key (private_key : string)
  : M WalletGenerator.WalletInfo :=
  logged "Error importing wallet from private key: "
         (WalletGenerator.import_wallet_from_private_key L private_key).

Definition get_bnb_balance (address : string) : M BNBTransfer.Balance :=
  logged "Error getting BNB balance: " (BNBTransfer.get_balance web3 address).

Definition get_token_balance (token_address wallet_address : string)
  : M TokenTransfer.TokenBalance :=
  logged "Error getting token balance: "
         (TokenTransfer.get_token_balance web3 token_address wallet_address).

(** One of the two [for] loops of [get_all_balances] over pairs of a key and
    a token address; the loops differ in the key and in the warning. *)
Fixpoint collect_token_balances (warning : string) (wallet_address : string)
         (items : list (string * string))
         (token_balances : list (string * TokenTransfer.TokenBalance))
  : M (list (string * TokenTransfer.TokenBalance)) :=
  match items with
  | [] => ret token_balances
  | (key, token_address) :: rest =>
      token_balances <-
        try_except
          (token_balance <- get_token_balance token_address wallet_address ;;
           ret (dict_set key token_balance token_balances))
          (fun e =>
             log WARNING (Lit warning :: Lit key :: Lit ": " :: exn_msg e) ;;
             ret token_balances) ;;
      collect_token_balances warning wallet_address rest token_balances
  end.

(** [token_addresses] is [None] for the default. *)
Definition get_all_balances (wallet_address : string)
           (token_addresses : option (list string)) : M AllBalances :=
  logged "Error getting all balances: " (
    bnb_balance <-
      try_except
        (balance <- get_bnb_balance wallet_address ;; ret (Some balance))
        (fun e =>
           log WARNING (Lit "Error getting BNB balance: " :: exn_msg e) ;;
           ret None) ;;
    token_balances <-
      match token_addresses with
      | Some (token_address :: rest) =>
          collect_token_balances "Error getting balance for token "
            wallet_address
            (map (fun a => (a, a)) (token_address :: rest)) []
      | _ =>
          match Config.SAMPLE_TOKENS with
          | _ :: _ =>
              collect_token_balances "Error getting balance for "
                wallet_address Config.SAMPLE_TOKENS []
          | [] => ret []
          end
      end ;;
    ret (mkAllBalances wallet_address bnb_balance token_balances)).

Definition send_bnb (fuel : nat) (private_key to_address : string)
           (amount_bnb : PyFloat.float) (wait : bool)
  : M (option BNBTransfer.SendResult) :=
  logged "Error sending BNB: "
         (BNBTransfer.send_bnb web3 fuel private_key to_address amount_bnb wait).

Definition send_token (fuel : nat)
           (private_key token_address to_address : string)
           (amount : PyFloat.float) (wait : bool)
  : M (option TokenTransfer.SendResult) :=
  logged "Error sending token: "
         (TokenTransfer.send_token web3 fuel private_key token_address
                                   to_address amount wait).

Definition get_token_info (token_address : string) : M TokenTransfer.TokenInfo :=
  logged "Error getting token info: "
         (TokenTransfer.get_token_info web3 token_address).

Definition validate_address (address : string) : M bool :=
  ret (Web3.is_address web3 address).

Definition get_transaction_status (tx_hash : string) : M TxStatus :=
  let explorer_url := Config.BSC_TESTNET_EXPLORER ++ "/tx/" ++ tx_hash in
  logged "Error getting transaction status: " (
    try_except
      (receipt <- rpc (CallGetTransactionReceipt tx_hash)
                    (fun n => eth_get_transaction_receipt n tx_hash) ;;
       match receipt with
       | Some receipt =>
           let status := if (rc_status receipt =? 1)%Z
                         then "Success" else "Failed" in
           ret (StatusMined tx_hash status (rc_blockNumber receipt)
                            (rc_gasUsed receipt) explorer_url)
       | None => raise (attribute_error "status")
       end)
      (fun _ =>
         try_except
           (tx <- eth_get_transaction tx_hash ;;
            match tx with
            | Some tx =>
                let block_number :=
                  match txi_blockNumber tx with
                  | Some 0%Z => None
                  | Some b => Some b
                  | None => None
                  end in
                ret (StatusPending tx_hash "Pending" block_number explorer_url)
            | None => raise (attribute_error "blockNumber")
            end)
           (fun _ => ret (StatusNotFound tx_hash "Not Found" explorer_url)))).

End Wallet.

End BSCWallet.

(* ===================================================================== *)
(** * More test doubles *)
(* ===================================================================== *)

Module Doubles.

Local Open Scope string_scope.

(** Libraries like the symbolic ones that accept a mnemonic only when it has
    twelve words. *)
Definition twelve_words : WalletGenerator.Libraries :=
  WalletGenerator.mkLibraries string (list Z)
    (fun m => inr (Nat.eqb (PyStr.count_words m) 12))
    (fun mnemonic => inr mnemonic)
    (fun _ => inr [])
    (fun k raw => inr (k ++ [raw])%list)
    WalletGenerator.symbolic_key_hex
    (fun k => inr (WalletGenerator.mkEthAccount ("0x" ++ k) ("pub:" ++ k))).

Definition phrase : string :=
  "legal winner thank year wave sausage worth useful legal winner thank yellow".

Definition other_phrase : string :=
  "letter advice cage absurd amount doctor acoustic avoid letter advice cage above".

(** A generator that, for 128 bits, uses one draw and returns [phrase] when
    the draw is even and [other_phrase] when it is odd; it refuses every
    other strength without drawing. *)
Definition generate_phrase (strength : Z) (entropy : nat -> Z)
  : Ext string * nat :=
  if (strength =? 128)%Z then
    (inr (if Z.even (entropy O) then phrase else other_phrase), 1%nat)
  else (inl (mkExtError "ValueError" "Invalid strength value"), O).

(** A web3 double like [Fixtures.lib] for which an address is a string that
    starts with [0x]. *)
Definition strict_lib : Web3.Lib :=
  Web3.mkLib
    (fun a => PyStr.startswith a "0x")
    (fun a => a)
    Fixtures.to_wei_whole
    (fun k => inr ("0x" ++ k))
    (fun tx k => inr ("signed:" ++ PyStr.of_int (tx_nonce tx) ++ ":" ++ k)).

(** A node on which every query fails. *)
Definition down : ExtError := mkExtError "ConnectionError" "connection refused".

Definition dead_node : Node :=
  mkNode (fun _ => inl down) (inl down) (fun _ => inl down) (fun _ => inl down)
         (fun _ => inl down) (fun _ => inl down) (fun _ => inl down)
         (fun _ => inl down) (fun _ => inl down) (fun _ _ => inl down).

(** [get_transaction] doubles: the transaction is unknown, or it is pending. *)
Definition unknown_transaction (tx_hash : string) : M (option BSCWallet.TxInfo) :=
  raise (exn_of_ext Fixtures.not_found).

Definition pending_transaction (tx_hash : string) : M (option BSCWallet.TxInfo) :=
  ret (Some (BSCWallet.mkTxInfo None)).

End Doubles.

(* ===================================================================== *)
(** * Vocabulary of the statements *)
(* ===================================================================== *)

(** The requested amount, read exactly, is more than a balance in wei. *)
Definition exceeds_balance (amount_bnb : PyFloat.float) (balance_wei : Z) : Prop :=
  match amount_bnb with
  | S754_infinity false => True
  | _ => match PyFloat.to_Q amount_bnb with
         | Some q => (inject_Z balance_wei < q * inject_Z (10 ^ 18))%Q
         | None => False
         end
  end.

(** A computation never changes the node's answers nor the round-trip times;
    the clock never goes back; calls are only appended. *)
Definition later (w w' : World) : Prop :=
  w_node w' = w_node w /\ w_rtt w' = w_rtt w /\ w_time w <= w_time w'.

Definition steady {A} (c : M A) : Prop := forall w, later w (snd (c w)).

(** The world when [send_bnb] reaches its balance check: four log lines
    after the start, nothing else has changed. *)
Definition send_bnb_preamble (from_address to_address : string)
           (amount_bnb : PyFloat.float) (w : World) : World :=
  mkWorld (w_time w) (w_node w) (w_rtt w)
          ((((w_log w ++ [(INFO, [Lit "=== BNB Transfer Process Started ==="])])
               ++ [(INFO, [Lit "From: "; Lit from_address])])
              ++ [(INFO, [Lit "To: "; Lit to_address])])
             ++ [(INFO, [Lit "Amount: "; Flt amount_bnb; Lit " BNB"])])
          (w_calls w) (w_entropy w).

(** The collaborator calls that only query the node. *)
Definition is_read (c : Call) : bool :=
  match c with
  | CallGetBalance _ => true
  | CallGasPrice => true
  | CallGetTransactionCount _ => true
  | CallGetTransactionReceipt _ => true
  | CallContract _ _ => true
  | CallSendRawTransaction _ => false
  | CallBuildTransfer _ _ _ => false
  | CallSignTransaction _ _ => false
  end.

(** A computation whose collaborator calls are all queries. *)
Definition read_only {A} (c : M A) : Prop :=
  forall w, exists l,
    w_calls (snd (c w)) = (w_calls w ++ l)%list /\ forallb is_read l = true.

(** A computation that returns in every world. *)
Definition never_raises {A} (c : M A) : Prop :=
  forall w, exists a w', c w = (Ok a, w').

(** The answer of a contract call, or the default when the call fails. *)
Definition or_default {A} (r : Ext A) (d : A) : A :=
  match r with
  | inl _ => d
  | inr a => a
  end.

(** The four contract calls of [get_token_info], in order. *)
Definition token_info_calls (contract : string) : list Call :=
  [ CallContract contract "name"; CallContract contract "symbol";
    CallContract contract "decimals"; CallContract contract "totalSupply" ].

(** The token information read from a node whose answers do not change. *)
Definition token_info_on (web3 : Web3.Lib) (n : Node) (token : string)
  : TokenTransfer.TokenInfo :=
  let contract := Web3.to_checksum_address web3 token in
  TokenTransfer.mkTokenInfo
    contract
    (or_default (call_name n contract) "Unknown"%string)
    (or_default (call_symbol n contract) "UNK"%string)
    (or_default (call_decimals n contract) 18)
    (or_default (call_totalSupply n contract) 0).

(** The balance [get_balance] returns when the node answers as [n] does, and
    [None] when it raises there: the address must be one, the node must give
    the balance, and the balance must be a number of wei. *)
Definition bnb_balance_on (web3 : Web3.Lib) (n : Node) (address : string)
  : option BNBTransfer.Balance :=
  if Web3.is_address web3 address then
    let checksum_address := Web3.to_checksum_address web3 address in
    match eth_get_balance n checksum_address with
    | inr balance_wei =>
        match Web3.from_wei balance_wei 18 with
        | inr balance_bnb =>
            Some (BNBTransfer.mkBalance checksum_address balance_wei
                                        (Web3.float_of_decimal balance_bnb))
        | inl _ => None
        end
    | inl _ => None
    end
  else None.

(** The token balance [get_token_balance] returns on a node whose answers
    do not change, and [None] when it raises there: both addresses must be
    addresses, the contract must answer [balanceOf], and the division by
    [10 ^ decimals] must succeed. *)
Definition token_balance_on (web3 : Web3.Lib) (n : Node)
           (token wallet : string) : option TokenTransfer.TokenBalance :=
  if Web3.is_address web3 token && Web3.is_address web3 wallet then
    let info := token_info_on web3 n token in
    let checksum_wallet := Web3.to_checksum_address web3 wallet in
    match call_balanceOf n (Web3.to_checksum_address web3 token)
                         checksum_wallet with
    | inr balance_raw =>
        match TokenTransfer.raw_to_amount
                balance_raw (TokenTransfer.ti_decimals info) with
        | inr balance_formatted =>
            Some (TokenTransfer.mkTokenBalance
                    checksum_wallet (TokenTransfer.ti_address info)
                    (TokenTransfer.ti_name info) (TokenTransfer.ti_symbol info)
                    balance_raw balance_formatted
                    (TokenTransfer.ti_decimals info))
        | inl _ => None
        end
    | inl _ => None
    end
  else None.

(** The keys and the token addresses [get_all_balances] goes through: the
    addresses asked for, each under itself, or the sample tokens under
    their names. *)
Definition balance_items (token_addresses : option (list string))
  : list (string * string) :=
  match token_addresses with
  | Some (token :: rest) => map (fun a => (a, a)) (token :: rest)
  | _ => Config.SAMPLE_TOKENS
  end.

(** Both conversions agree with exact arithmetic on the whole amount [n] at 18
    decimals. *)
Definition whole_amount_exact (n : Z) : bool :=
  match TokenTransfer.amount_to_raw (PyFloat.of_ratio n 1) 18 with
  | inr raw =>
      (raw =? n * 10 ^ 18)
      && match TokenTransfer.raw_to_amount raw 18 with
         | inr x => PyFloat.eqb x (PyFloat.of_ratio n 1)
         | inl _ => false
         end
  | inl _ => false
  end.

(* ===================================================================== *)
(** * Reasoning about the monad *)
(* ===================================================================== *)

Local Open Scope py_scope.

Lemma bind_ok {A B} (c : M A) (k : A -> M B) w b w' :
  bind c k w = (Ok b, w') ->
  exists a w1, c w = (Ok a, w1) /\ k a w1 = (Ok b, w').
Proof.
  unfold bind. destruct (c w) as [[a | e] w1]; intros H.
  - exists a, w1. split; [reflexivity | exact H].
  - discriminate H.
Qed.

Lemma bind_eq {A B} (c : M A) (k : A -> M B) w a w1 :
  c w = (Ok a, w1) -> bind c k w = k a w1.
Proof. unfold bind. intros ->. reflexivity. Qed.

Lemma bind_raise {A B} (c : M A) (k : A -> M B) w e w1 :
  c w = (Raise e, w1) -> bind c k w = (Raise e, w1).
Proof. unfold bind. intros ->. reflexivity. Qed.

Lemma logged_ok {A} prefix (c : M A) w a w' :
  logged prefix c w = (Ok a, w') -> c w = (Ok a, w').
Proof.
  unfold logged, try_except. destruct (c w) as [[a0 | e] w1]; intros H.
  - exact H.
  - cbv in H. discriminate H.
Qed.

Lemma logged_eq {A} prefix (c : M A) w a w' :
  c w = (Ok a, w') -> logged prefix c w = (Ok a, w').
Proof. unfold logged, try_except. intros ->. reflexivity. Qed.

Lemma logged_raise {A} prefix (c : M A) w e w1 :
  c w = (Raise e, w1) ->
  logged prefix c w =
  (Raise e, mkWorld (w_time w1) (w_node w1) (w_rtt w1)
                    (w_log w1 ++ [(ERROR, Lit prefix :: exn_msg e)])
                    (w_calls w1) (w_entropy w1)).
Proof. unfold logged, try_except. intros ->. reflexivity. Qed.

Lemma entropy_call_ok {A} (f : (nat -> Z) -> Ext A * nat) w a w' :
  entropy_call f w = (Ok a, w') ->
  fst (f (w_entropy w)) = inr a
  /\ w_calls w' = w_calls w /\ w_time w' = w_time w /\ w_node w' = w_node w
  /\ forall i, w_entropy w' i = w_entropy w (snd (f (w_entropy w)) + i)%nat.
Proof.
  unfold entropy_call. destruct (f (w_entropy w)) as [[err | a0] used];
    intros H; inversion H; subst; cbn. repeat split.
Qed.

Lemma lift_ext_ok {A} (r : Ext A) w a w' :
  lift_ext r w = (Ok a, w') -> r = inr a /\ w' = w.
Proof.
  destruct r as [err | a0]; cbn; intros H; inversion H; subst; auto.
Qed.

Lemma rpc_eq {A} c (f : Node -> Ext A) w :
  rpc c f w =
  (match f (w_node w (w_time w)) with
   | inl err => Raise (exn_of_ext err)
   | inr a => Ok a
   end, tick c w).
Proof.
  unfold rpc, bind, rpc_ext.
  destruct (f (w_node w (w_time w))); reflexivity.
Qed.

Lemma rpc_ok {A} c (f : Node -> Ext A) w a w' :
  rpc c f w = (Ok a, w') ->
  f (w_node w (w_time w)) = inr a /\ w' = tick c w.
Proof.
  rewrite rpc_eq. destruct (f (w_node w (w_time w))); intros H;
    inversion H; subst; auto.
Qed.

(** [try: x = rpc(...)  except: x = default], as in [get_token_info]. *)
Lemma rpc_default_eq {A} c (f : Node -> Ext A) (d : A) w :
  try_except (rpc c f) (fun _ => ret d) w =
  (Ok (match f (w_node w (w_time w)) with
       | inl _ => d
       | inr a => a
       end), tick c w).
Proof.
  unfold try_except. rewrite rpc_eq.
  destruct (f (w_node w (w_time w))); reflexivity.
Qed.

(** ** Worlds only move forward *)

Lemma later_refl w : later w w.
Proof. unfold later. repeat split; lia. Qed.

Lemma later_trans w1 w2 w3 : later w1 w2 -> later w2 w3 -> later w1 w3.
Proof.
  unfold later. intros (N1 & R1 & T1) (N2 & R2 & T2).
  repeat split; try congruence; lia.
Qed.

Lemma later_tick c w : later w (tick c w).
Proof. unfold later, tick; cbn. repeat split; lia. Qed.

Lemma steady_run {A} (c : M A) w r w' :
  steady c -> c w = (r, w') -> later w w'.
Proof. intros S H. specialize (S w). rewrite H in S. exact S. Qed.

Lemma steady_ret {A} (a : A) : steady (ret a).
Proof. intros w. apply later_refl. Qed.

Lemma steady_raise {A} e : steady (@raise A e).
Proof. intros w. apply later_refl. Qed.

Lemma steady_log lvl msg : steady (log lvl msg).
Proof. intros w. unfold later; cbn. repeat split; lia. Qed.

Lemma steady_time_time : steady time_time.
Proof. intros w. apply later_refl. Qed.

Lemma steady_time_sleep secs : 0 <= secs -> steady (time_sleep secs).
Proof.
  intros H w. unfold later, time_sleep. cbn [snd w_time w_node w_rtt].
  repeat split; lia.
Qed.

Lemma steady_lift_ext {A} (r : Ext A) : steady (lift_ext r).
Proof. destruct r; intros w; apply later_refl. Qed.

Lemma steady_entropy_call {A} (f : (nat -> Z) -> Ext A * nat) :
  steady (entropy_call f).
Proof.
  intros w. unfold entropy_call, later.
  destruct (f (w_entropy w)) as [[err | a] used]; cbn; repeat split;
    reflexivity || lia.
Qed.

Lemma steady_local_call {A} c (r : Ext A) : steady (local_call c r).
Proof.
  intros w. unfold local_call, later.
  destruct r; cbn; repeat split; reflexivity || lia.
Qed.

Lemma steady_rpc_ext {A} c (f : Node -> Ext A) : steady (rpc_ext c f).
Proof. intros w. apply later_tick. Qed.

Lemma steady_rpc {A} c (f : Node -> Ext A) : steady (rpc c f).
Proof. intros w. rewrite rpc_eq. apply later_tick. Qed.

Lemma steady_bind {A B} (c : M A) (k : A -> M B) :
  steady c -> (forall a, steady (k a)) -> steady (bind c k).
Proof.
  intros Sc Sk w. unfold bind.
  pose proof (Sc w) as H. destruct (c w) as [[a | e] w1]; cbn in H.
  - eapply later_trans; [exact H | apply Sk].
  - exact H.
Qed.

Lemma steady_try_except {A} (c : M A) (h : Exn -> M A) :
  steady c -> (forall e, steady (h e)) -> steady (try_except c h).
Proof.
  intros Sc Sh w. unfold try_except.
  pose proof (Sc w) as H. destruct (c w) as [[a | e] w1]; cbn in H.
  - exact H.
  - eapply later_trans; [exact H | apply Sh].
Qed.

Lemma steady_logged {A} prefix (c : M A) : steady c -> steady (logged prefix c).
Proof.
  intros Sc. unfold logged. apply steady_try_except; [exact Sc | intros e].
  apply steady_bind; [apply steady_log | intros _; apply steady_raise].
Qed.

Create HintDb steady.
#[local] Hint Resolve steady_ret steady_raise steady_log steady_time_time
  steady_lift_ext steady_entropy_call steady_local_call steady_rpc_ext
  steady_rpc steady_bind
  steady_try_except steady_logged : steady.

Ltac steady_tac :=
  repeat first
    [ progress auto with steady
    | apply steady_logged
    | apply steady_bind; [ | intro ]
    | apply steady_try_except; [ | intro ]
    | match goal with
      | |- steady (if ?b then _ else _) => destruct b
      | |- steady (match ?x with _ => _ end) => destruct x
      end ].

Lemma steady_estimate_gas_price : steady Web3.estimate_gas_price.
Proof. unfold Web3.estimate_gas_price. steady_tac. Qed.

Lemma steady_get_token_contract web3 token :
  steady (TokenTransfer.get_token_contract web3 token).
Proof. unfold TokenTransfer.get_token_contract. steady_tac. Qed.

Lemma steady_get_token_info web3 token :
  steady (TokenTransfer.get_token_info web3 token).
Proof.
  unfold TokenTransfer.get_token_info. apply steady_logged.
  apply steady_bind; [apply steady_get_token_contract | intro].
  steady_tac.
Qed.

Lemma steady_gas_price_choice (gas_price : option Z) :
  steady (match gas_price with
          | None => Web3.estimate_gas_price
          | Some p => ret p
          end).
Proof. destruct gas_price; [apply steady_ret | apply steady_estimate_gas_price]. Qed.

Lemma local_call_ok {A} c (r : Ext A) w a w' :
  local_call c r w = (Ok a, w') -> r = inr a /\ later w w'.
Proof.
  intros H. split.
  - unfold local_call in H. destruct r; inversion H; reflexivity.
  - eapply steady_run; [apply steady_local_call | exact H].
Qed.

Lemma build_transfer_ok contract recipient amount chainId gas gasPrice nonce tx :
  TokenTransfer.build_transfer contract recipient amount chainId gas gasPrice
                               nonce = inr tx ->
  Web3.is_encodable_uint256 amount = true /\
  tx = mkTransaction nonce contract 0 gas gasPrice chainId
                     (TransferCall recipient amount).
Proof.
  unfold TokenTransfer.build_transfer.
  destruct (Web3.is_encodable_uint256 amount); intros H; inversion H; auto.
Qed.

(** Inversion of a successful run, one step at a time. *)
Ltac step_ok H :=
  match type of H with
  | logged _ _ _ = (Ok _, _) => apply logged_ok in H
  | raise _ _ = (Ok _, _) => discriminate H
  | (if ?b then _ else _) _ = (Ok _, _) =>
      let E := fresh "E" in destruct b eqn:E
  | bind (lift_ext _) _ _ = (Ok _, _) =>
      let a := fresh "a" in let w := fresh "w" in
      let H1 := fresh "H" in let E := fresh "E" in
      apply bind_ok in H; destruct H as (a & w & H1 & H);
      apply lift_ext_ok in H1; destruct H1 as [E ->]
  | bind (rpc _ _) _ _ = (Ok _, _) =>
      let a := fresh "a" in let w := fresh "w" in
      let H1 := fresh "H" in let E := fresh "E" in
      apply bind_ok in H; destruct H as (a & w & H1 & H);
      apply rpc_ok in H1; destruct H1 as [E ->]
  | bind _ _ _ = (Ok _, _) =>
      let a := fresh "a" in let w := fresh "w" in let H1 := fresh "H" in
      apply bind_ok in H; destruct H as (a & w & H1 & H)
  | ret _ _ = (Ok _, _) => unfold ret in H; inversion H; subst; clear H
  end.

(* ===================================================================== *)
(** * The float model on known values *)
(* ===================================================================== *)

(** The literals [0.1], [0.29] and [1.0] as binary64 values
    ([0x3FB999999999999A], [0x3FD28F5C28F5C28F], [0x3FF0000000000000]), the
    products [0.1 * 3] and [0.29 * 100], and a balance one wei short of one
    BNB, which is [1.0] as a float. *)
Lemma float_model_examples :
  PyFloat.of_ratio 1 10 = S754_finite false 7205759403792794 (-56)
  /\ PyFloat.of_ratio 29 100 = S754_finite false 5224175567749775 (-54)
  /\ PyFloat.of_ratio 1 1 = S754_finite false 4503599627370496 (-52)
  /\ Web3.float_mul_int (PyFloat.of_ratio 1 10) 3 =
     inr (S754_finite false 5404319552844596 (-54))
  /\ Web3.py_int (PyFloat.mul (PyFloat.of_ratio 29 100) (PyFloat.of_ratio 100 1))
     = inr 28
  /\ PyFloat.of_ratio (10 ^ 18 - 1) (10 ^ 18) = PyFloat.of_ratio 1 1.
Proof. repeat split; vm_compute; reflexivity. Qed.

(* ===================================================================== *)
(** * The nonce of a constructed transaction *)
(* ===================================================================== *)

(** C9.  Whenever [create_transaction] (native) or
    [create_token_transfer_transaction] (token) returns a transaction, its
    nonce is the transaction count the node reports for the sender at an
    instant inside that very call: the count is read from the node during
    the construction and nothing kept from an earlier call is used. *)
Theorem nonce_read_fresh
        (web3 : Web3.Lib) (token from_address to_address : string)
        (amount : PyFloat.float) (gas_price : option Z)
        (w w' : World) (tx : Transaction) :
  BNBTransfer.create_transaction web3 from_address to_address amount
                                 gas_price w = (Ok tx, w')
  \/ TokenTransfer.create_token_transfer_transaction
       web3 token from_address to_address amount gas_price w = (Ok tx, w') ->
  exists t,
    w_time w <= t <= w_time w' /\
    eth_get_transaction_count (w_node w t)
      (Web3.to_checksum_address web3 from_address) = inr (tx_nonce tx).
Proof.
  intros [H | H].
  - unfold BNBTransfer.create_transaction in H.
    repeat step_ok H.
    match goal with
    | Hl : log _ _ _ = (Ok _, w') |- _ =>
        pose proof (steady_run _ _ _ _ (steady_log _ _) Hl) as L2
    end.
    match goal with
    | Hg : _ w = (Ok _, ?wg) |- _ =>
        assert (L1 : later w wg)
          by (destruct gas_price;
              [ step_ok Hg; apply later_refl
              | eapply steady_run; [apply steady_estimate_gas_price | exact Hg] ]);
        exists (w_time wg)
    end.
    destruct L1 as (N1 & _ & T1). destruct L2 as (_ & _ & T2).
    cbn [tx_nonce]. rewrite <- N1. split; [ | assumption ].
    unfold tick in T2; cbn [w_time] in T2. lia.
  - unfold TokenTransfer.create_token_transfer_transaction in H.
    repeat step_ok H.
    repeat match goal with
    | Hc : TokenTransfer.get_token_contract _ _ _ = _ |- _ =>
        apply (steady_run _ _ _ _ (steady_get_token_contract _ _)) in Hc
    | Hc : TokenTransfer.get_token_info _ _ _ = _ |- _ =>
        apply (steady_run _ _ _ _ (steady_get_token_info _ _)) in Hc
    | Hc : log _ _ _ = _ |- _ =>
        apply (steady_run _ _ _ _ (steady_log _ _)) in Hc
    | Hc : local_call _ _ _ = (Ok _, _) |- _ =>
        apply local_call_ok in Hc; destruct Hc as [Hb ?];
        apply build_transfer_ok in Hb; destruct Hb as [_ ->]
    | Hc : match gas_price with _ => _ end _ = _ |- _ =>
        apply (steady_run _ _ _ _ (steady_gas_price_choice _)) in Hc
    end.
    match goal with
    | Hn : eth_get_transaction_count (w_node ?wg _) _ = inr _ |- _ =>
        exists (w_time wg); cbn [tx_nonce];
        assert (L1 : later w wg) by (repeat (eapply later_trans; [eassumption | ]); apply later_refl);
        assert (L2 : later (tick (CallGetTransactionCount
                   (Web3.to_checksum_address web3 from_address)) wg) w')
          by (repeat (eapply later_trans; [eassumption | ]); apply later_refl);
        destruct L1 as (N1 & _ & T1); destruct L2 as (_ & _ & T2);
        rewrite <- N1; split; [ | assumption ];
        unfold tick in T2; cbn [w_time] in T2; lia
    end.
Qed.

(** The witness of C9: a native transfer built on a node whose count is 7. *)
Lemma nonce_read_fresh_witness :
  let w := Fixtures.world
             (Fixtures.node (5 * 10 ^ 18) 7 (inr "0xhash"%string) (inr None)
                            (inr 18)) 25 in
  let run := BNBTransfer.create_transaction Fixtures.lib "me" "dest"
               Fixtures.one None w in
  exists t,
    w_time w <= t <= w_time (snd run) /\
    eth_get_transaction_count (w_node w t) "me" = inr 7.
Proof.
  intros w run.
  apply (nonce_read_fresh Fixtures.lib "tok" "me" "dest" Fixtures.one None w
           (snd run)
           (mkTransaction 7 "dest" (10 ^ 18) 21000 10000000000 97 NoData)).
  left. vm_compute. reflexivity.
Defined.

(** Two transactions built in a row on a node whose count grows with time
    (one more transaction every 100 milliseconds, round trips of 100
    milliseconds): the first carries nonce 1, the second nonce 3. *)
Lemma nonce_follows_the_node :
  let node_at t := Fixtures.node (5 * 10 ^ 18) (t / 100)
                                 (inr "0xhash"%string) (inr None) (inr 18) in
  let w := mkWorld 0 node_at (fun _ => 100%N) [] [] (fun _ => 0) in
  let build := BNBTransfer.create_transaction Fixtures.lib "me" "dest"
                                              Fixtures.one None in
  fst (bind build (fun tx1 => bind build (fun tx2 =>
         ret (tx_nonce tx1, tx_nonce tx2))) w) = Ok (1, 3).
Proof. vm_compute. reflexivity. Qed.

(* ===================================================================== *)
(** * The balance check of [send_bnb] *)
(* ===================================================================== *)

Lemma from_wei_in_range number scale :
  0 <= number <= Web3.MAX_WEI ->
  Web3.from_wei number scale = inr (number, scale).
Proof.
  intros H. unfold Web3.from_wei, Web3.MIN_WEI.
  destruct (Z.ltb_spec number 0); [lia |].
  destruct (Z.ltb_spec Web3.MAX_WEI number); [lia | reflexivity].
Qed.

Lemma get_balance_eq web3 address w bal :
  Web3.is_address web3 address = true ->
  eth_get_balance (w_node w (w_time w))
                  (Web3.to_checksum_address web3 address) = inr bal ->
  0 <= bal <= Web3.MAX_WEI ->
  exists w1,
    BNBTransfer.get_balance web3 address w =
    (Ok (BNBTransfer.mkBalance (Web3.to_checksum_address web3 address) bal
                               (PyFloat.of_ratio bal (10 ^ 18))), w1)
    /\ w_calls w1 =
       (w_calls w ++ [CallGetBalance (Web3.to_checksum_address web3 address)])%list.
Proof.
  intros Ha Hb Hr. unfold BNBTransfer.get_balance.
  rewrite Ha. cbn [negb].
  eexists. split.
  - apply logged_eq.
    erewrite bind_eq; [ | rewrite rpc_eq, Hb; reflexivity ].
    rewrite (from_wei_in_range _ 18 Hr). reflexivity.
  - reflexivity.
Qed.

(** X22.  The balance check of [send_bnb] as the code makes it.  When the
    key is usable and the node reports the sender's balance, and that
    balance, converted to BNB and rounded to a float, is less than the
    requested amount, [send_bnb] raises the [ValueError] with the
    insufficient-balance text (followed by the faucet hint when the balance
    is zero) and its only collaborator call is the balance query: no
    transaction is built, signed or broadcast. *)
Theorem send_bnb_balance_gate
        (web3 : Web3.Lib) (fuel : nat) (private_key to_address : string)
        (amount_bnb : PyFloat.float) (wait : bool) (w : World)
        (from_address : string) (bal : Z) :
  Web3.Account_from_key web3 private_key = inr from_address ->
  Web3.is_address web3 from_address = true ->
  eth_get_balance (w_node w (w_time w))
                  (Web3.to_checksum_address web3 from_address) = inr bal ->
  0 <= bal <= Web3.MAX_WEI ->
  PyFloat.ltb (PyFloat.of_ratio bal (10 ^ 18)) amount_bnb = true ->
  exists w',
    BNBTransfer.send_bnb web3 fuel private_key to_address amount_bnb wait w =
    (Raise (mkExn ValueError
              (BNBTransfer.insufficient_balance_msg
                 (BNBTransfer.mkBalance
                    (Web3.to_checksum_address web3 from_address) bal
                    (PyFloat.of_ratio bal (10 ^ 18)))
                 amount_bnb from_address)), w')
    /\ w_calls w' =
       (w_calls w ++ [CallGetBalance (Web3.to_checksum_address web3 from_address)])%list.
Proof.
  intros Hk Ha Hb Hr Hlt.
  destruct (get_balance_eq web3 from_address
              (send_bnb_preamble from_address to_address amount_bnb w) bal
              Ha Hb Hr) as (w1 & Hg & Hc).
  unfold BNBTransfer.send_bnb.
  eexists. split.
  - erewrite logged_raise; [ reflexivity | ].
    rewrite Hk.
    change (bind (lift_ext (inr from_address)) ?k w) with (k from_address w).
    cbv beta.
    repeat (erewrite bind_eq; [ | reflexivity ]).
    erewrite bind_eq; [ | exact Hg ].
    cbn [BNBTransfer.balance_bnb]. rewrite Hlt. reflexivity.
  - cbn [w_calls]. exact Hc.
Qed.

(** The witness of X22: an empty wallet asked for one BNB. *)
Lemma send_bnb_balance_gate_witness :
  let w := Fixtures.world
             (Fixtures.node 0 0 (inr "0xhash"%string) (inr None) (inr 18)) 40 in
  exists w',
    BNBTransfer.send_bnb Fixtures.lib 200 "k" "dest" Fixtures.one true w =
    (Raise (mkExn ValueError
              (BNBTransfer.insufficient_balance_msg
                 (BNBTransfer.mkBalance "addr:k" 0 (PyFloat.of_ratio 0 (10 ^ 18)))
                 Fixtures.one "addr:k")), w')
    /\ w_calls w' = [CallGetBalance "addr:k"].
Proof.
  intros w.
  apply (send_bnb_balance_gate Fixtures.lib 200 "k" "dest" Fixtures.one true w
           "addr:k" 0).
  - reflexivity.
  - reflexivity.
  - reflexivity.
  - unfold Web3.MAX_WEI. lia.
  - vm_compute. reflexivity.
Defined.

(** C5, at the failing input.  The sender holds [10 ^ 18 - 1] wei and asks
    for one BNB, which is [10 ^ 18] wei: the amount exceeds the balance.
    [get_balance] makes the balance a float, [1.0]; the check of [send_bnb],
    [1.0 < 1.0], does not fire, and the transaction is built, signed and
    handed to the node.  With a balance of [10 ^ 18 - 65] wei, which rounds
    below [1.0], the check fires and the balance query is the only call. *)
Theorem send_bnb_gate_at_failing_input :
  let world_with balance :=
    Fixtures.world
      (Fixtures.node balance 7 (inr "0xhash"%string) (inr None) (inr 18)) 0 in
  let w := world_with (10 ^ 18 - 1) in
  let run := BNBTransfer.send_bnb Fixtures.lib 0 "k" "dest" Fixtures.one false w in
  let near := BNBTransfer.send_bnb Fixtures.lib 0 "k" "dest" Fixtures.one false
                                   (world_with (10 ^ 18 - 65)) in
  exceeds_balance Fixtures.one (10 ^ 18 - 1)
  /\ eth_get_balance (w_node w (w_time w)) "addr:k" = inr (10 ^ 18 - 1)
  /\ fst (BNBTransfer.get_balance Fixtures.lib "addr:k" w) =
     Ok (BNBTransfer.mkBalance "addr:k" (10 ^ 18 - 1) Fixtures.one)
  /\ (exists r, fst run = Ok (Some r)
                /\ BNBTransfer.sr_tx_hash r = "0xhash"%string)
  /\ w_calls (snd run) =
     [ CallGetBalance "addr:k"; CallGasPrice; CallGetTransactionCount "addr:k";
       CallSignTransaction
         (mkTransaction 7 "dest" (10 ^ 18) 21000 10000000000 97 NoData) "k";
       CallSendRawTransaction "signed:7:k" ]
  /\ (exists e, fst near = Raise e /\ exn_class e = ValueError)
  /\ w_calls (snd near) = [ CallGetBalance "addr:k" ].
Proof.
  intros world_with w run near.
  split; [ vm_compute; reflexivity | ].
  split; [ reflexivity | ].
  split; [ vm_compute; reflexivity | ].
  split; [ eexists; split; vm_compute; reflexivity | ].
  split; [ vm_compute; reflexivity | ].
  split; [ eexists; split; vm_compute; reflexivity | ].
  vm_compute. reflexivity.
Qed.

(* ===================================================================== *)
(** * Signing with a prefixed key *)
(* ===================================================================== *)

Lemma hex_not_prefixed (k : string) :
  PyStr.is_hex k = true -> PyStr.startswith k "0x" = false.
Proof.
  unfold PyStr.startswith.
  destruct k as [ | c1 [ | c2 k ] ]; cbn [String.prefix PyStr.is_hex];
    try reflexivity.
  - intros _. destruct (ascii_dec "0" c1); reflexivity.
  - intros H. destruct (ascii_dec "0" c1); [ | reflexivity ].
    destruct (ascii_dec "x" c2) as [ <- | ]; [ | reflexivity ].
    apply andb_prop in H. destruct H as [_ H].
    apply andb_prop in H. destruct H as [H _].
    vm_compute in H. discriminate H.
Qed.

Lemma prefixed_stripped (k : string) :
  (if PyStr.startswith ("0x" ++ k) "0x" then PyStr.drop 2 ("0x" ++ k)
   else ("0x" ++ k)%string) = k.
Proof. destruct k; reflexivity. Qed.

(** What [sign_transaction] does with a key that has no prefix: it calls the
    signer once with the transaction and that key, and returns what the
    signer returns or raises what it raises. *)
Lemma sign_transaction_with_run web3 ok_text error_prefix transaction k w :
  PyStr.startswith k "0x" = false ->
  let run := Web3.sign_transaction_with web3 ok_text error_prefix
                                        transaction k w in
  fst run = match Web3.account_sign_transaction web3 transaction k with
            | inr raw => Ok raw
            | inl err => Raise (exn_of_ext err)
            end
  /\ w_calls (snd run) = (w_calls w ++ [CallSignTransaction transaction k])%list.
Proof.
  intros Hk. unfold Web3.sign_transaction_with. rewrite Hk.
  unfold logged, try_except, bind, local_call.
  destruct (Web3.account_sign_transaction web3 transaction k) as [err | raw];
    cbn; split; reflexivity.
Qed.

(** C10.  For a key [k] made of hexadecimal digits, both [sign_transaction]
    methods do exactly the same on ["0x" ++ k] as on [k] (the same result,
    the same log, the same calls), and what they do is sign with [k]: the
    signer is called once, with the transaction and [k] without the prefix,
    and its signed transaction is returned, or its error raised. *)
Theorem sign_transaction_prefix_optional
        (web3 : Web3.Lib) (transaction : Transaction) (k : string) (w : World) :
  PyStr.is_hex k = true ->
  BNBTransfer.sign_transaction web3 transaction ("0x" ++ k) w =
  BNBTransfer.sign_transaction web3 transaction k w
  /\ TokenTransfer.sign_transaction web3 transaction ("0x" ++ k) w =
     TokenTransfer.sign_transaction web3 transaction k w
  /\ forall sign,
       In sign [ BNBTransfer.sign_transaction web3;
                 TokenTransfer.sign_transaction web3 ] ->
       fst (sign transaction ("0x" ++ k)%string w) =
       match Web3.account_sign_transaction web3 transaction k with
       | inr raw => Ok raw
       | inl err => Raise (exn_of_ext err)
       end
       /\ w_calls (snd (sign transaction ("0x" ++ k)%string w)) =
          (w_calls w ++ [CallSignTransaction transaction k])%list.
Proof.
  intros H.
  assert (E1 : BNBTransfer.sign_transaction web3 transaction ("0x" ++ k) w =
               BNBTransfer.sign_transaction web3 transaction k w).
  { unfold BNBTransfer.sign_transaction, Web3.sign_transaction_with.
    rewrite (hex_not_prefixed k H), (prefixed_stripped k). reflexivity. }
  assert (E2 : TokenTransfer.sign_transaction web3 transaction ("0x" ++ k) w =
               TokenTransfer.sign_transaction web3 transaction k w).
  { unfold TokenTransfer.sign_transaction, Web3.sign_transaction_with.
    rewrite (hex_not_prefixed k H), (prefixed_stripped k). reflexivity. }
  split; [ exact E1 | split; [ exact E2 | ] ].
  intros sign [ <- | [ <- | [] ] ].
  - rewrite E1. unfold BNBTransfer.sign_transaction.
    apply sign_transaction_with_run, hex_not_prefixed, H.
  - rewrite E2. unfold TokenTransfer.sign_transaction.
    apply sign_transaction_with_run, hex_not_prefixed, H.
Qed.

(** The witness of C10: a 64-digit key, on a signer whose answer shows the
    nonce and the key it was given. *)
Lemma sign_transaction_prefix_optional_witness :
  let k := "4c0883a69102937d6231471b5dbb6204fe5129617082792ae468d01a3f362318"%string in
  let tx := mkTransaction 7 "dest" (10 ^ 18) 21000 10000000000 97 NoData in
  let w := Fixtures.world
             (Fixtures.node 0 7 (inr "0xhash"%string) (inr None) (inr 18)) 0 in
  let run := TokenTransfer.sign_transaction Fixtures.lib tx ("0x" ++ k) w in
  fst run = Ok ("signed:7:" ++ k)%string
  /\ w_calls (snd run) = [CallSignTransaction tx k]
  /\ BNBTransfer.sign_transaction Fixtures.lib tx ("0x" ++ k) w =
     BNBTransfer.sign_transaction Fixtures.lib tx k w.
Proof.
  intros k tx w run.
  destruct (sign_transaction_prefix_optional Fixtures.lib tx k w)
    as (E1 & _ & Hrun).
  - vm_compute. reflexivity.
  - destruct (Hrun (TokenTransfer.sign_transaction Fixtures.lib))
      as (Hr & Hc).
    + right. left. reflexivity.
    + split; [ exact Hr | split; [ exact Hc | exact E1 ] ].
Defined.

(* ===================================================================== *)
(** * Derivation of a wallet *)
(* ===================================================================== *)

Lemma derive_wallet_any_world
      (L : WalletGenerator.Libraries) (mnemonic : string) (account_index : Z)
      (w1 w2 : World) :
  fst (WalletGenerator.derive_wallet_from_mnemonic L mnemonic account_index w1) =
  fst (WalletGenerator.derive_wallet_from_mnemonic L mnemonic account_index w2).
Proof.
  unfold WalletGenerator.derive_wallet_from_mnemonic,
    WalletGenerator.validate_mnemonic, logged, try_except, bind, lift_ext.
  destruct (WalletGenerator.mnemo_check L mnemonic) as [err | [ | ]];
    cbn; try reflexivity.
  destruct (WalletGenerator.Bip39SeedGenerator L mnemonic) as [err | seed];
    cbn; try reflexivity.
  destruct (WalletGenerator.derive_leaf L seed account_index) as [err | leaf];
    cbn; try reflexivity.
  destruct (WalletGenerator.Account_from_key L _) as [err | account];
    cbn; reflexivity.
Qed.

(** The derivation only writes to the log: it uses no draw of the entropy
    source, calls no collaborator and takes no time. *)
Lemma derive_wallet_quiet
      (L : WalletGenerator.Libraries) (mnemonic : string) (account_index : Z)
      (w : World) :
  let w' := snd (WalletGenerator.derive_wallet_from_mnemonic
                   L mnemonic account_index w) in
  w_entropy w' = w_entropy w /\ w_calls w' = w_calls w
  /\ w_time w' = w_time w /\ w_node w' = w_node w.
Proof.
  unfold WalletGenerator.derive_wallet_from_mnemonic,
    WalletGenerator.validate_mnemonic, logged, try_except, bind, lift_ext.
  destruct (WalletGenerator.mnemo_check L mnemonic) as [err | [ | ]];
    cbn; try (repeat split; reflexivity).
  destruct (WalletGenerator.Bip39SeedGenerator L mnemonic) as [err | seed];
    cbn; try (repeat split; reflexivity).
  destruct (WalletGenerator.derive_leaf L seed account_index) as [err | leaf];
    cbn; try (repeat split; reflexivity).
  destruct (WalletGenerator.Account_from_key L _) as [err | account];
    cbn; repeat split; reflexivity.
Qed.

(** C2.  The outcome of [derive_wallet_from_mnemonic] (the wallet with its
    private key and address, or the exception) is the same in every world,
    whatever the clock, the node, the log and the draws the entropy source
    has still to give: it depends on the mnemonic and the index alone.  In
    particular a second call, made in the world the first one left, returns
    what the first returned, and two wallets derived from the same mnemonic
    and index have the same private key and the same address.  The
    derivation itself uses no draw of the entropy source, calls no
    collaborator and takes no time.  (None of this holds of
    [create_new_wallet], whose mnemonic follows the entropy source: see
    [create_new_wallet_follows_entropy].) *)
Theorem derive_wallet_deterministic
        (L : WalletGenerator.Libraries) (mnemonic : string) (account_index : Z) :
  let derive := WalletGenerator.derive_wallet_from_mnemonic
                  L mnemonic account_index in
  (forall w1 w2, fst (derive w1) = fst (derive w2))
  /\ (forall w, fst (derive (snd (derive w))) = fst (derive w))
  /\ (forall w1 w2 wallet1 wallet2,
         fst (derive w1) = Ok wallet1 ->
         fst (derive w2) = Ok wallet2 ->
         WalletGenerator.private_key wallet1 = WalletGenerator.private_key wallet2
         /\ WalletGenerator.address wallet1 = WalletGenerator.address wallet2)
  /\ (forall w,
         w_entropy (snd (derive w)) = w_entropy w
         /\ w_calls (snd (derive w)) = w_calls w
         /\ w_time (snd (derive w)) = w_time w).
Proof.
  intros derive. split; [ | split; [ | split ] ].
  - intros w1 w2. apply derive_wallet_any_world.
  - intros w. apply derive_wallet_any_world.
  - intros w1 w2 wallet1 wallet2 H1 H2.
    pose proof (derive_wallet_any_world L mnemonic account_index w1 w2) as E.
    fold derive in E. rewrite H1, H2 in E.
    injection E as <-. split; reflexivity.
  - intros w.
    destruct (derive_wallet_quiet L mnemonic account_index w)
      as (He & Hc & Ht & _).
    repeat split; assumption.
Qed.

(** The witness of C2, on the symbolic libraries: the same derivation in two
    worlds that differ in the clock, the node, the round-trip time and the
    entropy source. *)
Lemma derive_wallet_deterministic_witness :
  let derive := WalletGenerator.derive_wallet_from_mnemonic
                  WalletGenerator.symbolic "abandon ability able" 0 in
  let w1 := Fixtures.world
              (Fixtures.node 0 0 (inr "0xhash"%string) (inr None) (inr 18)) 0 in
  let w2 := mkWorld 86400000 (fun _ => Doubles.dead_node) (fun _ => 250%N)
                    [] [] (fun i => Z.of_nat i + 1) in
  let wallet :=
    WalletGenerator.mkWalletInfo
      "abandon ability able"
      "2147483692.2147483708.2147483648.0.0"
      "pub:2147483692.2147483708.2147483648.0.0"
      "0x2147483692.2147483708.2147483648.0.0"
      "m/44'/60'/0'/0/0" in
  fst (derive w1) = Ok wallet
  /\ exists wallet2,
       fst (derive w2) = Ok wallet2
       /\ WalletGenerator.private_key wallet = WalletGenerator.private_key wallet2
       /\ WalletGenerator.address wallet = WalletGenerator.address wallet2.
Proof.
  intros derive w1 w2 wallet.
  assert (H1 : fst (derive w1) = Ok wallet) by (vm_compute; reflexivity).
  split; [ exact H1 | ].
  destruct (fst (derive w2)) as [wallet2 | e] eqn:H2.
  - exists wallet2. split; [ reflexivity | ].
    exact (proj1 (proj2 (proj2 (derive_wallet_deterministic
                                  WalletGenerator.symbolic
                                  "abandon ability able" 0)))
             w1 w2 wallet wallet2 H1 H2).
  - exfalso.
    pose proof (proj1 (derive_wallet_deterministic
                         WalletGenerator.symbolic "abandon ability able" 0)
                  w1 w2) as E.
    fold derive in E. rewrite H1, H2 in E. discriminate E.
Defined.

(** The mnemonic of [create_new_wallet], by contrast, follows the entropy
    source.  With a generator that reads one draw, two worlds that differ in
    the next draw only give two different wallets, and so do two calls in a
    row when the draws differ. *)
Lemma create_new_wallet_follows_entropy :
  let create := WalletGenerator.create_new_wallet
                  Doubles.twelve_words Doubles.generate_phrase 128 in
  let n := Fixtures.node 0 0 (inr "0xhash"%string) (inr None) (inr 18) in
  let w_even := mkWorld 0 (fun _ => n) (fun _ => 0%N) [] [] (fun _ => 0) in
  let w_odd := mkWorld 0 (fun _ => n) (fun _ => 0%N) [] [] (fun _ => 1) in
  let w_both := mkWorld 0 (fun _ => n) (fun _ => 0%N) [] [] Z.of_nat in
  (exists wallet1 wallet2,
      fst (create w_even) = Ok wallet1 /\ fst (create w_odd) = Ok wallet2
      /\ WalletGenerator.mnemonic wallet1 = Doubles.phrase
      /\ WalletGenerator.mnemonic wallet2 = Doubles.other_phrase)
  /\ fst (create w_even) <> fst (create w_odd)
  /\ fst (create (snd (create w_both))) <> fst (create w_both).
Proof.
  intros create n w_even w_odd w_both. split; [ | split ].
  - eexists. eexists. repeat split; vm_compute; reflexivity.
  - vm_compute. discriminate.
  - vm_compute. discriminate.
Qed.

Lemma derive_leaf_path (L : WalletGenerator.Libraries)
      (seed : WalletGenerator.Seed L) (account_index : Z)
      (leaf : WalletGenerator.Bip44Ctx L) :
  WalletGenerator.derive_leaf L seed account_index = inr leaf ->
  WalletGenerator.bip_path L leaf =
  [ WalletGenerator.HardenIndex 44; WalletGenerator.HardenIndex 60;
    WalletGenerator.HardenIndex account_index; 0; 0 ].
Proof.
  unfold WalletGenerator.derive_leaf, WalletGenerator.FromSeed,
    WalletGenerator.Purpose, WalletGenerator.Coin, WalletGenerator.Account,
    WalletGenerator.Change, WalletGenerator.AddressIndex,
    WalletGenerator.ChildKey, WalletGenerator.ext_bind.
  repeat match goal with
         | |- context [match ?x with _ => _ end] =>
             match x with
             | context [match _ with _ => _ end] => fail 1
             | _ => destruct x eqn:?
             end; cbn [WalletGenerator.bip_key WalletGenerator.bip_path app]
         end;
    intros H; inversion H; reflexivity.
Qed.

(** C1, the code at account index 1.  When the derivation succeeds, the
    private key of the wallet is the key of the leaf reached by the walk
    [44'], [60'], [1'], [0], [0] (the index is used at the account level and
    the address index is 0), whereas the recorded path is
    [m/44'/60'/0'/0/1]. *)
Theorem derive_wallet_path_at_index_1
        (L : WalletGenerator.Libraries) (mnemonic : string) (w w' : World)
        (wallet_info : WalletGenerator.WalletInfo) :
  WalletGenerator.derive_wallet_from_mnemonic L mnemonic 1 w =
  (Ok wallet_info, w') ->
  exists seed leaf,
    WalletGenerator.Bip39SeedGenerator L mnemonic = inr seed
    /\ WalletGenerator.derive_leaf L seed 1 = inr leaf
    /\ WalletGenerator.private_key wallet_info =
       WalletGenerator.key_hex L (WalletGenerator.bip_key L leaf)
    /\ WalletGenerator.render_path (WalletGenerator.bip_path L leaf) =
       "m/44'/60'/1'/0/0"%string
    /\ WalletGenerator.bip44_path wallet_info = "m/44'/60'/0'/0/1"%string
    /\ WalletGenerator.bip44_path wallet_info <>
       WalletGenerator.render_path (WalletGenerator.bip_path L leaf).
Proof.
  intros H. unfold WalletGenerator.derive_wallet_from_mnemonic in H.
  repeat step_ok H.
  match goal with
  | Hs : WalletGenerator.Bip39SeedGenerator L mnemonic = inr ?seed,
    Hl : WalletGenerator.derive_leaf L ?seed 1 = inr ?leaf |- _ =>
      exists seed, leaf; pose proof (derive_leaf_path L seed 1 leaf Hl) as P;
      rewrite P
  end.
  cbn [WalletGenerator.private_key WalletGenerator.bip44_path].
  repeat split; try assumption; try reflexivity.
  vm_compute. discriminate.
Qed.

(** The witness of C1, on the symbolic libraries. *)
Lemma derive_wallet_path_at_index_1_witness :
  let w := Fixtures.world
             (Fixtures.node 0 0 (inr "0xhash"%string) (inr None) (inr 18)) 0 in
  let run := WalletGenerator.derive_wallet_from_mnemonic
               WalletGenerator.symbolic "abandon ability able" 1 w in
  exists seed leaf,
    WalletGenerator.Bip39SeedGenerator WalletGenerator.symbolic
      "abandon ability able" = inr seed
    /\ WalletGenerator.derive_leaf WalletGenerator.symbolic seed 1 = inr leaf
    /\ "2147483692.2147483708.2147483649.0.0"%string =
       WalletGenerator.key_hex WalletGenerator.symbolic
         (WalletGenerator.bip_key WalletGenerator.symbolic leaf)
    /\ WalletGenerator.render_path
         (WalletGenerator.bip_path WalletGenerator.symbolic leaf) =
       "m/44'/60'/1'/0/0"%string
    /\ "m/44'/60'/0'/0/1"%string = "m/44'/60'/0'/0/1"%string
    /\ "m/44'/60'/0'/0/1"%string <>
       WalletGenerator.render_path
         (WalletGenerator.bip_path WalletGenerator.symbolic leaf).
Proof.
  intros w run.
  apply (derive_wallet_path_at_index_1 WalletGenerator.symbolic
           "abandon ability able" w (snd run)
           (WalletGenerator.mkWalletInfo
              "abandon ability able"
              "2147483692.2147483708.2147483649.0.0"
              "pub:2147483692.2147483708.2147483649.0.0"
              "0x2147483692.2147483708.2147483649.0.0"
              "m/44'/60'/0'/0/1")).
  vm_compute. reflexivity.
Defined.

(* ===================================================================== *)
(** * Scaling a token amount *)
(* ===================================================================== *)

(** C3, the code at three inputs.
    - On a token whose [decimals()] is 8, the amount 0.29 (the float nearest
      to 29/100) becomes 28999999 base units, one less than the exact
      product 29000000.
    - At 18 decimals the amount 0.07 becomes 70000000000000008 base units,
      eight more than the exact product.
    - On a token whose [decimals()] is 0,
      the negative amount -0.5 becomes 0 base units and the transaction is
      built; nothing is raised. *)
Theorem amount_to_raw_at_failing_inputs :
  let token8 := Fixtures.world
                  (Fixtures.node 0 7 (inr "0xhash"%string) (inr None) (inr 8)) 0 in
  let token0 := Fixtures.world
                  (Fixtures.node 0 7 (inr "0xhash"%string) (inr None) (inr 0)) 0 in
  TokenTransfer.amount_to_raw (PyFloat.of_ratio 29 100) 8 = inr 28999999
  /\ ((29 # 100) * inject_Z (10 ^ 8) == inject_Z 29000000)%Q
  /\ TokenTransfer.amount_to_raw (PyFloat.of_ratio 7 100) 18 =
     inr 70000000000000008
  /\ ((7 # 100) * inject_Z (10 ^ 18) == inject_Z 70000000000000000)%Q
  /\ fst (TokenTransfer.create_token_transfer_transaction
            Fixtures.lib "tok" "me" "dest" (PyFloat.of_ratio 29 100) None token8)
     = Ok (mkTransaction 7 "tok" 0 100000 10000000000 97
                         (TransferCall "dest" 28999999))
  /\ TokenTransfer.amount_to_raw (PyFloat.of_ratio (-1) 2) 0 = inr 0
  /\ fst (TokenTransfer.create_token_transfer_transaction
            Fixtures.lib "tok" "me" "dest" (PyFloat.of_ratio (-1) 2) None token0)
     = Ok (mkTransaction 7 "tok" 0 100000 10000000000 97
                         (TransferCall "dest" 0)).
Proof.
  cbv zeta. repeat split; vm_compute; reflexivity.
Qed.

(** C4, the code at [x = 0.29] and [d = 8]: the amount goes to 28999999 base
    units, which come back as the float nearest to 0.28999999, not as [x]. *)
Theorem round_trip_at_failing_input :
  let x := PyFloat.of_ratio 29 100 in
  TokenTransfer.amount_to_raw x 8 = inr 28999999
  /\ TokenTransfer.raw_to_amount 28999999 8 =
     inr (PyFloat.of_ratio 28999999 (10 ^ 8))
  /\ PyFloat.eqb (PyFloat.of_ratio 28999999 (10 ^ 8)) x = false
  /\ PyFloat.ltb (PyFloat.of_ratio 28999999 (10 ^ 8)) x = true.
Proof.
  cbv zeta. repeat split; vm_compute; reflexivity.
Qed.

(* ===================================================================== *)
(** * Failures of the submission *)
(* ===================================================================== *)

(** C6, the code on a failed submission.  The native handler raises one of
    its own exceptions (a [ValueError] or a [ConnectionError], never the
    collaborator's), and when none of its patterns occurs in the lower-cased
    text it raises the [ValueError] that carries that text.  The token
    handler raises the collaborator's exception as it came. *)
Theorem broadcast_failure_native_and_token
        (w : World) (raw : string) (err : ExtError) :
  eth_send_raw_transaction (w_node w (w_time w)) raw = inl err ->
  (exists e w',
      BNBTransfer.broadcast_transaction raw w = (Raise e, w')
      /\ (exn_class e = ValueError \/ exn_class e = ConnectionError)
      /\ e <> exn_of_ext err
      /\ ((forall p,
              In p ["insufficient funds"; "nonce too low"; "nonce too high";
                    "gas price too low"; "intrinsic gas too low"; "connection";
                    "timeout"]%string ->
              PyStr.contains p (PyStr.lower (ext_text err)) = false) ->
          exn_msg e = [Lit "Transaction broadcast failed: "; Lit (ext_text err)]))
  /\ (exists w',
         TokenTransfer.broadcast_transaction raw w = (Raise (exn_of_ext err), w')).
Proof.
  intros H. split.
  - unfold BNBTransfer.broadcast_transaction, bind, rpc_ext. rewrite H.
    repeat match goal with
           | |- context [if ?b then _ else _] => destruct b eqn:?
           end;
      (eexists; eexists; split; [ reflexivity | ];
       cbn [exn_class exn_msg];
       split; [ auto | split; [ unfold exn_of_ext; discriminate | ] ];
       intros Hall;
       try reflexivity;
       repeat match goal with
              | E : PyStr.contains ?p _ = true |- _ =>
                  rewrite (Hall p) in E; [ discriminate E | cbn; tauto ]
              | E : (PyStr.contains ?p _ || PyStr.contains ?q _)%bool = true |- _ =>
                  rewrite (Hall p), (Hall q) in E;
                  [ discriminate E | cbn; tauto | cbn; tauto ]
              end).
  - unfold TokenTransfer.broadcast_transaction.
    eexists. erewrite logged_raise; [ reflexivity | ].
    apply bind_raise. rewrite rpc_eq, H. reflexivity.
Qed.

(** The witness of C6: the node answers that the nonce is too low. *)
Lemma broadcast_failure_native_and_token_witness :
  let err := mkExtError "ValueError" "{'code': -32000, 'message': 'nonce too low'}" in
  let w := Fixtures.world
             (Fixtures.node 0 7 (inl err) (inr None) (inr 18)) 30 in
  (exists e w',
      BNBTransfer.broadcast_transaction "signed:7:k" w = (Raise e, w')
      /\ (exn_class e = ValueError \/ exn_class e = ConnectionError)
      /\ e <> exn_of_ext err
      /\ ((forall p,
              In p ["insufficient funds"; "nonce too low"; "nonce too high";
                    "gas price too low"; "intrinsic gas too low"; "connection";
                    "timeout"]%string ->
              PyStr.contains p (PyStr.lower (ext_text err)) = false) ->
          exn_msg e = [Lit "Transaction broadcast failed: "; Lit (ext_text err)]))
  /\ (exists w',
         TokenTransfer.broadcast_transaction "signed:7:k" w =
         (Raise (exn_of_ext err), w')).
Proof.
  intros err w.
  apply (broadcast_failure_native_and_token w "signed:7:k" err).
  reflexivity.
Defined.

(* ===================================================================== *)
(** * The decimals of a token *)
(* ===================================================================== *)

Lemma get_token_contract_ok web3 token w contract w0 :
  TokenTransfer.get_token_contract web3 token w = (Ok contract, w0) ->
  contract = Web3.to_checksum_address web3 token
  /\ w_time w0 = w_time w /\ w_node w0 = w_node w /\ w_rtt w0 = w_rtt w.
Proof.
  intros H. unfold TokenTransfer.get_token_contract in H.
  repeat step_ok H.
  match goal with
  | Hl : log _ _ _ = _ |- _ => unfold log in Hl; inversion Hl; subst
  end.
  cbn. auto.
Qed.

(** What [get_token_info] puts under ["decimals"]: the answer of the
    contract at an instant of the call, or 18 when the call fails. *)
Lemma get_token_info_decimals web3 token w token_info w' :
  TokenTransfer.get_token_info web3 token w = (Ok token_info, w') ->
  exists t,
    w_time w <= t <= w_time w'
    /\ TokenTransfer.ti_decimals token_info =
       match call_decimals (w_node w t) (Web3.to_checksum_address web3 token) with
       | inl _ => 18
       | inr d => d
       end.
Proof.
  intros H. unfold TokenTransfer.get_token_info in H.
  apply logged_ok in H.
  apply bind_ok in H. destruct H as (contract & w0 & Hc & H).
  apply get_token_contract_ok in Hc. destruct Hc as (-> & T0 & N0 & R0).
  apply bind_ok in H. destruct H as (name & w1 & Q1 & H).
  rewrite rpc_default_eq in Q1. injection Q1 as _ <-.
  apply bind_ok in H. destruct H as (symbol & w2 & Q2 & H).
  rewrite rpc_default_eq in Q2. injection Q2 as _ <-.
  apply bind_ok in H. destruct H as (decimals & w3 & Q3 & H).
  rewrite rpc_default_eq in Q3. injection Q3 as Hd <-.
  apply bind_ok in H. destruct H as (supply & w4 & Q4 & H).
  rewrite rpc_default_eq in Q4. injection Q4 as _ <-.
  apply bind_ok in H. destruct H as (u & w5 & Q5 & H).
  apply (steady_run _ _ _ _ (steady_log _ _)) in Q5.
  unfold ret in H. injection H as <- <-.
  cbn [TokenTransfer.ti_decimals].
  match type of Hd with
  | match call_decimals (w_node _ ?t) _ with _ => _ end = _ => exists t
  end.
  destruct Q5 as (_ & _ & T5).
  unfold tick in *. cbn [w_time w_node w_rtt] in *.
  rewrite N0 in *. split; [ lia | ]. rewrite <- Hd. reflexivity.
Qed.

(** C8, as amended.  A token transfer that is built carries the amount
    scaled by the decimals the token contract answered during that call, and
    by 18 when the [decimals()] call failed; the balance of a token is scaled
    the same way.  The decimals are read from the contract in every call. *)
Theorem decimals_fetched_or_default (web3 : Web3.Lib) (token : string) (w : World) :
  (forall from_address to_address amount gas_price tx w',
      TokenTransfer.create_token_transfer_transaction
        web3 token from_address to_address amount gas_price w = (Ok tx, w') ->
      exists t raw,
        w_time w <= t <= w_time w'
        /\ TokenTransfer.amount_to_raw amount
             (match call_decimals (w_node w t)
                                  (Web3.to_checksum_address web3 token) with
              | inl _ => 18
              | inr d => d
              end) = inr raw
        /\ tx_data tx =
           TransferCall (Web3.to_checksum_address web3 to_address) raw)
  /\ (forall wallet_address balance w',
         TokenTransfer.get_token_balance web3 token wallet_address w =
         (Ok balance, w') ->
         exists t,
           w_time w <= t <= w_time w'
           /\ TokenTransfer.tb_decimals balance =
              match call_decimals (w_node w t)
                                  (Web3.to_checksum_address web3 token) with
              | inl _ => 18
              | inr d => d
              end
           /\ TokenTransfer.raw_to_amount
                (TokenTransfer.tb_balance_raw balance)
                (TokenTransfer.tb_decimals balance) =
              inr (TokenTransfer.tb_balance_formatted balance)).
Proof.
  split.
  - intros from_address to_address amount gas_price tx w' H.
    unfold TokenTransfer.create_token_transfer_transaction in H.
    apply logged_ok in H.
    apply bind_ok in H. destruct H as (contract & w0 & Hc & H).
    apply get_token_contract_ok in Hc. destruct Hc as (-> & T0 & N0 & R0).
    apply bind_ok in H. destruct H as (token_info & w1 & Hi & H).
    apply get_token_info_decimals in Hi. destruct Hi as (t & Ht & Hd).
    repeat step_ok H.
    repeat match goal with
    | Hc : log _ _ _ = _ |- _ =>
        apply (steady_run _ _ _ _ (steady_log _ _)) in Hc
    | Hc : local_call _ _ _ = (Ok _, _) |- _ =>
        apply local_call_ok in Hc; destruct Hc as [Hb ?];
        apply build_transfer_ok in Hb; destruct Hb as [_ ->]
    | Hc : match gas_price with _ => _ end _ = _ |- _ =>
        apply (steady_run _ _ _ _ (steady_gas_price_choice _)) in Hc
    end.
    match goal with
    | Ha : TokenTransfer.amount_to_raw _ _ = inr ?raw |- _ =>
        exists t, raw; rewrite Hd, N0 in Ha
    end.
    split; [ | split; [ assumption | reflexivity ] ].
    assert (L : later w1 w').
    { repeat (eapply later_trans; [ eassumption | ]).
      eapply later_trans; [ apply later_tick | ].
      repeat (eapply later_trans; [ eassumption | ]). apply later_refl. }
    destruct L as (_ & _ & L). lia.
  - intros wallet_address balance w' H.
    unfold TokenTransfer.get_token_balance in H.
    apply logged_ok in H.
    apply bind_ok in H. destruct H as (contract & w0 & Hc & H).
    apply get_token_contract_ok in Hc. destruct Hc as (-> & T0 & N0 & R0).
    apply bind_ok in H. destruct H as (token_info & w1 & Hi & H).
    apply get_token_info_decimals in Hi. destruct Hi as (t & Ht & Hd).
    repeat step_ok H.
    match goal with
    | Hc : log _ _ _ = _ |- _ =>
        apply (steady_run _ _ _ _ (steady_log _ _)) in Hc;
        destruct Hc as (_ & _ & L)
    end.
    exists t. cbn [TokenTransfer.tb_decimals TokenTransfer.tb_balance_raw
                   TokenTransfer.tb_balance_formatted].
    rewrite <- N0, <- Hd.
    split; [ | split; [ reflexivity | assumption ] ].
    unfold tick in L; cbn [w_time] in L. lia.
Qed.

(** The witness of C8: a token with 6 decimals. *)
Lemma decimals_fetched_or_default_witness :
  let w := Fixtures.world
             (Fixtures.node 0 7 (inr "0xhash"%string) (inr None) (inr 6)) 10 in
  let run := TokenTransfer.create_token_transfer_transaction
               Fixtures.lib "tok" "me" "dest" Fixtures.one None w in
  exists t raw,
    w_time w <= t <= w_time (snd run)
    /\ TokenTransfer.amount_to_raw Fixtures.one
         (match call_decimals (w_node w t) "tok" with
          | inl _ => 18
          | inr d => d
          end) = inr raw
    /\ TransferCall "dest" 1000000 = TransferCall "dest" raw.
Proof.
  intros w run.
  apply (proj1 (decimals_fetched_or_default Fixtures.lib "tok" w)
           "me"%string "dest"%string Fixtures.one None
           (mkTransaction 7 "tok" 0 100000 10000000000 97
                          (TransferCall "dest" 1000000))
           (snd run)).
  vm_compute. reflexivity.
Defined.

(** C8, the counterexample.  The contract does not answer [decimals()]; the
    transfer of one token is built all the same, scaled by [10 ^ 18]. *)
Lemma decimals_default_counterexample :
  let w := Fixtures.world
             (Fixtures.node 0 7 (inr "0xhash"%string) (inr None)
                            (inl (mkExtError "ContractLogicError"
                                             "execution reverted"))) 10 in
  let run := TokenTransfer.create_token_transfer_transaction
               Fixtures.lib "tok" "me" "dest" Fixtures.one None w in
  (forall t, exists err, call_decimals (w_node w t) "tok" = inl err)
  /\ fst run = Ok (mkTransaction 7 "tok" 0 100000 10000000000 97
                                 (TransferCall "dest" (10 ^ 18))).
Proof.
  intros w run. split.
  - intros t. eexists. reflexivity.
  - vm_compute. reflexivity.
Qed.

(* ===================================================================== *)
(** * Waiting for a confirmation *)
(* ===================================================================== *)

Section WaitLoop.

Variables (confirmed_text timeout_text tx_hash : string).
Variables (timeout start_time : Z).

Let loop (fuel : nat) : M (option Web3.Confirmation) :=
  Web3.wait_loop fuel confirmed_text timeout_text tx_hash timeout start_time.

Let timeout_error : Exn :=
  mkExn TimeoutError
        [Lit timeout_text; Lit (PyStr.of_int timeout); Lit " seconds"].

(** The deadline has passed: the loop raises. *)
Lemma wait_loop_expired fuel w :
  1000 * timeout <= w_time w - start_time ->
  loop (S fuel) w = (Raise timeout_error, w).
Proof.
  intros H. unfold loop. cbn [Web3.wait_loop].
  unfold bind at 1. unfold time_time.
  destruct (Z.ltb_spec (w_time w - start_time) (1000 * timeout)); [ lia | ].
  reflexivity.
Qed.

(** No receipt yet (the node answers [None] or the query raises): the loop
    sleeps two seconds and goes on. *)
Lemma wait_loop_pending fuel w :
  w_time w - start_time < 1000 * timeout ->
  (forall rc, eth_get_transaction_receipt (w_node w (w_time w)) tx_hash
              <> inr (Some rc)) ->
  loop (S fuel) w =
  loop fuel (snd (time_sleep 2 (tick (CallGetTransactionReceipt tx_hash) w))).
Proof.
  intros H Hn. unfold loop. cbn [Web3.wait_loop].
  unfold bind at 1. unfold time_time.
  destruct (Z.ltb_spec (w_time w - start_time) (1000 * timeout)); [ | lia ].
  unfold bind at 1. unfold try_except at 1. unfold bind at 1.
  rewrite rpc_eq.
  destruct (eth_get_transaction_receipt (w_node w (w_time w)) tx_hash)
    as [err | [rc | ]] eqn:E.
  - reflexivity.
  - exfalso. apply (Hn rc). reflexivity.
  - reflexivity.
Qed.

(** A receipt is there: the loop returns it, with the status read from its
    status bit. *)
Lemma wait_loop_found fuel w rc :
  w_time w - start_time < 1000 * timeout ->
  eth_get_transaction_receipt (w_node w (w_time w)) tx_hash = inr (Some rc) ->
  exists w',
    loop (S fuel) w =
    (Ok (Some (Web3.mkConfirmation
                 tx_hash
                 (if (rc_status rc =? 1)%Z then "Success"%string
                  else "Failed"%string)
                 (rc_gasUsed rc) (rc_blockNumber rc)
                 (w_time w + Z.of_N (w_rtt w (w_time w)) - start_time))), w')
    /\ later w w'.
Proof.
  intros H Hr. unfold loop. cbn [Web3.wait_loop].
  unfold bind at 1. unfold time_time.
  destruct (Z.ltb_spec (w_time w - start_time) (1000 * timeout)); [ | lia ].
  unfold bind at 1. unfold try_except at 1. unfold bind at 1.
  rewrite rpc_eq, Hr.
  eexists. split; [ reflexivity | ].
  unfold later, tick; cbn [w_time w_node w_rtt]. repeat split; lia.
Qed.

Let polled (w : World) : World :=
  snd (time_sleep 2 (tick (CallGetTransactionReceipt tx_hash) w)).

Lemma later_polled w : later w (polled w).
Proof.
  unfold polled, later, time_sleep, tick. cbn [snd w_time w_node w_rtt].
  repeat split; lia.
Qed.

Lemma time_polled w :
  w_time (polled w) = w_time w + Z.of_N (w_rtt w (w_time w)) + 2000.
Proof. reflexivity. Qed.

(** With no receipt before the deadline the loop raises [TimeoutError], at
    the first check made at or after the deadline. *)
Lemma wait_loop_times_out (L : Z) :
  forall fuel w,
    (forall t, Z.of_N (w_rtt w t) <= L) ->
    (forall t rc, w_time w <= t < start_time + 1000 * timeout ->
                  eth_get_transaction_receipt (w_node w t) tx_hash
                  <> inr (Some rc)) ->
    (0 < fuel)%nat ->
    start_time + 1000 * timeout - w_time w <= 2000 * (Z.of_nat fuel - 1) ->
    w_time w - start_time < 1000 * timeout + 2000 + L ->
    exists w',
      loop fuel w = (Raise timeout_error, w')
      /\ 1000 * timeout <= w_time w' - start_time < 1000 * timeout + 2000 + L
      /\ later w w'.
Proof.
  induction fuel as [ | fuel IH ]; intros w HL Hn Hf Hr Hi; [ lia | ].
  destruct (Z_lt_le_dec (w_time w - start_time) (1000 * timeout)) as [Hlt | Hge].
  - rewrite wait_loop_pending; [ | exact Hlt | intros rc; apply Hn; lia ].
    fold (polled w).
    destruct (IH (polled w)) as (w' & E & B & Lw).
    + exact HL.
    + intros t rc Ht. apply (Hn t rc).
      rewrite time_polled in Ht. lia.
    + lia.
    + rewrite time_polled. pose proof (HL (w_time w)). lia.
    + rewrite time_polled. pose proof (HL (w_time w)). lia.
    + exists w'. split; [ exact E | split; [ exact B | ] ].
      eapply later_trans; [ apply later_polled | exact Lw ].
  - rewrite wait_loop_expired; [ | exact Hge ].
    exists w. split; [ reflexivity | split; [ lia | apply later_refl ] ].
Qed.

Lemma wait_loop_found_at fuel w rc :
  w_time w - start_time < 1000 * timeout ->
  eth_get_transaction_receipt (w_node w (w_time w)) tx_hash = inr (Some rc) ->
  exists c w',
    loop (S fuel) w = (Ok (Some c), w')
    /\ w_time w' = w_time w + Z.of_N (w_rtt w (w_time w)).
Proof.
  intros H Hr. unfold loop. cbn [Web3.wait_loop].
  unfold bind at 1. unfold time_time.
  destruct (Z.ltb_spec (w_time w - start_time) (1000 * timeout)); [ | lia ].
  unfold bind at 1. unfold try_except at 1. unfold bind at 1.
  rewrite rpc_eq, Hr.
  eexists. eexists. split; reflexivity.
Qed.

(** Whatever the node answers, the loop ends: it returns a confirmation or
    raises [TimeoutError], and it does so before the deadline plus one sleep
    plus one round trip. *)
Lemma wait_loop_ends (L : Z) :
  forall fuel w,
    (forall t, Z.of_N (w_rtt w t) <= L) ->
    (0 < fuel)%nat ->
    start_time + 1000 * timeout - w_time w <= 2000 * (Z.of_nat fuel - 1) ->
    w_time w - start_time < 1000 * timeout + 2000 + L ->
    exists r w',
      loop fuel w = (r, w')
      /\ (r = Raise timeout_error \/ exists c, r = Ok (Some c))
      /\ w_time w' - start_time < 1000 * timeout + 2000 + L.
Proof.
  induction fuel as [ | fuel IH ]; intros w HL Hf Hr Hi; [ lia | ].
  pose proof (HL (w_time w)) as HLw.
  destruct (Z_lt_le_dec (w_time w - start_time) (1000 * timeout)) as [Hlt | Hge].
  - destruct (eth_get_transaction_receipt (w_node w (w_time w)) tx_hash)
      as [err | [rc | ]] eqn:E.
    + rewrite wait_loop_pending;
        [ | exact Hlt | intros rc; rewrite E; discriminate ].
      fold (polled w).
      apply (IH (polled w)); [ exact HL | lia | | ]; rewrite time_polled; lia.
    + destruct (wait_loop_found_at fuel w rc Hlt E) as (c & w' & E' & T').
      exists (Ok (Some c)), w'. split; [ exact E' | ].
      split; [ right; exists c; reflexivity | lia ].
    + rewrite wait_loop_pending;
        [ | exact Hlt | intros rc; rewrite E; discriminate ].
      fold (polled w).
      apply (IH (polled w)); [ exact HL | lia | | ]; rewrite time_polled; lia.
  - rewrite wait_loop_expired; [ | exact Hge ].
    exists (Raise timeout_error), w.
    split; [ reflexivity | split; [ left; reflexivity | lia ] ].
Qed.

(** When the receipt [rc] is there from the instant [T] on and not before,
    the deadline has not passed and [T] leaves room for one more poll
    before it, the loop returns the confirmation made from [rc]. *)
Lemma wait_loop_confirms (L T : Z) (rc : Receipt) :
  forall fuel w,
    (forall t, Z.of_N (w_rtt w t) <= L) ->
    (forall t rc', t < T ->
                   eth_get_transaction_receipt (w_node w t) tx_hash
                   <> inr (Some rc')) ->
    (forall t, T <= t ->
               eth_get_transaction_receipt (w_node w t) tx_hash
               = inr (Some rc)) ->
    T + 2000 + L <= start_time + 1000 * timeout ->
    w_time w - start_time < 1000 * timeout ->
    (0 < fuel)%nat ->
    T - w_time w <= 2000 * (Z.of_nat fuel - 1) ->
    exists c w',
      loop fuel w = (Ok (Some c), w')
      /\ Web3.cf_tx_hash c = tx_hash
      /\ Web3.cf_status c =
         (if rc_status rc =? 1 then "Success"%string else "Failed"%string)
      /\ Web3.cf_gas_used c = rc_gasUsed rc
      /\ Web3.cf_block_number c = rc_blockNumber rc
      /\ later w w'.
Proof.
  induction fuel as [ | fuel IH ]; intros w HL Hb Ha HT Hlt Hf Hr; [ lia | ].
  destruct (Z_lt_le_dec (w_time w) T) as [Hbefore | Hafter].
  - rewrite wait_loop_pending; [ | exact Hlt | intros rc'; apply Hb; exact Hbefore ].
    fold (polled w).
    destruct (IH (polled w)) as (c & w' & E & P1 & P2 & P3 & P4 & Lw);
      try assumption.
    + rewrite time_polled. pose proof (HL (w_time w)). lia.
    + lia.
    + rewrite time_polled. lia.
    + exists c, w'. repeat (split; [ assumption | ]).
      eapply later_trans; [ apply later_polled | exact Lw ].
  - destruct (wait_loop_found fuel w rc Hlt (Ha _ Hafter)) as (w' & E & Lw).
    eexists. exists w'. split; [ exact E | ].
    cbn [Web3.cf_tx_hash Web3.cf_status Web3.cf_gas_used Web3.cf_block_number].
    repeat (split; [ reflexivity | ]). exact Lw.
Qed.

(** With enough fuel, whatever the loop returns is a confirmation made from
    a receipt the node gave during the wait. *)
Lemma wait_loop_reflects :
  forall fuel w r w',
    (0 < fuel)%nat ->
    start_time + 1000 * timeout - w_time w <= 2000 * (Z.of_nat fuel - 1) ->
    loop fuel w = (Ok r, w') ->
    exists c t rc,
      r = Some c
      /\ w_time w <= t
      /\ eth_get_transaction_receipt (w_node w t) tx_hash = inr (Some rc)
      /\ Web3.cf_status c =
         (if rc_status rc =? 1 then "Success"%string else "Failed"%string)
      /\ Web3.cf_gas_used c = rc_gasUsed rc
      /\ Web3.cf_block_number c = rc_blockNumber rc.
Proof.
  induction fuel as [ | fuel IH ]; intros w r w' Hf Hr H; [ lia | ].
  destruct (Z_lt_le_dec (w_time w - start_time) (1000 * timeout)) as [Hlt | Hge].
  - destruct (eth_get_transaction_receipt (w_node w (w_time w)) tx_hash)
      as [err | [rc | ]] eqn:E.
    + rewrite wait_loop_pending in H;
        [ | exact Hlt | intros rc; rewrite E; discriminate ].
      fold (polled w) in H.
      apply IH in H; [ | lia | rewrite time_polled; lia ].
      destruct H as (c & t & rc & P0 & P1 & P2 & P3).
      exists c, t, rc. rewrite time_polled in P1.
      repeat split; try tauto; lia.
    + destruct (wait_loop_found fuel w rc Hlt E) as (w1 & E1 & _).
      rewrite E1 in H. injection H as <- <-.
      eexists. exists (w_time w), rc.
      repeat split; [ lia | exact E ].
    + rewrite wait_loop_pending in H;
        [ | exact Hlt | intros rc; rewrite E; discriminate ].
      fold (polled w) in H.
      apply IH in H; [ | lia | rewrite time_polled; lia ].
      destruct H as (c & t & rc & P0 & P1 & P2 & P3).
      exists c, t, rc. rewrite time_polled in P1.
      repeat split; try tauto; lia.
  - rewrite wait_loop_expired in H; [ discriminate H | exact Hge ].
Qed.

End WaitLoop.

Section WaitForConfirmation.

Variables (waiting_text confirmed_text timeout_text error_prefix : string).

Let wait : nat -> string -> Z -> M (option Web3.Confirmation) :=
  Web3.wait_for_confirmation_with waiting_text confirmed_text timeout_text
                                  error_prefix.

(** The world in which the loop starts: one log line after the call. *)
Let entered (tx_hash : string) (w : World) : World :=
  snd (log INFO [Lit waiting_text; Lit tx_hash] w).

Lemma wait_unfold fuel tx_hash timeout w :
  wait fuel tx_hash timeout w =
  logged error_prefix
         (Web3.wait_loop fuel confirmed_text timeout_text tx_hash timeout
                         (w_time w))
         (entered tx_hash w).
Proof. reflexivity. Qed.

Lemma wait_times_out fuel tx_hash timeout L w :
  0 <= timeout ->
  (forall t, Z.of_N (w_rtt w t) <= L) ->
  timeout <= 2 * (Z.of_nat fuel - 1) ->
  (forall t rc, w_time w <= t < w_time w + 1000 * timeout ->
                eth_get_transaction_receipt (w_node w t) tx_hash
                <> inr (Some rc)) ->
  exists e w',
    wait fuel tx_hash timeout w = (Raise e, w')
    /\ exn_class e = TimeoutError
    /\ 1000 * timeout <= w_time w' - w_time w < 1000 * timeout + 2000 + L.
Proof.
  intros H0 HL Hf Hn. rewrite wait_unfold.
  pose proof (HL 0) as HL0.
  destruct (wait_loop_times_out confirmed_text timeout_text tx_hash timeout
              (w_time w) L fuel (entered tx_hash w))
    as (w1 & E & B & _).
  - exact HL.
  - exact Hn.
  - lia.
  - change (w_time (entered tx_hash w)) with (w_time w). lia.
  - change (w_time (entered tx_hash w)) with (w_time w). lia.
  - eexists. eexists. split; [ apply logged_raise; exact E | ].
    split; [ reflexivity | ]. cbn [w_time]. exact B.
Qed.

Lemma wait_ends fuel tx_hash timeout L w :
  0 <= timeout ->
  (forall t, Z.of_N (w_rtt w t) <= L) ->
  timeout <= 2 * (Z.of_nat fuel - 1) ->
  exists r w',
    wait fuel tx_hash timeout w = (r, w')
    /\ ((exists e, r = Raise e /\ exn_class e = TimeoutError)
        \/ exists c, r = Ok (Some c))
    /\ w_time w' - w_time w < 1000 * timeout + 2000 + L.
Proof.
  intros H0 HL Hf. rewrite wait_unfold.
  pose proof (HL 0) as HL0.
  destruct (wait_loop_ends confirmed_text timeout_text tx_hash timeout
              (w_time w) L fuel (entered tx_hash w))
    as (r & w1 & E & [ -> | (c & ->) ] & B).
  - exact HL.
  - lia.
  - change (w_time (entered tx_hash w)) with (w_time w). lia.
  - change (w_time (entered tx_hash w)) with (w_time w). lia.
  - eexists. eexists. split; [ apply logged_raise; exact E | ].
    split; [ left; eexists; split; reflexivity | cbn [w_time]; exact B ].
  - eexists. eexists. split; [ apply logged_eq; exact E | ].
    split; [ right; exists c; reflexivity | exact B ].
Qed.

Lemma wait_confirms fuel tx_hash timeout L T rc w :
  0 < timeout ->
  (forall t, Z.of_N (w_rtt w t) <= L) ->
  timeout <= 2 * (Z.of_nat fuel - 1) ->
  (forall t rc', t < T ->
                 eth_get_transaction_receipt (w_node w t) tx_hash
                 <> inr (Some rc')) ->
  (forall t, T <= t ->
             eth_get_transaction_receipt (w_node w t) tx_hash
             = inr (Some rc)) ->
  T + 2000 + L <= w_time w + 1000 * timeout ->
  exists c w',
    wait fuel tx_hash timeout w = (Ok (Some c), w')
    /\ Web3.cf_tx_hash c = tx_hash
    /\ Web3.cf_status c =
       (if rc_status rc =? 1 then "Success"%string else "Failed"%string)
    /\ Web3.cf_gas_used c = rc_gasUsed rc
    /\ Web3.cf_block_number c = rc_blockNumber rc.
Proof.
  intros H0 HL Hf Hb Ha HT. rewrite wait_unfold.
  pose proof (HL 0) as HL0.
  destruct (wait_loop_confirms confirmed_text timeout_text tx_hash timeout
              (w_time w) L T rc fuel (entered tx_hash w))
    as (c & w1 & E & P1 & P2 & P3 & P4 & _).
  - exact HL.
  - exact Hb.
  - exact Ha.
  - exact HT.
  - change (w_time (entered tx_hash w)) with (w_time w). lia.
  - lia.
  - change (w_time (entered tx_hash w)) with (w_time w). lia.
  - exists c, w1. split; [ apply logged_eq; exact E | tauto ].
Qed.

Lemma wait_reflects fuel tx_hash timeout w r w' :
  0 <= timeout ->
  timeout <= 2 * (Z.of_nat fuel - 1) ->
  wait fuel tx_hash timeout w = (Ok r, w') ->
  exists c t rc,
    r = Some c
    /\ w_time w <= t
    /\ eth_get_transaction_receipt (w_node w t) tx_hash = inr (Some rc)
    /\ Web3.cf_status c =
       (if rc_status rc =? 1 then "Success"%string else "Failed"%string)
    /\ Web3.cf_gas_used c = rc_gasUsed rc
    /\ Web3.cf_block_number c = rc_blockNumber rc.
Proof.
  intros H0 Hf H. rewrite wait_unfold in H. apply logged_ok in H.
  apply wait_loop_reflects in H.
  - exact H.
  - lia.
  - change (w_time (entered tx_hash w)) with (w_time w). lia.
Qed.

End WaitForConfirmation.

(** C7.  For both [wait_for_confirmation] methods, in a world where a round
    trip to the node never takes more than [L] milliseconds, with a timeout
    that is not negative and fuel for [timeout / 2 + 1] polls:
    - if the node has no receipt at any instant from the start of the call
      to the deadline, [timeout] seconds later (it answers [None] or the
      query raises; what it has from the deadline on does not matter), the
      call raises [TimeoutError], and it does so at least [timeout] seconds
      and less than [timeout] seconds plus one 2-second sleep plus [L] after
      it started;
    - if the timeout is positive, the node has no receipt before the instant
      [T] and the receipt [rc] from [T] on, and [T] leaves room for one more
      poll before the deadline, the call returns a confirmation whose status is ["Success"] when the
      status of [rc] is 1 and ["Failed"] otherwise;
    - whatever the call returns is a confirmation made from a receipt the
      node gave during the wait; the fuel is never used up;
    - whatever the node answers, the call ends less than [timeout] seconds
      plus one 2-second sleep plus [L] after it started, with a confirmation
      or with [TimeoutError]: a query that raises never ends the wait. *)
Theorem wait_for_confirmation_outcomes
        (wait : nat -> string -> Z -> M (option Web3.Confirmation))
        (fuel : nat) (tx_hash : string) (timeout L : Z) (w : World) :
  In wait [ BNBTransfer.wait_for_confirmation;
            TokenTransfer.wait_for_confirmation ] ->
  0 <= timeout ->
  (forall t, Z.of_N (w_rtt w t) <= L) ->
  timeout <= 2 * (Z.of_nat fuel - 1) ->
  ((forall t rc, w_time w <= t < w_time w + 1000 * timeout ->
                 eth_get_transaction_receipt (w_node w t) tx_hash
                 <> inr (Some rc)) ->
   exists e w',
     wait fuel tx_hash timeout w = (Raise e, w')
     /\ exn_class e = TimeoutError
     /\ 1000 * timeout <= w_time w' - w_time w < 1000 * timeout + 2000 + L)
  /\ (forall T rc,
         0 < timeout ->
         (forall t rc', t < T ->
                        eth_get_transaction_receipt (w_node w t) tx_hash
                        <> inr (Some rc')) ->
         (forall t, T <= t ->
                    eth_get_transaction_receipt (w_node w t) tx_hash
                    = inr (Some rc)) ->
         T + 2000 + L <= w_time w + 1000 * timeout ->
         exists c w',
           wait fuel tx_hash timeout w = (Ok (Some c), w')
           /\ Web3.cf_tx_hash c = tx_hash
           /\ Web3.cf_status c =
              (if rc_status rc =? 1 then "Success"%string else "Failed"%string)
           /\ Web3.cf_gas_used c = rc_gasUsed rc
           /\ Web3.cf_block_number c = rc_blockNumber rc)
  /\ (forall r w',
         wait fuel tx_hash timeout w = (Ok r, w') ->
         exists c t rc,
           r = Some c
           /\ w_time w <= t
           /\ eth_get_transaction_receipt (w_node w t) tx_hash = inr (Some rc)
           /\ Web3.cf_status c =
              (if rc_status rc =? 1 then "Success"%string else "Failed"%string)
           /\ Web3.cf_gas_used c = rc_gasUsed rc
           /\ Web3.cf_block_number c = rc_blockNumber rc)
  /\ (exists r w',
         wait fuel tx_hash timeout w = (r, w')
         /\ ((exists e, r = Raise e /\ exn_class e = TimeoutError)
             \/ exists c, r = Ok (Some c))
         /\ w_time w' - w_time w < 1000 * timeout + 2000 + L).
Proof.
  intros Hin H0 HL Hf.
  destruct Hin as [ <- | [ <- | [] ] ].
  - unfold BNBTransfer.wait_for_confirmation.
    split; [ | split; [ | split ] ].
    + apply wait_times_out; assumption.
    + intros T rc Hpos. apply wait_confirms; assumption.
    + intros r w'. apply wait_reflects; assumption.
    + apply wait_ends; assumption.
  - unfold TokenTransfer.wait_for_confirmation.
    split; [ | split; [ | split ] ].
    + apply wait_times_out; assumption.
    + intros T rc Hpos. apply wait_confirms; assumption.
    + intros r w'. apply wait_reflects; assumption.
    + apply wait_ends; assumption.
Qed.

(** The witness of C7: a one-second watch of the token handler, with round
    trips of 50 milliseconds, on a node that has the receipt only from 1500
    milliseconds on, after the deadline.  The only poll is made at the
    start; the call raises [TimeoutError] at 2050 milliseconds. *)
Lemma wait_for_confirmation_outcomes_witness :
  let receipt := mkReceipt 1 21000 42 in
  let node_at t :=
    Fixtures.node 0 7 (inr "0xhash"%string)
                  (if t <? 1500 then inl Fixtures.not_found
                   else inr (Some receipt)) (inr 18) in
  let w := mkWorld 0 node_at (fun _ => 50%N) [] [] (fun _ => 0) in
  eth_get_transaction_receipt (w_node w 1500) "0xhash" = inr (Some receipt)
  /\ exists e w',
       TokenTransfer.wait_for_confirmation 2 "0xhash" 1 w = (Raise e, w')
       /\ exn_class e = TimeoutError
       /\ 1000 * 1 <= w_time w' - w_time w < 1000 * 1 + 2000 + 50.
Proof.
  intros receipt node_at w. split; [ reflexivity | ].
  destruct (wait_for_confirmation_outcomes
              TokenTransfer.wait_for_confirmation 2 "0xhash" 1 50 w)
    as (H & _ & _ & _).
  - right. left. reflexivity.
  - lia.
  - intros t. cbn. lia.
  - cbn. lia.
  - apply H. intros t rc Ht. cbn [w_node w eth_get_transaction_receipt] in *.
    unfold node_at, Fixtures.node. cbn [eth_get_transaction_receipt].
    cbn [w_time w] in Ht.
    destruct (Z.ltb_spec t 1500); [ discriminate | lia ].
Defined.

(* ===================================================================== *)
(** * Computations that only query, computations that never raise *)
(* ===================================================================== *)

Lemma read_only_nothing {A} (c : M A) :
  (forall w, w_calls (snd (c w)) = w_calls w) -> read_only c.
Proof.
  intros H w. exists []. rewrite H, app_nil_r. split; reflexivity.
Qed.

Lemma read_only_ret {A} (a : A) : read_only (ret a).
Proof. apply read_only_nothing. reflexivity. Qed.

Lemma read_only_raise {A} e : read_only (@raise A e).
Proof. apply read_only_nothing. reflexivity. Qed.

Lemma read_only_log lvl msg : read_only (log lvl msg).
Proof. apply read_only_nothing. reflexivity. Qed.

Lemma read_only_time_time : read_only time_time.
Proof. apply read_only_nothing. reflexivity. Qed.

Lemma read_only_time_sleep secs : read_only (time_sleep secs).
Proof. apply read_only_nothing. reflexivity. Qed.

Lemma read_only_lift_ext {A} (r : Ext A) : read_only (lift_ext r).
Proof. apply read_only_nothing. destruct r; reflexivity. Qed.

Lemma read_only_rpc {A} c (f : Node -> Ext A) :
  is_read c = true -> read_only (rpc c f).
Proof.
  intros H w. exists [c]. rewrite rpc_eq. cbn [snd tick w_calls forallb].
  rewrite H. split; reflexivity.
Qed.

Lemma read_only_bind {A B} (c : M A) (k : A -> M B) :
  read_only c -> (forall a, read_only (k a)) -> read_only (bind c k).
Proof.
  intros Rc Rk w. unfold bind.
  destruct (Rc w) as (l1 & E1 & F1). destruct (c w) as [[a | e] w1]; cbn [snd] in *.
  - destruct (Rk a w1) as (l2 & E2 & F2). exists (l1 ++ l2)%list.
    rewrite E2, E1, app_assoc, forallb_app, F1, F2. split; reflexivity.
  - exists l1. split; assumption.
Qed.

Lemma read_only_try_except {A} (c : M A) (h : Exn -> M A) :
  read_only c -> (forall e, read_only (h e)) -> read_only (try_except c h).
Proof.
  intros Rc Rh w. unfold try_except.
  destruct (Rc w) as (l1 & E1 & F1). destruct (c w) as [[a | e] w1]; cbn [snd] in *.
  - exists l1. split; assumption.
  - destruct (Rh e w1) as (l2 & E2 & F2). exists (l1 ++ l2)%list.
    rewrite E2, E1, app_assoc, forallb_app, F1, F2. split; reflexivity.
Qed.

Lemma read_only_logged {A} prefix (c : M A) :
  read_only c -> read_only (logged prefix c).
Proof.
  intros Rc. unfold logged. apply read_only_try_except; [ exact Rc | intros e ].
  apply read_only_bind; [ apply read_only_log | intros _; apply read_only_raise ].
Qed.

Create HintDb reads.
#[local] Hint Resolve read_only_ret read_only_raise read_only_log
  read_only_time_time read_only_time_sleep read_only_lift_ext read_only_bind
  read_only_try_except read_only_logged : reads.

Ltac read_only_tac :=
  repeat first
    [ progress auto with reads
    | apply read_only_rpc; reflexivity
    | apply read_only_logged
    | apply read_only_bind; [ | intro ]
    | apply read_only_try_except; [ | intro ]
    | match goal with
      | |- read_only (if ?b then _ else _) => destruct b
      | |- read_only (match ?x with _ => _ end) => destruct x
      end ].

Lemma never_raises_ret {A} (a : A) : never_raises (ret a).
Proof. intros w. exists a, w. reflexivity. Qed.

Lemma never_raises_log lvl msg : never_raises (log lvl msg).
Proof. intros w. eexists. eexists. reflexivity. Qed.

Lemma never_raises_bind {A B} (c : M A) (k : A -> M B) :
  never_raises c -> (forall a, never_raises (k a)) -> never_raises (bind c k).
Proof.
  intros Nc Nk w. destruct (Nc w) as (a & w1 & E).
  destruct (Nk a w1) as (b & w2 & E2). exists b, w2.
  rewrite (bind_eq _ _ _ _ _ E). exact E2.
Qed.

(** A [try] whose handler never raises never raises. *)
Lemma never_raises_try_except {A} (c : M A) (h : Exn -> M A) :
  (forall e, never_raises (h e)) -> never_raises (try_except c h).
Proof.
  intros Nh w. unfold try_except. destruct (c w) as [[a | e] w1].
  - exists a, w1. reflexivity.
  - apply Nh.
Qed.

Lemma never_raises_logged {A} prefix (c : M A) :
  never_raises c -> never_raises (logged prefix c).
Proof.
  intros Nc w. destruct (Nc w) as (a & w1 & E). exists a, w1.
  apply logged_eq. exact E.
Qed.

Lemma read_only_estimate_gas_price : read_only Web3.estimate_gas_price.
Proof. unfold Web3.estimate_gas_price. read_only_tac. Qed.

Lemma read_only_get_balance web3 address :
  read_only (BNBTransfer.get_balance web3 address).
Proof. unfold BNBTransfer.get_balance. read_only_tac. Qed.

Lemma read_only_get_token_contract web3 token :
  read_only (TokenTransfer.get_token_contract web3 token).
Proof. unfold TokenTransfer.get_token_contract. read_only_tac. Qed.

Lemma read_only_get_token_info web3 token :
  read_only (TokenTransfer.get_token_info web3 token).
Proof.
  unfold TokenTransfer.get_token_info. apply read_only_logged.
  apply read_only_bind; [ apply read_only_get_token_contract | intro ].
  read_only_tac.
Qed.

Lemma read_only_get_token_balance web3 token wallet :
  read_only (TokenTransfer.get_token_balance web3 token wallet).
Proof.
  unfold TokenTransfer.get_token_balance. apply read_only_logged.
  apply read_only_bind; [ apply read_only_get_token_contract | intro ].
  apply read_only_bind; [ apply read_only_get_token_info | intro ].
  read_only_tac.
Qed.

Lemma read_only_wait_loop confirmed_text timeout_text tx_hash timeout start_time :
  forall fuel,
    read_only (Web3.wait_loop fuel confirmed_text timeout_text tx_hash timeout
                              start_time).
Proof.
  induction fuel as [ | fuel IH ]; cbn [Web3.wait_loop].
  - apply read_only_ret.
  - apply read_only_bind; [ apply read_only_time_time | intros t ].
    destruct (t - start_time <? 1000 * timeout); [ | apply read_only_raise ].
    apply read_only_bind.
    + apply read_only_try_except; [ | intro; apply read_only_ret ].
      apply read_only_bind; [ apply read_only_rpc; reflexivity | intros r ].
      destruct r; read_only_tac.
    + intros [c | ]; [ apply read_only_ret | ].
      apply read_only_bind; [ apply read_only_time_sleep | intros _; exact IH ].
Qed.

Lemma read_only_wait_for_confirmation_with wt ct tt ep fuel tx_hash timeout :
  read_only (Web3.wait_for_confirmation_with wt ct tt ep fuel tx_hash timeout).
Proof.
  unfold Web3.wait_for_confirmation_with. apply read_only_logged.
  apply read_only_bind; [ apply read_only_log | intros _ ].
  apply read_only_bind; [ apply read_only_time_time | intros t ].
  apply read_only_wait_loop.
Qed.

(** X1.  The functions that look things up ([get_balance],
    [estimate_gas_price], [get_token_info], [get_token_balance], both
    [wait_for_confirmation]s) only query the node: whatever the node
    answers, none of their collaborator calls signs, builds or submits a
    transaction. *)
Theorem lookups_only_query
        (web3 : Web3.Lib) (address token : string) (fuel : nat)
        (tx_hash : string) (timeout : Z) :
  read_only (BNBTransfer.get_balance web3 address)
  /\ read_only BNBTransfer.estimate_gas_price
  /\ read_only TokenTransfer.estimate_gas_price
  /\ read_only (TokenTransfer.get_token_info web3 token)
  /\ read_only (TokenTransfer.get_token_balance web3 token address)
  /\ read_only (BNBTransfer.wait_for_confirmation fuel tx_hash timeout)
  /\ read_only (TokenTransfer.wait_for_confirmation fuel tx_hash timeout).
Proof.
  repeat split.
  - apply read_only_get_balance.
  - apply read_only_estimate_gas_price.
  - apply read_only_estimate_gas_price.
  - apply read_only_get_token_info.
  - apply read_only_get_token_balance.
  - apply read_only_wait_for_confirmation_with.
  - apply read_only_wait_for_confirmation_with.
Qed.

(* ===================================================================== *)
(** * The gas price *)
(* ===================================================================== *)

Lemma bind_rpc_eq {A B} c (f : Node -> Ext A) (k : A -> M B) w :
  bind (rpc c f) k w =
  match f (w_node w (w_time w)) with
  | inl err => (Raise (exn_of_ext err), tick c w)
  | inr a => k a (tick c w)
  end.
Proof.
  unfold bind at 1. rewrite rpc_eq.
  destruct (f (w_node w (w_time w))); reflexivity.
Qed.

Lemma estimate_gas_price_run (w : World) :
  exists price w',
    Web3.estimate_gas_price w = (Ok price, w')
    /\ w_calls w' = (w_calls w ++ [CallGasPrice])%list
    /\ w_time w' = w_time w + Z.of_N (w_rtt w (w_time w))
    /\ price =
       match eth_gas_price (w_node w (w_time w)) with
       | inr p => if (0 <=? p) && (p <=? Web3.MAX_WEI) then p
                  else Config.DEFAULT_GAS_PRICE
       | inl _ => Config.DEFAULT_GAS_PRICE
       end.
Proof.
  unfold Web3.estimate_gas_price, try_except.
  rewrite bind_rpc_eq.
  destruct (eth_gas_price (w_node w (w_time w))) as [err | p].
  - eexists. eexists. repeat split.
  - unfold Web3.from_wei, Web3.MIN_WEI.
    destruct (Z.ltb_spec p 0); destruct (Z.leb_spec 0 p); try lia;
      [ eexists; eexists; repeat split | ].
    destruct (Z.ltb_spec Web3.MAX_WEI p); destruct (Z.leb_spec p Web3.MAX_WEI);
      try lia; eexists; eexists; repeat split.
Qed.

(** X2.  [estimate_gas_price] (the same in both handlers) never raises.  It
    makes one query; it returns the price of the node when the node gives one
    that fits 256 bits, and the default of 20 gwei in every other case. *)
Theorem estimate_gas_price_never_raises (w : World) :
  exists price w',
    BNBTransfer.estimate_gas_price w = (Ok price, w')
    /\ TokenTransfer.estimate_gas_price w = (Ok price, w')
    /\ w_calls w' = (w_calls w ++ [CallGasPrice])%list
    /\ w_time w' = w_time w + Z.of_N (w_rtt w (w_time w))
    /\ price =
       match eth_gas_price (w_node w (w_time w)) with
       | inr p => if (0 <=? p) && (p <=? Web3.MAX_WEI) then p
                  else Config.DEFAULT_GAS_PRICE
       | inl _ => Config.DEFAULT_GAS_PRICE
       end.
Proof.
  destruct (estimate_gas_price_run w) as (price & w' & E & Hc & Ht & Hp).
  exists price, w'. repeat split; assumption.
Qed.

(* ===================================================================== *)
(** * More on the wallet generator *)
(* ===================================================================== *)

Lemma validate_mnemonic_run
      (L : WalletGenerator.Libraries) (mnemonic : string) (w : World) :
  exists valid w',
    WalletGenerator.validate_mnemonic L mnemonic w = (Ok valid, w')
    /\ valid = match WalletGenerator.mnemo_check L mnemonic with
               | inr verdict => verdict
               | inl _ => false
               end
    /\ w_calls w' = w_calls w /\ w_time w' = w_time w.
Proof.
  unfold WalletGenerator.validate_mnemonic, try_except, lift_ext.
  destruct (WalletGenerator.mnemo_check L mnemonic) as [err | verdict];
    eexists; eexists; repeat split.
Qed.

(** X3.  [validate_mnemonic] never raises: it returns the verdict of the
    library, and [False] when the library raises; it calls no collaborator
    and takes no time. *)
Theorem validate_mnemonic_never_raises
        (L : WalletGenerator.Libraries) (mnemonic : string) (w : World) :
  exists valid w',
    WalletGenerator.validate_mnemonic L mnemonic w = (Ok valid, w')
    /\ valid = match WalletGenerator.mnemo_check L mnemonic with
               | inr verdict => verdict
               | inl _ => false
               end
    /\ w_calls w' = w_calls w /\ w_time w' = w_time w.
Proof. apply validate_mnemonic_run. Qed.

(** X4.  A mnemonic the library does not accept (it answers [False] or it
    raises) makes [derive_wallet_from_mnemonic] raise the [ValueError]
    "Invalid mnemonic phrase", whatever the index. *)
Theorem derive_wallet_rejects_invalid_mnemonic
        (L : WalletGenerator.Libraries) (mnemonic : string) (account_index : Z)
        (w : World) :
  WalletGenerator.mnemo_check L mnemonic <> inr true ->
  exists w',
    WalletGenerator.derive_wallet_from_mnemonic L mnemonic account_index w =
    (Raise (mkExn ValueError [Lit "Invalid mnemonic phrase"]), w')
    /\ w_calls w' = w_calls w.
Proof.
  intros H.
  unfold WalletGenerator.derive_wallet_from_mnemonic,
    WalletGenerator.validate_mnemonic, logged, try_except, bind, lift_ext.
  destruct (WalletGenerator.mnemo_check L mnemonic) as [err | [ | ]].
  - eexists. split; reflexivity.
  - exfalso. apply H. reflexivity.
  - eexists. split; reflexivity.
Qed.

(** The witness of X4: three words where twelve are expected. *)
Lemma derive_wallet_rejects_invalid_mnemonic_witness :
  let w := Fixtures.world
             (Fixtures.node 0 0 (inr "0xhash"%string) (inr None) (inr 18)) 0 in
  exists w',
    WalletGenerator.derive_wallet_from_mnemonic
      Doubles.twelve_words "abandon ability able" 0 w =
    (Raise (mkExn ValueError [Lit "Invalid mnemonic phrase"]), w')
    /\ w_calls w' = w_calls w.
Proof.
  intros w.
  apply (derive_wallet_rejects_invalid_mnemonic
           Doubles.twelve_words "abandon ability able" 0 w).
  vm_compute. discriminate.
Defined.

Lemma string_app_assoc (a b c : string) :
  ((a ++ b) ++ c = a ++ (b ++ c))%string.
Proof. induction a as [ | x a IH ]; cbn; [ | rewrite IH ]; reflexivity. Qed.

Lemma harden_small (i : Z) :
  0 <= i < 2 ^ 31 -> WalletGenerator.HardenIndex i = i + 2 ^ 31.
Proof.
  intros H. unfold WalletGenerator.HardenIndex, WalletGenerator.HARDENED_BIT.
  assert (N : Z.land i (2 ^ 31) = 0).
  { apply Z.bits_inj'. intros n Hn.
    rewrite Z.land_spec, Z.bits_0, Z.pow2_bits_eqb by lia.
    destruct (Z.eqb_spec 31 n) as [ <- | ]; [ | apply andb_false_r ].
    rewrite andb_true_r. apply Z.testbit_false; [ lia | ].
    rewrite Z.div_small by lia. reflexivity. }
  rewrite <- (Z.lxor_lor _ _ N). symmetry. apply Z.add_nocarry_lxor. exact N.
Qed.

Lemma render_hardened (i : Z) :
  0 <= i < 2 ^ 31 ->
  WalletGenerator.render_index (WalletGenerator.HardenIndex i) =
  (PyStr.of_int i ++ "'")%string.
Proof.
  intros H. rewrite (harden_small i H).
  unfold WalletGenerator.render_index, WalletGenerator.HARDENED_BIT.
  destruct (Z.ltb_spec (i + 2 ^ 31) (2 ^ 31)); [ lia | ].
  replace (i + 2 ^ 31 - 2 ^ 31) with i by lia. reflexivity.
Qed.

Lemma derive_wallet_ok_inv
      (L : WalletGenerator.Libraries) (mnemonic : string) (account_index : Z)
      (w w' : World) (wallet_info : WalletGenerator.WalletInfo) :
  0 <= account_index < 2 ^ 31 ->
  WalletGenerator.derive_wallet_from_mnemonic L mnemonic account_index w =
  (Ok wallet_info, w') ->
  exists seed leaf account,
    WalletGenerator.mnemo_check L mnemonic = inr true
    /\ WalletGenerator.Bip39SeedGenerator L mnemonic = inr seed
    /\ WalletGenerator.derive_leaf L seed account_index = inr leaf
    /\ WalletGenerator.render_path (WalletGenerator.bip_path L leaf) =
       ("m/44'/60'/" ++ PyStr.of_int account_index ++ "'/0/0")%string
    /\ WalletGenerator.private_key wallet_info =
       WalletGenerator.key_hex L (WalletGenerator.bip_key L leaf)
    /\ WalletGenerator.Account_from_key L
         (WalletGenerator.private_key wallet_info) = inr account
    /\ WalletGenerator.address wallet_info =
       WalletGenerator.acct_address account
    /\ WalletGenerator.public_key wallet_info =
       WalletGenerator.acct_public_key account
    /\ WalletGenerator.mnemonic wallet_info = mnemonic.
Proof.
  intros Hi H. unfold WalletGenerator.derive_wallet_from_mnemonic in H.
  apply logged_ok in H.
  apply bind_ok in H. destruct H as (valid & w0 & Hv & H).
  destruct (validate_mnemonic_run L mnemonic w) as (v & w1 & Ev & Hval & _).
  rewrite Ev in Hv. injection Hv as -> ->.
  destruct valid; [ | discriminate H ]. cbn [negb] in H.
  repeat step_ok H.
  match goal with
  | Hs : WalletGenerator.Bip39SeedGenerator L mnemonic = inr ?seed,
    Hl : WalletGenerator.derive_leaf L ?seed _ = inr ?leaf,
    Ha : WalletGenerator.Account_from_key L _ = inr ?account |- _ =>
      exists seed, leaf, account;
      pose proof (derive_leaf_path L seed account_index leaf Hl) as P
  end.
  rewrite P.
  cbn [WalletGenerator.private_key WalletGenerator.address
       WalletGenerator.public_key WalletGenerator.mnemonic].
  repeat split; try assumption.
  - destruct (WalletGenerator.mnemo_check L mnemonic) as [err | verdict];
      [ discriminate Hval | congruence ].
  - unfold WalletGenerator.render_path.
    cbn [WalletGenerator.render_levels].
    rewrite (render_hardened account_index Hi).
    change (WalletGenerator.render_index (WalletGenerator.HardenIndex 44))
      with "44'"%string.
    change (WalletGenerator.render_index (WalletGenerator.HardenIndex 60))
      with "60'"%string.
    change (WalletGenerator.render_index 0) with "0"%string.
    cbn [append]. rewrite string_app_assoc. reflexivity.
Qed.

(** X5.  For an index below [2 ^ 31], the wallet [derive_wallet_from_mnemonic]
    returns holds the key of the leaf [m/44'/60'/i'/0/0]: its private key is
    the hex form of that leaf's key, and its address and public key are the
    ones [Account.from_key] gives for it. *)
Theorem derive_wallet_walks_account_level
        (L : WalletGenerator.Libraries) (mnemonic : string) (account_index : Z)
        (w w' : World) (wallet_info : WalletGenerator.WalletInfo) :
  0 <= account_index < 2 ^ 31 ->
  WalletGenerator.derive_wallet_from_mnemonic L mnemonic account_index w =
  (Ok wallet_info, w') ->
  exists seed leaf account,
    WalletGenerator.mnemo_check L mnemonic = inr true
    /\ WalletGenerator.Bip39SeedGenerator L mnemonic = inr seed
    /\ WalletGenerator.derive_leaf L seed account_index = inr leaf
    /\ WalletGenerator.render_path (WalletGenerator.bip_path L leaf) =
       ("m/44'/60'/" ++ PyStr.of_int account_index ++ "'/0/0")%string
    /\ WalletGenerator.private_key wallet_info =
       WalletGenerator.key_hex L (WalletGenerator.bip_key L leaf)
    /\ WalletGenerator.Account_from_key L
         (WalletGenerator.private_key wallet_info) = inr account
    /\ WalletGenerator.address wallet_info =
       WalletGenerator.acct_address account
    /\ WalletGenerator.public_key wallet_info =
       WalletGenerator.acct_public_key account
    /\ WalletGenerator.mnemonic wallet_info = mnemonic.
Proof. apply derive_wallet_ok_inv. Qed.

(** The witness of X5, on the symbolic libraries at index 5. *)
Lemma derive_wallet_walks_account_level_witness :
  let w := Fixtures.world
             (Fixtures.node 0 0 (inr "0xhash"%string) (inr None) (inr 18)) 0 in
  let run := WalletGenerator.derive_wallet_from_mnemonic
               WalletGenerator.symbolic "abandon ability able" 5 w in
  exists seed leaf account,
    WalletGenerator.mnemo_check WalletGenerator.symbolic "abandon ability able"
    = inr true
    /\ WalletGenerator.Bip39SeedGenerator WalletGenerator.symbolic
         "abandon ability able" = inr seed
    /\ WalletGenerator.derive_leaf WalletGenerator.symbolic seed 5 = inr leaf
    /\ WalletGenerator.render_path
         (WalletGenerator.bip_path WalletGenerator.symbolic leaf) =
       ("m/44'/60'/" ++ PyStr.of_int 5 ++ "'/0/0")%string
    /\ "2147483692.2147483708.2147483653.0.0"%string =
       WalletGenerator.key_hex WalletGenerator.symbolic
         (WalletGenerator.bip_key WalletGenerator.symbolic leaf)
    /\ WalletGenerator.Account_from_key WalletGenerator.symbolic
         "2147483692.2147483708.2147483653.0.0" = inr account
    /\ "0x2147483692.2147483708.2147483653.0.0"%string =
       WalletGenerator.acct_address account
    /\ "pub:2147483692.2147483708.2147483653.0.0"%string =
       WalletGenerator.acct_public_key account
    /\ "abandon ability able"%string = "abandon ability able"%string.
Proof.
  intros w run.
  apply (derive_wallet_walks_account_level WalletGenerator.symbolic
           "abandon ability able" 5 w (snd run)
           (WalletGenerator.mkWalletInfo
              "abandon ability able"
              "2147483692.2147483708.2147483653.0.0"
              "pub:2147483692.2147483708.2147483653.0.0"
              "0x2147483692.2147483708.2147483653.0.0"
              "m/44'/60'/0'/0/5")).
  - lia.
  - vm_compute. reflexivity.
Defined.

(** X6.  The wallet [create_new_wallet] returns carries the mnemonic the
    generator produced and records the path [BIP44_PATH], which is the path
    of the key it holds; deriving again from that mnemonic at index 0, in any
    world, returns the same wallet. *)
Theorem create_new_wallet_rederivable
        (L : WalletGenerator.Libraries)
        (mnemo_generate : Z -> (nat -> Z) -> Ext string * nat)
        (strength : Z) (w w' : World)
        (wallet_info : WalletGenerator.WalletInfo) :
  WalletGenerator.create_new_wallet L mnemo_generate strength w =
  (Ok wallet_info, w') ->
  fst (mnemo_generate strength (w_entropy w)) =
  inr (WalletGenerator.mnemonic wallet_info)
  /\ WalletGenerator.bip44_path wallet_info = Config.BIP44_PATH
  /\ (exists seed leaf,
         WalletGenerator.Bip39SeedGenerator L
           (WalletGenerator.mnemonic wallet_info) = inr seed
         /\ WalletGenerator.derive_leaf L seed 0 = inr leaf
         /\ WalletGenerator.render_path (WalletGenerator.bip_path L leaf) =
            Config.BIP44_PATH
         /\ WalletGenerator.private_key wallet_info =
            WalletGenerator.key_hex L (WalletGenerator.bip_key L leaf))
  /\ (forall w2,
         fst (WalletGenerator.derive_wallet_from_mnemonic
                L (WalletGenerator.mnemonic wallet_info) 0 w2) = Ok wallet_info).
Proof.
  intros H. unfold WalletGenerator.create_new_wallet in H.
  apply logged_ok in H.
  apply bind_ok in H. destruct H as (m & w1 & Hg & H).
  unfold WalletGenerator.generate_mnemonic in Hg.
  repeat step_ok Hg.
  match goal with
  | Hl : log _ _ _ = _ |- _ => clear Hl
  end.
  match goal with
  | He : entropy_call _ _ = _ |- _ =>
      apply entropy_call_ok in He; destruct He as (He & _)
  end.
  pose proof H as Hd.
  apply derive_wallet_ok_inv in Hd; [ | lia ].
  destruct Hd as (seed & leaf & account & _ & Hs & Hl & Hp & Hk & _ & _ & _ & Hm).
  assert (Hpath : WalletGenerator.bip44_path wallet_info = Config.BIP44_PATH).
  { unfold WalletGenerator.derive_wallet_from_mnemonic in H.
    apply logged_ok in H. repeat step_ok H. reflexivity. }
  rewrite Hm. repeat split.
  - assumption.
  - exact Hpath.
  - exists seed, leaf. repeat split; assumption.
  - intros w2.
    rewrite (derive_wallet_any_world L m 0 w2 w1), H. reflexivity.
Qed.

(** The witness of X6: a generator that returns a twelve-word phrase. *)
Lemma create_new_wallet_rederivable_witness :
  let w := Fixtures.world
             (Fixtures.node 0 0 (inr "0xhash"%string) (inr None) (inr 18)) 0 in
  let run := WalletGenerator.create_new_wallet
               Doubles.twelve_words Doubles.generate_phrase 128 w in
  exists wallet_info,
    fst run = Ok wallet_info
    /\ WalletGenerator.mnemonic wallet_info = Doubles.phrase
    /\ WalletGenerator.bip44_path wallet_info = Config.BIP44_PATH
    /\ (forall w2,
           fst (WalletGenerator.derive_wallet_from_mnemonic
                  Doubles.twelve_words
                  (WalletGenerator.mnemonic wallet_info) 0 w2) = Ok wallet_info).
Proof.
  intros w run.
  set (wallet_info :=
         WalletGenerator.mkWalletInfo
           Doubles.phrase
           "2147483692.2147483708.2147483648.0.0"
           "pub:2147483692.2147483708.2147483648.0.0"
           "0x2147483692.2147483708.2147483648.0.0"
           "m/44'/60'/0'/0/0").
  assert (E : WalletGenerator.create_new_wallet
                Doubles.twelve_words Doubles.generate_phrase 128 w =
              (Ok wallet_info, snd run)) by (vm_compute; reflexivity).
  destruct (create_new_wallet_rederivable
              Doubles.twelve_words Doubles.generate_phrase 128 w (snd run)
              wallet_info E) as (_ & Hp & _ & Hr).
  exists wallet_info. split; [ vm_compute; reflexivity | ].
  split; [ reflexivity | ]. split; [ exact Hp | exact Hr ].
Defined.

(** X7.  [import_wallet_from_private_key] treats a key of hexadecimal digits
    the same with and without the [0x] prefix; the wallet it returns stores
    the key without the prefix, has the address and public key
    [Account.from_key] gives for it, and has no mnemonic and no path. *)
Theorem import_private_key_prefix_optional
        (L : WalletGenerator.Libraries) (k : string) (w : World) :
  PyStr.is_hex k = true ->
  WalletGenerator.import_wallet_from_private_key L ("0x" ++ k) w =
  WalletGenerator.import_wallet_from_private_key L k w
  /\ (forall wallet_info w',
         WalletGenerator.import_wallet_from_private_key L ("0x" ++ k) w =
         (Ok wallet_info, w') ->
         exists account,
           WalletGenerator.Account_from_key L k = inr account
           /\ WalletGenerator.private_key wallet_info = k
           /\ WalletGenerator.address wallet_info =
              WalletGenerator.acct_address account
           /\ WalletGenerator.public_key wallet_info =
              WalletGenerator.acct_public_key account
           /\ WalletGenerator.mnemonic wallet_info =
              "N/A (imported from private key)"%string
           /\ WalletGenerator.bip44_path wallet_info =
              "N/A (imported from private key)"%string).
Proof.
  intros H.
  unfold WalletGenerator.import_wallet_from_private_key.
  rewrite (hex_not_prefixed k H), (prefixed_stripped k).
  split; [ reflexivity | ].
  intros wallet_info w' E.
  repeat step_ok E.
  eexists. split; [ eassumption | ]. repeat split.
Qed.

(** The witness of X7, on the symbolic libraries. *)
Lemma import_private_key_prefix_optional_witness :
  let k := "4c0883a69102937d6231471b5dbb6204fe5129617082792ae468d01a3f362318"%string in
  let w := Fixtures.world
             (Fixtures.node 0 0 (inr "0xhash"%string) (inr None) (inr 18)) 0 in
  WalletGenerator.import_wallet_from_private_key
    WalletGenerator.symbolic ("0x" ++ k) w =
  WalletGenerator.import_wallet_from_private_key WalletGenerator.symbolic k w.
Proof.
  intros k w.
  apply (import_private_key_prefix_optional WalletGenerator.symbolic k w).
  vm_compute. reflexivity.
Defined.

(* ===================================================================== *)
(** * More on native transfers *)
(* ===================================================================== *)

(** X8.  The native handler checks addresses before it talks to the node:
    [get_balance] on a string that is not an address, and
    [create_transaction] with a sender or a recipient that is not an address,
    raise a [ValueError] without any collaborator call and without any time
    passing, whatever the amount. *)
Theorem native_validation_precedes_network
        (web3 : Web3.Lib) (from_address to_address : string)
        (amount_bnb : PyFloat.float) (gas_price : option Z) (w : World) :
  Web3.is_address web3 from_address = false
  \/ Web3.is_address web3 to_address = false ->
  (Web3.is_address web3 from_address = false ->
   exists w',
     BNBTransfer.get_balance web3 from_address w =
     (Raise (mkExn ValueError [Lit "Invalid address format"]), w')
     /\ w_calls w' = w_calls w /\ w_time w' = w_time w)
  /\ (exists e w',
         BNBTransfer.create_transaction web3 from_address to_address
                                        amount_bnb gas_price w = (Raise e, w')
         /\ exn_class e = ValueError
         /\ exn_msg e =
            (if Web3.is_address web3 from_address
             then [Lit "Invalid to_address format"]
             else [Lit "Invalid from_address format"])
         /\ w_calls w' = w_calls w /\ w_time w' = w_time w).
Proof.
  intros H. split.
  - intros Hf. unfold BNBTransfer.get_balance. rewrite Hf.
    eexists. repeat split.
  - unfold BNBTransfer.create_transaction.
    destruct (Web3.is_address web3 from_address).
    + destruct H as [H | H]; [ discriminate H | ]. rewrite H.
      eexists. eexists. repeat split.
    + eexists. eexists. repeat split.
Qed.

(** The witness of X8: the recipient lacks the [0x] the double asks for. *)
Lemma native_validation_precedes_network_witness :
  let w := Fixtures.world
             (Fixtures.node (5 * 10 ^ 18) 7 (inr "0xhash"%string) (inr None)
                            (inr 18)) 25 in
  exists e w',
    BNBTransfer.create_transaction Doubles.strict_lib "0xme" "dest"
                                   Fixtures.one None w = (Raise e, w')
    /\ exn_class e = ValueError
    /\ exn_msg e = [Lit "Invalid to_address format"]
    /\ w_calls w' = w_calls w /\ w_time w' = w_time w.
Proof.
  intros w.
  apply (proj2 (native_validation_precedes_network
                  Doubles.strict_lib "0xme" "dest" Fixtures.one None w
                  (or_intror eq_refl))).
Defined.

Lemma create_transaction_ok_inv
      (web3 : Web3.Lib) (from_address to_address : string)
      (amount_bnb : PyFloat.float) (gas_price : option Z)
      (w w' : World) (tx : Transaction) :
  BNBTransfer.create_transaction web3 from_address to_address amount_bnb
                                 gas_price w = (Ok tx, w') ->
  Web3.is_address web3 from_address = true
  /\ Web3.is_address web3 to_address = true
  /\ tx_to tx = Web3.to_checksum_address web3 to_address
  /\ Web3.to_wei_ether web3 amount_bnb = inr (tx_value tx)
  /\ tx_gas tx = 21000
  /\ tx_chainId tx = 97
  /\ tx_data tx = NoData
  /\ match gas_price with
     | Some p =>
         tx_gasPrice tx = p
         /\ w_calls w' =
            (w_calls w ++ [CallGetTransactionCount
                             (Web3.to_checksum_address web3 from_address)])%list
     | None =>
         w_calls w' =
         (w_calls w ++ [CallGasPrice;
                        CallGetTransactionCount
                          (Web3.to_checksum_address web3 from_address)])%list
     end.
Proof.
  intros H. unfold BNBTransfer.create_transaction in H.
  repeat step_ok H.
  match goal with
  | Hl : log _ _ _ = (Ok _, _) |- _ => unfold log in Hl; injection Hl as _ <-
  end.
  cbn [tx_to tx_value tx_gas tx_chainId tx_data tx_gasPrice w_calls tick].
  repeat match goal with
         | E : negb _ = false |- _ => apply negb_false_iff in E
         end.
  repeat (split; [ assumption || reflexivity | ]).
  destruct gas_price as [p | ].
  - match goal with
    | Hg : ret _ _ = (Ok _, _) |- _ => step_ok Hg
    end.
    split; reflexivity.
  - match goal with
    | Hg : BNBTransfer.estimate_gas_price _ = (Ok _, _) |- _ =>
        destruct (estimate_gas_price_run w) as (pg & wg & Eg & Ec & _);
        unfold BNBTransfer.estimate_gas_price in Hg;
        rewrite Eg in Hg; injection Hg as _ <-
    end.
    rewrite Ec, <- app_assoc. reflexivity.
Qed.

(** X9.  A transaction [create_transaction] returns goes to the checksum form
    of the recipient, carries the amount as [to_wei] converts it, the gas
    limit 21000, the chain id 97 and no data.  With a gas price given, that
    price is used and the only query is the transaction count; without one,
    the gas price is queried first. *)
Theorem create_transaction_shape
        (web3 : Web3.Lib) (from_address to_address : string)
        (amount_bnb : PyFloat.float) (gas_price : option Z)
        (w w' : World) (tx : Transaction) :
  BNBTransfer.create_transaction web3 from_address to_address amount_bnb
                                 gas_price w = (Ok tx, w') ->
  Web3.is_address web3 from_address = true
  /\ Web3.is_address web3 to_address = true
  /\ tx_to tx = Web3.to_checksum_address web3 to_address
  /\ Web3.to_wei_ether web3 amount_bnb = inr (tx_value tx)
  /\ tx_gas tx = 21000
  /\ tx_chainId tx = 97
  /\ tx_data tx = NoData
  /\ match gas_price with
     | Some p =>
         tx_gasPrice tx = p
         /\ w_calls w' =
            (w_calls w ++ [CallGetTransactionCount
                             (Web3.to_checksum_address web3 from_address)])%list
     | None =>
         w_calls w' =
         (w_calls w ++ [CallGasPrice;
                        CallGetTransactionCount
                          (Web3.to_checksum_address web3 from_address)])%list
     end.
Proof. apply create_transaction_ok_inv. Qed.

(** The witness of X9: a transfer built with a gas price of 5 gwei. *)
Lemma create_transaction_shape_witness :
  let w := Fixtures.world
             (Fixtures.node (5 * 10 ^ 18) 7 (inr "0xhash"%string) (inr None)
                            (inr 18)) 25 in
  let run := BNBTransfer.create_transaction Fixtures.lib "me" "dest"
               Fixtures.one (Some 5000000000) w in
  exists tx,
    fst run = Ok tx
    /\ tx_to tx = "dest"%string
    /\ tx_value tx = 10 ^ 18
    /\ tx_gas tx = 21000 /\ tx_chainId tx = 97 /\ tx_data tx = NoData
    /\ tx_gasPrice tx = 5000000000
    /\ w_calls (snd run) = [CallGetTransactionCount "me"].
Proof.
  intros w run.
  set (tx := mkTransaction 7 "dest" (10 ^ 18) 21000 5000000000 97 NoData).
  assert (E : BNBTransfer.create_transaction Fixtures.lib "me" "dest"
                Fixtures.one (Some 5000000000) w = (Ok tx, snd run))
    by (vm_compute; reflexivity).
  destruct (create_transaction_shape Fixtures.lib "me" "dest" Fixtures.one
              (Some 5000000000) w (snd run) tx E)
    as (_ & _ & H1 & _ & H3 & H4 & H5 & H6 & H7).
  exists tx. split; [ vm_compute; reflexivity | ].
  repeat split; assumption || reflexivity.
Defined.

Lemma lower_app (a b : string) :
  PyStr.lower (a ++ b) = (PyStr.lower a ++ PyStr.lower b)%string.
Proof. induction a as [ | c a IH ]; cbn; [ | rewrite IH ]; reflexivity. Qed.

Lemma prefix_app (p s : string) : String.prefix p (p ++ s) = true.
Proof.
  induction p as [ | c p IH ]; cbn.
  - destruct s; reflexivity.
  - destruct (ascii_dec c c) as [ _ | N ]; [ exact IH | contradiction ].
Qed.

Lemma contains_app (p pre post : string) :
  PyStr.contains p (pre ++ p ++ post) = true.
Proof.
  induction pre as [ | c pre IH ].
  - cbn [append]. destruct (p ++ post)%string eqn:E;
      cbn [PyStr.contains]; rewrite <- E, prefix_app; reflexivity.
  - cbn [append PyStr.contains]. rewrite IH. apply orb_true_r.
Qed.

(** What the native handler does with a failed submission, as a function of
    the lower-cased text. *)
Lemma bnb_broadcast_failure_run (w : World) (raw : string) (err : ExtError) :
  eth_send_raw_transaction (w_node w (w_time w)) raw = inl err ->
  exists e w',
    BNBTransfer.broadcast_transaction raw w = (Raise e, w')
    /\ w_calls w' = (w_calls w ++ [CallSendRawTransaction raw])%list
    /\ (PyStr.contains "insufficient funds" (PyStr.lower (ext_text err)) = true ->
        e = mkExn ValueError [Lit "Insufficient funds: Your wallet doesn't have enough BNB to cover the transaction amount plus gas fees."])
    /\ (exn_class e = ConnectionError <->
        (forall p,
            In p ["insufficient funds"; "nonce too low"; "nonce too high";
                  "gas price too low"; "intrinsic gas too low"]%string ->
            PyStr.contains p (PyStr.lower (ext_text err)) = false)
        /\ (PyStr.contains "connection" (PyStr.lower (ext_text err)) = true
            \/ PyStr.contains "timeout" (PyStr.lower (ext_text err)) = true)).
Proof.
  intros H.
  unfold BNBTransfer.broadcast_transaction, bind, rpc_ext. rewrite H.
  repeat match goal with
         | |- context [if ?b then _ else _] => destruct b eqn:?
         end;
    (eexists; eexists; split; [ reflexivity | ];
     split; [ reflexivity | ];
     split; [ intros; reflexivity || discriminate | ];
     cbn [exn_class]; split;
     [ intros Hc; try discriminate Hc
     | intros [Hall Hany];
       repeat match goal with
              | E : PyStr.contains ?p _ = true |- _ =>
                  rewrite (Hall p) in E; [ discriminate E | cbn; tauto ]
              end;
       try reflexivity ]).
  - split.
    + intros p Hp. cbn in Hp.
      repeat (destruct Hp as [ <- | Hp ]; [ assumption | ]). contradiction.
    + apply orb_prop. assumption.
  - destruct Hany as [Hany | Hany];
      match goal with
      | E : (_ || _)%bool = false |- _ =>
          apply orb_false_elim in E; destruct E; congruence
      end.
Qed.

(** X10.  When the submission fails, the native handler looks for its
    patterns in the lower-cased text, in order.  A text that contains
    "insufficient funds" in any mix of upper and lower case gets the
    insufficient-funds [ValueError], whatever else it contains.  The only
    exception that is not a [ValueError] is the [ConnectionError], raised
    exactly when none of the five earlier patterns occurs and "connection" or
    "timeout" does.  The only call made is the submission. *)
Theorem bnb_broadcast_failure_precedence
        (w : World) (raw : string) (err : ExtError) (pre mid post : string) :
  eth_send_raw_transaction (w_node w (w_time w)) raw = inl err ->
  exists e w',
    BNBTransfer.broadcast_transaction raw w = (Raise e, w')
    /\ w_calls w' = (w_calls w ++ [CallSendRawTransaction raw])%list
    /\ (ext_text err = (pre ++ mid ++ post)%string ->
        PyStr.lower mid = "insufficient funds"%string ->
        e = mkExn ValueError [Lit "Insufficient funds: Your wallet doesn't have enough BNB to cover the transaction amount plus gas fees."])
    /\ (exn_class e = ConnectionError <->
        (forall p,
            In p ["insufficient funds"; "nonce too low"; "nonce too high";
                  "gas price too low"; "intrinsic gas too low"]%string ->
            PyStr.contains p (PyStr.lower (ext_text err)) = false)
        /\ (PyStr.contains "connection" (PyStr.lower (ext_text err)) = true
            \/ PyStr.contains "timeout" (PyStr.lower (ext_text err)) = true)).
Proof.
  intros H.
  destruct (bnb_broadcast_failure_run w raw err H) as (e & w' & E & Hc & Hi & Hn).
  exists e, w'.
  split; [ exact E | split; [ exact Hc | split; [ | exact Hn ] ] ].
  intros Ht Hm. apply Hi.
  rewrite Ht, !lower_app, Hm. apply contains_app.
Qed.

(** The witness of X10: a message in capitals that names two causes. *)
Lemma bnb_broadcast_failure_precedence_witness :
  let err := mkExtError "ValueError"
               "INSUFFICIENT FUNDS for gas * price + value (nonce too low)" in
  let w := Fixtures.world
             (Fixtures.node 0 7 (inl err) (inr None) (inr 18)) 30 in
  exists w',
    BNBTransfer.broadcast_transaction "signed:7:k" w =
    (Raise (mkExn ValueError [Lit "Insufficient funds: Your wallet doesn't have enough BNB to cover the transaction amount plus gas fees."]), w').
Proof.
  intros err w.
  destruct (bnb_broadcast_failure_precedence
              w "signed:7:k" err "" "INSUFFICIENT FUNDS"
              " for gas * price + value (nonce too low)" eq_refl)
    as (e & w' & E & _ & Hi & _).
  exists w'. rewrite E, (Hi eq_refl eq_refl). reflexivity.
Defined.

Lemma get_balance_node_error web3 address w err :
  Web3.is_address web3 address = true ->
  eth_get_balance (w_node w (w_time w))
                  (Web3.to_checksum_address web3 address) = inl err ->
  exists w1,
    BNBTransfer.get_balance web3 address w = (Raise (exn_of_ext err), w1)
    /\ w_calls w1 =
       (w_calls w ++ [CallGetBalance (Web3.to_checksum_address web3 address)])%list.
Proof.
  intros Ha Hb. unfold BNBTransfer.get_balance. rewrite Ha. cbn [negb].
  eexists. split.
  - apply logged_raise. rewrite bind_rpc_eq, Hb. reflexivity.
  - reflexivity.
Qed.

(** X11.  [send_bnb] stops before it builds anything when it cannot learn the
    balance.  With a key [Account.from_key] refuses it raises that error
    without any collaborator call; when the node fails on the balance query
    it raises the node's error and the balance query is its only call. *)
Theorem send_bnb_stops_without_balance
        (web3 : Web3.Lib) (fuel : nat) (private_key to_address : string)
        (amount_bnb : PyFloat.float) (wait : bool) (w : World) (err : ExtError) :
  (Web3.Account_from_key web3 private_key = inl err ->
   exists w',
     BNBTransfer.send_bnb web3 fuel private_key to_address amount_bnb wait w =
     (Raise (exn_of_ext err), w')
     /\ w_calls w' = w_calls w)
  /\ (forall from_address,
         Web3.Account_from_key web3 private_key = inr from_address ->
         Web3.is_address web3 from_address = true ->
         eth_get_balance (w_node w (w_time w))
                         (Web3.to_checksum_address web3 from_address) = inl err ->
         exists w',
           BNBTransfer.send_bnb web3 fuel private_key to_address amount_bnb
                                wait w = (Raise (exn_of_ext err), w')
           /\ w_calls w' =
              (w_calls w ++ [CallGetBalance
                               (Web3.to_checksum_address web3 from_address)])%list).
Proof.
  split.
  - intros Hk. unfold BNBTransfer.send_bnb. rewrite Hk.
    eexists. split; reflexivity.
  - intros from_address Hk Ha Hb.
    destruct (get_balance_node_error web3 from_address
                (send_bnb_preamble from_address to_address amount_bnb w) err
                Ha Hb) as (w1 & Hg & Hc).
    unfold BNBTransfer.send_bnb. rewrite Hk.
    eexists. split.
    + apply logged_raise.
      change (bind (lift_ext (inr from_address)) ?k w) with (k from_address w).
      cbv beta.
      repeat (erewrite bind_eq; [ | reflexivity ]).
      apply bind_raise. exact Hg.
    + cbn [w_calls]. exact Hc.
Qed.

(** The witness of X11: a node that is down. *)
Lemma send_bnb_stops_without_balance_witness :
  let w := Fixtures.world Doubles.dead_node 40 in
  exists w',
    BNBTransfer.send_bnb Fixtures.lib 200 "k" "dest" Fixtures.one true w =
    (Raise (exn_of_ext Doubles.down), w')
    /\ w_calls w' = [CallGetBalance "addr:k"].
Proof.
  intros w.
  apply (proj2 (send_bnb_stops_without_balance
                  Fixtures.lib 200 "k" "dest" Fixtures.one true w Doubles.down)
           "addr:k"%string); reflexivity.
Defined.

(* ===================================================================== *)
(** * More on waiting for a confirmation *)
(* ===================================================================== *)

Section WaitLoopCalls.

Variables (confirmed_text timeout_text tx_hash : string).
Variables (timeout start_time : Z).

Let loop (fuel : nat) : M (option Web3.Confirmation) :=
  Web3.wait_loop fuel confirmed_text timeout_text tx_hash timeout start_time.

(** A receipt is there: one query, no sleep. *)
Lemma wait_loop_found_calls fuel w rc :
  w_time w - start_time < 1000 * timeout ->
  eth_get_transaction_receipt (w_node w (w_time w)) tx_hash = inr (Some rc) ->
  w_calls (snd (loop (S fuel) w)) = (w_calls w ++ [CallGetTransactionReceipt tx_hash])%list.
Proof.
  intros H Hr. unfold loop. cbn [Web3.wait_loop].
  unfold bind at 1. unfold time_time.
  destruct (Z.ltb_spec (w_time w - start_time) (1000 * timeout)); [ | lia ].
  unfold bind at 1. unfold try_except at 1. unfold bind at 1.
  rewrite rpc_eq, Hr. reflexivity.
Qed.

(** The queries of the loop: [k] receipt queries and nothing else, the last
    of them started before the deadline and at least two seconds after the
    one before. *)
Lemma wait_loop_calls :
  forall fuel w,
  exists k,
    w_calls (snd (loop fuel w)) = (w_calls w ++ repeat (CallGetTransactionReceipt tx_hash) k)%list
    /\ (k = O \/ w_time w - start_time + 2000 * (Z.of_nat k - 1) < 1000 * timeout).
Proof.
  unfold loop.
  induction fuel as [ | fuel IH ]; intros w.
  - exists O. cbn. rewrite app_nil_r. auto.
  - destruct (Z_lt_le_dec (w_time w - start_time) (1000 * timeout)) as [Hlt | Hge].
    + destruct (eth_get_transaction_receipt (w_node w (w_time w)) tx_hash)
        as [err | [rc | ]] eqn:E.
      * rewrite wait_loop_pending;
          [ | exact Hlt | intros rc; rewrite E; discriminate ].
        destruct (IH (snd (time_sleep 2 (tick (CallGetTransactionReceipt tx_hash) w)))) as (k & Hc & Hb).
        exists (S k). split.
        -- rewrite Hc. cbn [time_sleep snd w_calls tick repeat].
           rewrite <- app_assoc. reflexivity.
        -- right. cbn [time_sleep snd w_time tick] in Hb.
           destruct Hb as [-> | Hb]; lia.
      * exists 1%nat. split.
        -- apply (wait_loop_found_calls fuel w rc Hlt E).
        -- right. lia.
      * rewrite wait_loop_pending;
          [ | exact Hlt | intros rc; rewrite E; discriminate ].
        destruct (IH (snd (time_sleep 2 (tick (CallGetTransactionReceipt tx_hash) w)))) as (k & Hc & Hb).
        exists (S k). split.
        -- rewrite Hc. cbn [time_sleep snd w_calls tick repeat].
           rewrite <- app_assoc. reflexivity.
        -- right. cbn [time_sleep snd w_time tick] in Hb.
           destruct Hb as [-> | Hb]; lia.
    + rewrite wait_loop_expired by exact Hge.
      exists O. cbn. rewrite app_nil_r. auto.
Qed.

End WaitLoopCalls.

Lemma wait_with_calls wt ct tt ep fuel tx_hash timeout w :
  exists k,
    w_calls (snd (Web3.wait_for_confirmation_with wt ct tt ep fuel tx_hash
                                                   timeout w)) =
    (w_calls w ++ repeat (CallGetTransactionReceipt tx_hash) k)%list
    /\ (k = O \/ 2 * (Z.of_nat k - 1) < timeout).
Proof.
  rewrite wait_unfold.
  destruct (wait_loop_calls ct tt tx_hash timeout (w_time w) fuel
              (snd (log INFO [Lit wt; Lit tx_hash] w))) as (k & Hc & Hb).
  exists k. split.
  - destruct (Web3.wait_loop fuel ct tt tx_hash timeout (w_time w)
                (snd (log INFO [Lit wt; Lit tx_hash] w))) as [[r | e] w1] eqn:E.
    + rewrite (logged_eq _ _ _ _ _ E). exact Hc.
    + rewrite (logged_raise _ _ _ _ _ E). exact Hc.
  - destruct Hb as [Hb | Hb]; [ left; exact Hb | right ].
    cbn [log snd w_time] in Hb. lia.
Qed.

Lemma wait_with_zero_timeout wt ct tt ep fuel tx_hash timeout w :
  (0 < fuel)%nat -> timeout <= 0 ->
  exists e w',
    Web3.wait_for_confirmation_with wt ct tt ep fuel tx_hash timeout w =
    (Raise e, w')
    /\ exn_class e = TimeoutError
    /\ w_calls w' = w_calls w /\ w_time w' = w_time w.
Proof.
  intros Hf Ht. rewrite wait_unfold.
  destruct fuel as [ | fuel ]; [ lia | ].
  eexists. eexists. split.
  - apply logged_raise. apply wait_loop_expired. cbn [log snd w_time]. lia.
  - repeat split.
Qed.

(** X12.  With a timeout of zero or less, both [wait_for_confirmation]s raise
    [TimeoutError] at once: the node is not asked, no time passes, even when
    the receipt is there. *)
Theorem wait_for_confirmation_zero_timeout
        (wait : nat -> string -> Z -> M (option Web3.Confirmation))
        (fuel : nat) (tx_hash : string) (timeout : Z) (w : World) :
  In wait [ BNBTransfer.wait_for_confirmation;
            TokenTransfer.wait_for_confirmation ] ->
  (0 < fuel)%nat ->
  timeout <= 0 ->
  exists e w',
    wait fuel tx_hash timeout w = (Raise e, w')
    /\ exn_class e = TimeoutError
    /\ w_calls w' = w_calls w /\ w_time w' = w_time w.
Proof.
  intros [ <- | [ <- | [] ] ] Hf Ht; apply wait_with_zero_timeout; assumption.
Qed.

(** The witness of X12: the receipt is there and the timeout is 0. *)
Lemma wait_for_confirmation_zero_timeout_witness :
  let w := Fixtures.world
             (Fixtures.node 0 7 (inr "0xhash"%string)
                            (inr (Some (mkReceipt 1 21000 100))) (inr 18)) 50 in
  exists e w',
    BNBTransfer.wait_for_confirmation 5 "0xhash" 0 w = (Raise e, w')
    /\ exn_class e = TimeoutError
    /\ w_calls w' = w_calls w /\ w_time w' = w_time w.
Proof.
  intros w.
  apply (wait_for_confirmation_zero_timeout
           BNBTransfer.wait_for_confirmation 5 "0xhash" 0 w).
  - left. reflexivity.
  - lia.
  - lia.
Defined.

(** X13.  Whatever the node answers and however the call ends, the
    collaborator calls of [wait_for_confirmation] are [k] receipt queries
    for the hash and nothing else, and [k] is at most half the timeout in
    seconds, rounded up: a poll is made only before the deadline and two
    seconds or more after the one before. *)
Theorem wait_for_confirmation_query_bound
        (wait : nat -> string -> Z -> M (option Web3.Confirmation))
        (fuel : nat) (tx_hash : string) (timeout : Z) (w : World) :
  In wait [ BNBTransfer.wait_for_confirmation;
            TokenTransfer.wait_for_confirmation ] ->
  exists k,
    w_calls (snd (wait fuel tx_hash timeout w)) =
    (w_calls w ++ repeat (CallGetTransactionReceipt tx_hash) k)%list
    /\ (k = O \/ 2 * (Z.of_nat k - 1) < timeout).
Proof.
  intros [ <- | [ <- | [] ] ]; apply wait_with_calls.
Qed.

(** The witness of X13: five seconds on a node without the receipt. *)
Lemma wait_for_confirmation_query_bound_witness :
  let w := Fixtures.world
             (Fixtures.node 0 7 (inr "0xhash"%string)
                            (inl Fixtures.not_found) (inr 18)) 50 in
  exists k,
    w_calls (snd (TokenTransfer.wait_for_confirmation 10 "0xhash" 5 w)) =
    (w_calls w ++ repeat (CallGetTransactionReceipt "0xhash") k)%list
    /\ (k = O \/ 2 * (Z.of_nat k - 1) < 5).
Proof.
  intros w.
  apply (wait_for_confirmation_query_bound
           TokenTransfer.wait_for_confirmation 10 "0xhash" 5 w).
  right. left. reflexivity.
Defined.

(* ===================================================================== *)
(** * More on token transfers *)
(* ===================================================================== *)

Lemma get_token_contract_run web3 token w :
  Web3.is_address web3 token = true ->
  exists w0,
    TokenTransfer.get_token_contract web3 token w =
    (Ok (Web3.to_checksum_address web3 token), w0)
    /\ w_time w0 = w_time w /\ w_node w0 = w_node w /\ w_rtt w0 = w_rtt w
    /\ w_calls w0 = w_calls w.
Proof.
  intros H. unfold TokenTransfer.get_token_contract. rewrite H. cbn [negb].
  eexists. split; [ apply logged_eq; reflexivity | ]. repeat split.
Qed.

Lemma get_token_contract_invalid web3 token w :
  Web3.is_address web3 token = false ->
  exists w0,
    TokenTransfer.get_token_contract web3 token w =
    (Raise (mkExn ValueError [Lit "Invalid token address format"]), w0)
    /\ w_calls w0 = w_calls w /\ w_time w0 = w_time w.
Proof.
  intros H. unfold TokenTransfer.get_token_contract. rewrite H. cbn [negb].
  eexists. split; [ apply logged_raise; reflexivity | ]. split; reflexivity.
Qed.

(** [get_token_info] on a token address: four calls, a default for each one
    that fails, never an exception. *)
Lemma get_token_info_run web3 token w :
  Web3.is_address web3 token = true ->
  exists token_info w',
    TokenTransfer.get_token_info web3 token w = (Ok token_info, w')
    /\ later w w'
    /\ w_calls w' =
       (w_calls w ++ token_info_calls (Web3.to_checksum_address web3 token))%list
    /\ (forall n, (forall t, w_node w t = n) ->
                  token_info = token_info_on web3 n token).
Proof.
  intros H. unfold TokenTransfer.get_token_info.
  destruct (get_token_contract_run web3 token w H) as (w0 & E0 & T0 & N0 & R0 & C0).
  eexists. eexists. split.
  - apply logged_eq. rewrite (bind_eq _ _ _ _ _ E0).
    unfold bind at 1. rewrite rpc_default_eq.
    unfold bind at 1. rewrite rpc_default_eq.
    unfold bind at 1. rewrite rpc_default_eq.
    unfold bind at 1. rewrite rpc_default_eq.
    reflexivity.
  - split; [ | split ].
    + unfold later, tick. cbn [w_node w_rtt w_time]. rewrite N0, R0, T0.
      repeat split. lia.
    + unfold tick, token_info_calls. cbn [w_calls]. rewrite C0.
      rewrite <- !app_assoc. reflexivity.
    + intros n Hn. unfold token_info_on, or_default, tick.
      cbn [w_node w_time w_rtt]. rewrite N0, !Hn. reflexivity.
Qed.

(** X14.  [get_token_info] raises only on a string that is not an address,
    and then before any call.  On an address it never raises: it makes the
    four contract calls in order and puts "Unknown", "UNK", 18 and 0 where a
    call fails. *)
Theorem get_token_info_defaults (web3 : Web3.Lib) (token : string) (w : World) :
  (Web3.is_address web3 token = false ->
   exists w',
     TokenTransfer.get_token_info web3 token w =
     (Raise (mkExn ValueError [Lit "Invalid token address format"]), w')
     /\ w_calls w' = w_calls w)
  /\ (Web3.is_address web3 token = true ->
      exists token_info w',
        TokenTransfer.get_token_info web3 token w = (Ok token_info, w')
        /\ w_calls w' =
           (w_calls w
              ++ token_info_calls (Web3.to_checksum_address web3 token))%list
        /\ (forall n, (forall t, w_node w t = n) ->
                      token_info = token_info_on web3 n token)).
Proof.
  split; intros H.
  - destruct (get_token_contract_invalid web3 token w H) as (w0 & E & C & _).
    unfold TokenTransfer.get_token_info.
    eexists. split.
    + apply logged_raise. apply bind_raise. exact E.
    + cbn [w_calls]. exact C.
  - destruct (get_token_info_run web3 token w H) as (ti & w' & E & _ & C & D).
    exists ti, w'. repeat split; assumption.
Qed.

(** The witness of X14: a node that is down gives all four defaults. *)
Lemma get_token_info_defaults_witness :
  let w := Fixtures.world Doubles.dead_node 40 in
  exists w',
    TokenTransfer.get_token_info Fixtures.lib "tok" w =
    (Ok (TokenTransfer.mkTokenInfo "tok" "Unknown" "UNK" 18 0), w')
    /\ w_calls w' = token_info_calls "tok".
Proof.
  intros w.
  destruct (proj2 (get_token_info_defaults Fixtures.lib "tok" w) eq_refl)
    as (ti & w' & E & C & D).
  exists w'. rewrite E, (D Doubles.dead_node (fun _ => eq_refl)).
  split; [ reflexivity | exact C ].
Defined.

(** X15.  [create_token_transfer_transaction] checks the token address first
    and the sender and the recipient only after it has read the token's
    information: with a sender or recipient that is not an address it raises
    the [ValueError] after the four contract calls, and before any query for
    gas price or nonce. *)
Theorem token_transfer_validates_after_reading
        (web3 : Web3.Lib) (token from_address to_address : string)
        (amount : PyFloat.float) (gas_price : option Z) (w : World) :
  Web3.is_address web3 token = true ->
  Web3.is_address web3 from_address = false
  \/ Web3.is_address web3 to_address = false ->
  exists e w',
    TokenTransfer.create_token_transfer_transaction
      web3 token from_address to_address amount gas_price w = (Raise e, w')
    /\ exn_class e = ValueError
    /\ exn_msg e =
       (if Web3.is_address web3 from_address
        then [Lit "Invalid to_address format"]
        else [Lit "Invalid from_address format"])
    /\ w_calls w' =
       (w_calls w ++ token_info_calls (Web3.to_checksum_address web3 token))%list.
Proof.
  intros Ht H.
  destruct (get_token_contract_run web3 token w Ht) as (w0 & E0 & _ & _ & _ & C0).
  destruct (get_token_info_run web3 token w0 Ht) as (ti & w1 & E1 & _ & C1 & _).
  unfold TokenTransfer.create_token_transfer_transaction.
  destruct (Web3.is_address web3 from_address) eqn:Hf.
  - destruct H as [H | H]; [ discriminate H | ].
    eexists. eexists. split.
    + apply logged_raise.
      rewrite (bind_eq _ _ _ _ _ E0), (bind_eq _ _ _ _ _ E1), H.
      reflexivity.
    + cbn [exn_class exn_msg w_calls]. rewrite C1, C0. repeat split.
  - eexists. eexists. split.
    + apply logged_raise.
      rewrite (bind_eq _ _ _ _ _ E0), (bind_eq _ _ _ _ _ E1).
      reflexivity.
    + cbn [exn_class exn_msg w_calls]. rewrite C1, C0. repeat split.
Qed.

(** The witness of X15: a sender without the [0x] the double asks for. *)
Lemma token_transfer_validates_after_reading_witness :
  let w := Fixtures.world
             (Fixtures.node 0 7 (inr "0xhash"%string) (inr None) (inr 6)) 10 in
  exists e w',
    TokenTransfer.create_token_transfer_transaction
      Doubles.strict_lib "0xtok" "me" "0xdest" Fixtures.one None w = (Raise e, w')
    /\ exn_class e = ValueError
    /\ exn_msg e = [Lit "Invalid from_address format"]
    /\ w_calls w' = token_info_calls "0xtok".
Proof.
  intros w.
  apply (token_transfer_validates_after_reading
           Doubles.strict_lib "0xtok" "me" "0xdest" Fixtures.one None w).
  - reflexivity.
  - left. reflexivity.
Defined.

(** X16.  A transaction [create_token_transfer_transaction] returns is sent
    to the token contract, carries no value, the gas limit 100000 and the
    chain id 97, and its data is a [transfer] to the checksum form of the
    recipient of an amount that fits an unsigned 256-bit integer: a built
    transfer never carries a negative amount. *)
Theorem token_transfer_shape
        (web3 : Web3.Lib) (token from_address to_address : string)
        (amount : PyFloat.float) (gas_price : option Z)
        (w w' : World) (tx : Transaction) :
  TokenTransfer.create_token_transfer_transaction
    web3 token from_address to_address amount gas_price w = (Ok tx, w') ->
  tx_to tx = Web3.to_checksum_address web3 token
  /\ tx_value tx = 0
  /\ tx_gas tx = 100000
  /\ tx_chainId tx = 97
  /\ exists raw,
       tx_data tx = TransferCall (Web3.to_checksum_address web3 to_address) raw
       /\ 0 <= raw < 2 ^ 256.
Proof.
  intros H. unfold TokenTransfer.create_token_transfer_transaction in H.
  apply logged_ok in H.
  apply bind_ok in H. destruct H as (contract & w0 & Hc & H).
  apply get_token_contract_ok in Hc. destruct Hc as (-> & _).
  apply bind_ok in H. destruct H as (token_info & w1 & _ & H).
  repeat step_ok H.
  match goal with
  | Hc : local_call _ _ _ = (Ok _, _) |- _ =>
      apply local_call_ok in Hc; destruct Hc as [Hb _];
      apply build_transfer_ok in Hb; destruct Hb as [Henc ->]
  end.
  cbn [tx_to tx_value tx_gas tx_chainId tx_data].
  repeat (split; [ reflexivity | ]).
  eexists. split; [ reflexivity | ].
  unfold Web3.is_encodable_uint256 in Henc.
  apply andb_prop in Henc. destruct Henc as [Hlo Hhi].
  apply Z.leb_le in Hlo. apply Z.ltb_lt in Hhi. lia.
Qed.

(** The witness of X16: one token at 6 decimals. *)
Lemma token_transfer_shape_witness :
  let w := Fixtures.world
             (Fixtures.node 0 7 (inr "0xhash"%string) (inr None) (inr 6)) 10 in
  let run := TokenTransfer.create_token_transfer_transaction
               Fixtures.lib "tok" "me" "dest" Fixtures.one None w in
  exists tx,
    fst run = Ok tx
    /\ tx_to tx = "tok"%string /\ tx_value tx = 0 /\ tx_gas tx = 100000
    /\ tx_chainId tx = 97
    /\ exists raw, tx_data tx = TransferCall "dest" raw /\ 0 <= raw < 2 ^ 256.
Proof.
  intros w run.
  set (tx := mkTransaction 7 "tok" 0 100000 10000000000 97
                           (TransferCall "dest" 1000000)).
  assert (E : TokenTransfer.create_token_transfer_transaction
                Fixtures.lib "tok" "me" "dest" Fixtures.one None w =
              (Ok tx, snd run)) by (vm_compute; reflexivity).
  exists tx. split; [ vm_compute; reflexivity | ].
  exact (token_transfer_shape Fixtures.lib "tok" "me" "dest" Fixtures.one None
           w (snd run) tx E).
Defined.

Lemma constant_later w w1 n :
  later w w1 -> (forall t, w_node w t = n) -> forall t, w_node w1 t = n.
Proof. intros (N & _ & _) H t. rewrite N. apply H. Qed.

(** [get_token_balance] on a node whose answers do not change. *)
Lemma get_token_balance_constant web3 token wallet w n raw formatted :
  (forall t, w_node w t = n) ->
  Web3.is_address web3 token = true ->
  Web3.is_address web3 wallet = true ->
  call_balanceOf n (Web3.to_checksum_address web3 token)
                   (Web3.to_checksum_address web3 wallet) = inr raw ->
  TokenTransfer.raw_to_amount
    raw (TokenTransfer.ti_decimals (token_info_on web3 n token)) = inr formatted ->
  exists balance w',
    TokenTransfer.get_token_balance web3 token wallet w = (Ok balance, w')
    /\ TokenTransfer.tb_balance_formatted balance = formatted
    /\ TokenTransfer.tb_balance_raw balance = raw
    /\ TokenTransfer.tb_decimals balance =
       TokenTransfer.ti_decimals (token_info_on web3 n token)
    /\ later w w'
    /\ w_calls w' =
       (w_calls w
          ++ token_info_calls (Web3.to_checksum_address web3 token)
          ++ [CallContract (Web3.to_checksum_address web3 token) "balanceOf"])%list.
Proof.
  intros Hn Ht Hw Hb Hf.
  destruct (get_token_contract_run web3 token w Ht) as (w0 & E0 & T0 & N0 & R0 & C0).
  destruct (get_token_info_run web3 token w0 Ht) as (ti & w1 & E1 & L1 & C1 & D1).
  assert (L0 : later w w0) by (unfold later; rewrite N0, R0, T0; repeat split; lia).
  rewrite (D1 n (constant_later _ _ _ L0 Hn)) in *.
  pose proof (later_trans _ _ _ L0 L1) as L01.
  pose proof (constant_later _ _ _ L01 Hn) as Hn1.
  unfold TokenTransfer.get_token_balance.
  eexists. eexists. split.
  - apply logged_eq.
    rewrite (bind_eq _ _ _ _ _ E0), (bind_eq _ _ _ _ _ E1), Hw. cbn [negb].
    rewrite bind_rpc_eq, Hn1, Hb, Hf. reflexivity.
  - cbn [TokenTransfer.tb_balance_formatted TokenTransfer.tb_balance_raw
         TokenTransfer.tb_decimals].
    repeat (split; [ reflexivity | ]). split.
    + eapply later_trans; [ exact L01 | ].
      unfold later, tick. cbn [w_node w_rtt w_time]. repeat split. lia.
    + cbn [w_calls tick]. rewrite C1, C0, <- app_assoc. reflexivity.
Qed.

(** X17.  The balance check of [send_token], on a node whose answers do not
    change during the call.  When the raw balance of the sender, divided by
    [10 ^ decimals] as a float, is less than the requested amount,
    [send_token] raises the insufficient-token-balance [ValueError]; its
    collaborator calls are the contract reads (the token's information,
    twice, and the balance) and nothing is built, signed or submitted. *)
Theorem send_token_balance_gate
        (web3 : Web3.Lib) (fuel : nat)
        (private_key token to_address : string) (amount : PyFloat.float)
        (wait : bool) (w : World) (n : Node) (from_address : string)
        (raw : Z) (formatted : PyFloat.float) :
  (forall t, w_node w t = n) ->
  Web3.Account_from_key web3 private_key = inr from_address ->
  Web3.is_address web3 token = true ->
  Web3.is_address web3 from_address = true ->
  call_balanceOf n (Web3.to_checksum_address web3 token)
                   (Web3.to_checksum_address web3 from_address) = inr raw ->
  TokenTransfer.raw_to_amount
    raw (TokenTransfer.ti_decimals (token_info_on web3 n token)) = inr formatted ->
  PyFloat.ltb formatted amount = true ->
  exists w',
    TokenTransfer.send_token web3 fuel private_key token to_address amount
                             wait w =
    (Raise (mkExn ValueError
              [Lit "Insufficient token balance. Available: "; Flt formatted;
               Lit " ";
               Lit (TokenTransfer.ti_symbol (token_info_on web3 n token))]), w')
    /\ w_calls w' =
       (w_calls w
          ++ token_info_calls (Web3.to_checksum_address web3 token)
          ++ token_info_calls (Web3.to_checksum_address web3 token)
          ++ [CallContract (Web3.to_checksum_address web3 token) "balanceOf"])%list.
Proof.
  intros Hn Hk Ht Ha Hb Hf Hlt.
  destruct (get_token_info_run web3 token w Ht) as (ti & w1 & E1 & L1 & C1 & D1).
  rewrite (D1 n Hn) in E1. clear D1.
  set (info := token_info_on web3 n token) in *.
  set (w2 := snd ((log INFO [Lit "=== Token Transfer Process Started ==="] ;;
                   log INFO [Lit "Token: "; Lit (TokenTransfer.ti_name info);
                             Lit " ("; Lit (TokenTransfer.ti_symbol info);
                             Lit ")"] ;;
                   log INFO [Lit "From: "; Lit from_address] ;;
                   log INFO [Lit "To: "; Lit to_address] ;;
                   log INFO [Lit "Amount: "; Flt amount; Lit " ";
                             Lit (TokenTransfer.ti_symbol info)])%py w1)).
  assert (L2 : later w1 w2) by (unfold later; cbn; repeat split; lia).
  assert (C2 : w_calls w2 = w_calls w1) by reflexivity.
  destruct (get_token_balance_constant web3 token from_address w2 n raw formatted
              (constant_later _ _ _ (later_trans _ _ _ L1 L2) Hn) Ht Ha Hb Hf)
    as (balance & w3 & E3 & F3 & _ & _ & _ & C3).
  unfold TokenTransfer.send_token. rewrite Hk.
  eexists. split.
  - apply logged_raise.
    change (bind (lift_ext (inr from_address)) ?k w) with (k from_address w).
    cbv beta. rewrite (bind_eq _ _ _ _ _ E1).
    repeat (erewrite bind_eq; [ | reflexivity ]).
    fold info. erewrite bind_eq; [ | exact E3 ].
    rewrite F3, Hlt. reflexivity.
  - cbn [w_calls]. rewrite C3, C2, C1, <- !app_assoc. reflexivity.
Qed.

(** The witness of X17: five tokens held, six asked for. *)
Lemma send_token_balance_gate_witness :
  let n := Fixtures.node 0 7 (inr "0xhash"%string) (inr None) (inr 18) in
  let w := Fixtures.world n 10 in
  exists w',
    TokenTransfer.send_token Fixtures.lib 200 "k" "tok" "dest"
                             (PyFloat.of_ratio 6 1) true w =
    (Raise (mkExn ValueError
              [Lit "Insufficient token balance. Available: ";
               Flt (PyFloat.of_ratio 5 1); Lit " "; Lit "TKN"]), w')
    /\ w_calls w' =
       (token_info_calls "tok" ++ token_info_calls "tok"
          ++ [CallContract "tok" "balanceOf"])%list.
Proof.
  intros n w.
  apply (send_token_balance_gate Fixtures.lib 200 "k" "tok" "dest"
           (PyFloat.of_ratio 6 1) true w n "addr:k" (5 * 10 ^ 18)
           (PyFloat.of_ratio 5 1)).
  - intros t. reflexivity.
  - reflexivity.
  - reflexivity.
  - reflexivity.
  - reflexivity.
  - vm_compute. reflexivity.
  - vm_compute. reflexivity.
Defined.

(* ===================================================================== *)
(** * The wallet facade *)
(* ===================================================================== *)

Lemma dict_set_keys {V} (k k0 : string) (v : V) (d : list (string * V)) :
  In k (map fst (BSCWallet.dict_set k0 v d)) -> k = k0 \/ In k (map fst d).
Proof.
  induction d as [ | [k1 v1] d IH ]; cbn.
  - intros [ <- | [] ]. left. reflexivity.
  - destruct (String.eqb_spec k0 k1) as [ <- | N ]; cbn.
    + intros [ <- | H ]; [ left; reflexivity | right; right; exact H ].
    + intros [ <- | H ]; [ right; left; reflexivity | ].
      destruct (IH H) as [ -> | H' ]; [ left; reflexivity | right; right; exact H' ].
Qed.

Lemma read_only_facade_get_bnb_balance web3 address :
  read_only (BSCWallet.get_bnb_balance web3 address).
Proof.
  unfold BSCWallet.get_bnb_balance. apply read_only_logged.
  apply read_only_get_balance.
Qed.

Lemma read_only_facade_get_token_balance web3 token wallet :
  read_only (BSCWallet.get_token_balance web3 token wallet).
Proof.
  unfold BSCWallet.get_token_balance. apply read_only_logged.
  apply read_only_get_token_balance.
Qed.

(** One of the loops of [get_all_balances]: it never raises, it only
    queries, and it adds no key but those of its items. *)
Lemma collect_token_balances_run web3 warning wallet :
  forall items acc w,
  exists balances w',
    BSCWallet.collect_token_balances web3 warning wallet items acc w =
    (Ok balances, w')
    /\ (forall key, In key (map fst balances) ->
                    In key (map fst acc) \/ In key (map fst items))
    /\ exists l, w_calls w' = (w_calls w ++ l)%list /\ forallb is_read l = true.
Proof.
  induction items as [ | [key token] items IH ]; intros acc w.
  - exists acc, w. split; [ reflexivity | ]. split; [ auto | ].
    exists []. rewrite app_nil_r. split; reflexivity.
  - cbn [BSCWallet.collect_token_balances].
    destruct (read_only_facade_get_token_balance web3 token wallet w)
      as (l1 & C1 & F1).
    destruct (BSCWallet.get_token_balance web3 token wallet w)
      as [[balance | e] w1] eqn:E; cbn [snd] in C1.
    + destruct (IH (BSCWallet.dict_set key balance acc) w1)
        as (balances & w' & E' & K' & l2 & C2 & F2).
      exists balances, w'. split; [ | split ].
      * erewrite bind_eq; [ exact E' | ].
        unfold try_except. rewrite (bind_eq _ _ _ _ _ E). reflexivity.
      * intros k Hk. destruct (K' k Hk) as [H | H].
        -- apply dict_set_keys in H. destruct H as [ -> | H ];
             [ right; left; reflexivity | left; exact H ].
        -- right. right. exact H.
      * exists (l1 ++ l2)%list.
        rewrite C2, C1, app_assoc, forallb_app, F1, F2. split; reflexivity.
    + set (w2 := snd (log WARNING
                        (Lit warning :: Lit key :: Lit ": " :: exn_msg e) w1)).
      destruct (IH acc w2) as (balances & w' & E' & K' & l2 & C2 & F2).
      exists balances, w'. split; [ | split ].
      * erewrite bind_eq; [ exact E' | ].
        unfold try_except. rewrite (bind_raise _ _ _ _ _ E). reflexivity.
      * intros k Hk. destruct (K' k Hk) as [H | H];
          [ left; exact H | right; right; exact H ].
      * exists (l1 ++ l2)%list.
        rewrite C2. unfold w2. cbn [log snd w_calls].
        rewrite C1, app_assoc, forallb_app, F1, F2. split; reflexivity.
Qed.

Lemma dict_get_set_same {V} (k : string) (v : V) (d : list (string * V)) :
  BSCWallet.dict_get k (BSCWallet.dict_set k v d) = Some v.
Proof.
  induction d as [ | [k1 v1] d IH ]; cbn.
  - rewrite String.eqb_refl. reflexivity.
  - destruct (String.eqb_spec k k1) as [ <- | N ]; cbn.
    + rewrite String.eqb_refl. reflexivity.
    + destruct (String.eqb_spec k k1); [ contradiction | exact IH ].
Qed.

Lemma dict_get_set_other {V} (k k0 : string) (v : V) (d : list (string * V)) :
  k <> k0 ->
  BSCWallet.dict_get k (BSCWallet.dict_set k0 v d) = BSCWallet.dict_get k d.
Proof.
  intros N. induction d as [ | [k1 v1] d IH ]; cbn.
  - destruct (String.eqb_spec k k0); [ contradiction | reflexivity ].
  - destruct (String.eqb_spec k0 k1) as [ <- | N1 ]; cbn.
    + destruct (String.eqb_spec k k0); [ contradiction | reflexivity ].
    + destruct (String.eqb_spec k k1); [ reflexivity | exact IH ].
Qed.

Lemma logged_fst {A} prefix (c : M A) w : fst (logged prefix c w) = fst (c w).
Proof.
  unfold logged, try_except. destruct (c w) as [[a | e] w1]; reflexivity.
Qed.

Lemma steady_get_balance web3 address :
  steady (BNBTransfer.get_balance web3 address).
Proof. unfold BNBTransfer.get_balance. steady_tac. Qed.

Lemma steady_get_token_balance web3 token wallet :
  steady (TokenTransfer.get_token_balance web3 token wallet).
Proof.
  unfold TokenTransfer.get_token_balance. apply steady_logged.
  apply steady_bind; [ apply steady_get_token_contract | intro ].
  apply steady_bind; [ apply steady_get_token_info | intro ].
  steady_tac.
Qed.

(** The outcome of [get_balance] is read off the answer of the node at the
    instant of the call. *)
Lemma get_balance_on web3 address w :
  match fst (BNBTransfer.get_balance web3 address w) with
  | Ok balance =>
      bnb_balance_on web3 (w_node w (w_time w)) address = Some balance
  | Raise _ => bnb_balance_on web3 (w_node w (w_time w)) address = None
  end.
Proof.
  unfold BNBTransfer.get_balance, bnb_balance_on. rewrite logged_fst.
  destruct (Web3.is_address web3 address); cbn [negb]; [ | reflexivity ].
  rewrite bind_rpc_eq.
  destruct (eth_get_balance (w_node w (w_time w))
                            (Web3.to_checksum_address web3 address))
    as [err | bal]; [ reflexivity | ].
  destruct (Web3.from_wei bal 18) as [err | d]; reflexivity.
Qed.

(** The outcome of [get_token_balance] on a node whose answers do not
    change. *)
Lemma get_token_balance_on web3 token wallet w n :
  (forall t, w_node w t = n) ->
  match fst (TokenTransfer.get_token_balance web3 token wallet w) with
  | Ok balance => token_balance_on web3 n token wallet = Some balance
  | Raise _ => token_balance_on web3 n token wallet = None
  end.
Proof.
  intros Hn. unfold token_balance_on.
  destruct (Web3.is_address web3 token) eqn:Ht; cbn [andb].
  - destruct (get_token_contract_run web3 token w Ht)
      as (w0 & E0 & T0 & N0 & R0 & C0).
    destruct (get_token_info_run web3 token w0 Ht)
      as (ti & w1 & E1 & L1 & C1 & D1).
    assert (L0 : later w w0)
      by (unfold later; rewrite N0, R0, T0; repeat split; lia).
    rewrite (D1 n (constant_later _ _ _ L0 Hn)) in E1.
    pose proof (constant_later _ _ _ (later_trans _ _ _ L0 L1) Hn) as Hn1.
    unfold TokenTransfer.get_token_balance. rewrite logged_fst.
    rewrite (bind_eq _ _ _ _ _ E0), (bind_eq _ _ _ _ _ E1).
    destruct (Web3.is_address web3 wallet); cbn [negb]; [ | reflexivity ].
    rewrite bind_rpc_eq, Hn1.
    destruct (call_balanceOf n (Web3.to_checksum_address web3 token)
                             (Web3.to_checksum_address web3 wallet))
      as [err | raw]; [ reflexivity | ].
    destruct (TokenTransfer.raw_to_amount
                raw (TokenTransfer.ti_decimals (token_info_on web3 n token)))
      as [err | formatted]; reflexivity.
  - destruct (get_token_contract_invalid web3 token w Ht) as (w0 & E0 & _).
    unfold TokenTransfer.get_token_balance. rewrite logged_fst.
    rewrite (bind_raise _ _ _ _ _ E0). reflexivity.
Qed.

(** One of the loops of [get_all_balances] on a node whose answers do not
    change, over items in which a key stands for one token: at the end every
    item's key holds the balance of its token when the query for it
    succeeds, and holds nothing when it fails; the other keys are as they
    were. *)
Lemma collect_token_balances_on web3 warning wallet n :
  forall items acc w,
    (forall t, w_node w t = n) ->
    (forall key token token',
        In (key, token) items -> In (key, token') items -> token = token') ->
    (forall key token balance,
        In (key, token) items ->
        BSCWallet.dict_get key acc = Some balance ->
        token_balance_on web3 n token wallet = Some balance) ->
    exists balances w',
      BSCWallet.collect_token_balances web3 warning wallet items acc w =
      (Ok balances, w')
      /\ (forall key token,
             In (key, token) items ->
             BSCWallet.dict_get key balances =
             token_balance_on web3 n token wallet)
      /\ (forall key, ~ In key (map fst items) ->
                      BSCWallet.dict_get key balances =
                      BSCWallet.dict_get key acc).
Proof.
  induction items as [ | [key token] items IH ]; intros acc w Hn Hfun Hacc.
  - exists acc, w. split; [ reflexivity | ].
    split; [ intros key token [] | reflexivity ].
  - cbn [BSCWallet.collect_token_balances].
    assert (Hfun' : forall k t t',
               In (k, t) items -> In (k, t') items -> t = t')
      by (intros k t t' H1 H2; apply (Hfun k); right; assumption).
    pose proof (get_token_balance_on web3 token wallet w n Hn) as Hon.
    unfold BSCWallet.get_token_balance.
    pose proof (steady_logged "Error getting token balance: " _
                  (steady_get_token_balance web3 token wallet) w) as Lq.
    rewrite <- (logged_fst "Error getting token balance: ") in Hon.
    destruct (logged "Error getting token balance: "
                     (TokenTransfer.get_token_balance web3 token wallet) w)
      as [[balance | e] w1] eqn:E; cbn [fst snd] in Hon, Lq.
    + destruct (IH (BSCWallet.dict_set key balance acc) w1)
        as (balances & w' & E' & Hitems & Hother).
      * exact (constant_later _ _ _ Lq Hn).
      * exact Hfun'.
      * intros k t b Hin Hget.
        destruct (string_dec k key) as [ -> | Nk ].
        -- rewrite dict_get_set_same in Hget. injection Hget as <-.
           rewrite <- (Hfun key token t); [ exact Hon | left; reflexivity
                                           | right; exact Hin ].
        -- rewrite dict_get_set_other in Hget by exact Nk.
           apply (Hacc k t b); [ right; exact Hin | exact Hget ].
      * exists balances, w'. split; [ | split ].
        -- erewrite bind_eq; [ exact E' | ].
           unfold try_except. rewrite (bind_eq _ _ _ _ _ E). reflexivity.
        -- intros k t [ Hhd | Hin ]; [ | apply Hitems; exact Hin ].
           injection Hhd as <- <-.
           destruct (in_dec string_dec key (map fst items)) as [ Hk | Hk ].
           ++ apply in_map_iff in Hk. destruct Hk as ([k' t'] & Ek & Hin).
              cbn [fst] in Ek. subst k'.
              rewrite (Hfun key token t');
                [ apply Hitems; exact Hin | left; reflexivity
                | right; exact Hin ].
           ++ rewrite (Hother key Hk), dict_get_set_same. symmetry. exact Hon.
        -- intros k Hk. cbn [map fst] in Hk.
           rewrite Hother by (intros Hin; apply Hk; right; exact Hin).
           apply dict_get_set_other. intros ->. apply Hk. left. reflexivity.
    + set (w2 := snd (log WARNING
                        (Lit warning :: Lit key :: Lit ": " :: exn_msg e) w1)).
      destruct (IH acc w2) as (balances & w' & E' & Hitems & Hother).
      * intros t. apply (constant_later _ _ _ Lq Hn).
      * exact Hfun'.
      * intros k t b Hin Hget.
        apply (Hacc k t b); [ right; exact Hin | exact Hget ].
      * exists balances, w'. split; [ | split ].
        -- erewrite bind_eq; [ exact E' | ].
           unfold try_except. rewrite (bind_raise _ _ _ _ _ E). reflexivity.
        -- intros k t [ Hhd | Hin ]; [ | apply Hitems; exact Hin ].
           injection Hhd as <- <-.
           destruct (in_dec string_dec key (map fst items)) as [ Hk | Hk ].
           ++ apply in_map_iff in Hk. destruct Hk as ([k' t'] & Ek & Hin).
              cbn [fst] in Ek. subst k'.
              rewrite (Hfun key token t');
                [ apply Hitems; exact Hin | left; reflexivity
                | right; exact Hin ].
           ++ rewrite (Hother key Hk), Hon.
              destruct (BSCWallet.dict_get key acc) as [ b | ] eqn:G;
                [ | reflexivity ].
              rewrite (Hacc key token b) in Hon;
                [ discriminate Hon | left; reflexivity | exact G ].
        -- intros k Hk. cbn [map fst] in Hk.
           apply Hother. intros Hin. apply Hk. right. exact Hin.
Qed.

(** In the items of [get_all_balances] a key stands for one token. *)
Lemma balance_items_functional token_addresses key token token' :
  In (key, token) (balance_items token_addresses) ->
  In (key, token') (balance_items token_addresses) ->
  token = token'.
Proof.
  assert (Hs : In (key, token) Config.SAMPLE_TOKENS ->
               In (key, token') Config.SAMPLE_TOKENS -> token = token').
  { unfold Config.SAMPLE_TOKENS. cbn [In].
    intros [ H | [ H | [ H | [] ] ] ] [ H' | [ H' | [ H' | [] ] ] ];
      inversion H; inversion H'; subst; congruence. }
  assert (Ha : forall l : list string,
             In (key, token) (map (fun a => (a, a)) l) ->
             In (key, token') (map (fun a => (a, a)) l) -> token = token').
  { intros l H H'. apply in_map_iff in H. apply in_map_iff in H'.
    destruct H as (a & Ea & _). destruct H' as (a' & Ea' & _).
    inversion Ea. inversion Ea'. subst. reflexivity. }
  unfold balance_items.
  destruct token_addresses as [ [ | token0 rest ] | ];
    [ exact Hs | apply Ha | exact Hs ].
Qed.

(** X18.  [get_all_balances] never raises, whatever the node does and
    whatever the addresses are: a failed query only leaves its entry out.
    The BNB balance of the result is the one [get_balance] reads from the
    node at the start, and [None] when that query fails.  The keys of the
    token balances are among the addresses asked for, or, when none is asked
    for (no list, or an empty one), among the names of the sample tokens;
    on a node whose answers do not change, each of these keys holds the
    balance of its token when the query for it succeeds and is absent when it
    fails.  All its collaborator calls are queries. *)
Theorem get_all_balances_never_raises
        (web3 : Web3.Lib) (wallet_address : string)
        (token_addresses : option (list string)) (w : World) :
  exists balances w',
    BSCWallet.get_all_balances web3 wallet_address token_addresses w =
    (Ok balances, w')
    /\ BSCWallet.ab_wallet_address balances = wallet_address
    /\ BSCWallet.ab_bnb_balance balances =
       bnb_balance_on web3 (w_node w (w_time w)) wallet_address
    /\ (forall key,
           In key (map fst (BSCWallet.ab_token_balances balances)) ->
           In key match token_addresses with
                  | Some (token :: rest) => token :: rest
                  | _ => ["USDT"; "BUSD"; "IVP"]%string
                  end)
    /\ (exists l, w_calls w' = (w_calls w ++ l)%list /\ forallb is_read l = true)
    /\ (forall n,
           (forall t, w_node w t = n) ->
           forall key token,
             In (key, token) (balance_items token_addresses) ->
             BSCWallet.dict_get key (BSCWallet.ab_token_balances balances) =
             token_balance_on web3 n token wallet_address).
Proof.
  destruct (read_only_facade_get_bnb_balance web3 wallet_address w)
    as (l1 & C1 & F1).
  set (first :=
         try_except
           (bind (BSCWallet.get_bnb_balance web3 wallet_address)
                 (fun balance => ret (Some balance)))
           (fun e =>
              bind (log WARNING (Lit "Error getting BNB balance: " :: exn_msg e))
                   (fun _ => ret None))).
  assert (H1 : exists w1,
             first w = (Ok (bnb_balance_on web3 (w_node w (w_time w))
                                           wallet_address), w1)
             /\ w_calls w1 = (w_calls w ++ l1)%list /\ later w w1).
  { pose proof (get_balance_on web3 wallet_address w) as Hon.
    pose proof (steady_logged "Error getting BNB balance: " _
                  (steady_get_balance web3 wallet_address) w) as Lq.
    rewrite <- (logged_fst "Error getting BNB balance: ") in Hon.
    unfold first, try_except.
    unfold BSCWallet.get_bnb_balance in *.
    destruct (logged "Error getting BNB balance: "
                     (BNBTransfer.get_balance web3 wallet_address) w)
      as [[balance | e] w1] eqn:E; cbn [fst snd] in C1, Hon, Lq.
    - rewrite (bind_eq _ _ _ _ _ E), Hon. eexists.
      split; [ reflexivity | split; [ exact C1 | exact Lq ] ].
    - rewrite (bind_raise _ _ _ _ _ E), Hon. eexists.
      split; [ reflexivity | split; [ exact C1 | ] ].
      eapply later_trans; [ exact Lq | ].
      unfold later; cbn; repeat split; lia. }
  destruct H1 as (w1 & E1 & C1' & L1).
  set (warning := match token_addresses with
                  | Some (_ :: _) => "Error getting balance for token "%string
                  | _ => "Error getting balance for "%string
                  end).
  destruct (collect_token_balances_run web3 warning wallet_address
              (balance_items token_addresses) [] w1)
    as (balances & w' & E' & K' & l2 & C2 & F2).
  assert (Hrun : BSCWallet.get_all_balances web3 wallet_address
                   token_addresses w =
                 (Ok (BSCWallet.mkAllBalances
                        wallet_address
                        (bnb_balance_on web3 (w_node w (w_time w))
                                        wallet_address)
                        balances), w')).
  { unfold BSCWallet.get_all_balances. apply logged_eq.
    fold first. rewrite (bind_eq _ _ _ _ _ E1).
    unfold warning, balance_items in E'.
    destruct token_addresses as [ [ | token rest ] | ].
    - change Config.SAMPLE_TOKENS with
        (hd ("", "")%string Config.SAMPLE_TOKENS :: tl Config.SAMPLE_TOKENS) at 1.
      cbv iota. rewrite (bind_eq _ _ _ _ _ E'). reflexivity.
    - rewrite (bind_eq _ _ _ _ _ E'). reflexivity.
    - change Config.SAMPLE_TOKENS with
        (hd ("", "")%string Config.SAMPLE_TOKENS :: tl Config.SAMPLE_TOKENS) at 1.
      cbv iota. rewrite (bind_eq _ _ _ _ _ E'). reflexivity. }
  eexists. exists w'. split; [ exact Hrun | ].
  cbn [BSCWallet.ab_wallet_address BSCWallet.ab_bnb_balance
       BSCWallet.ab_token_balances].
  split; [ reflexivity | split; [ reflexivity | split; [ | split ] ] ].
  - intros key Hk. destruct (K' key Hk) as [ [] | H ].
    unfold balance_items in H.
    destruct token_addresses as [ [ | token rest ] | ];
      [ exact H | rewrite map_map, map_id in H; exact H | exact H ].
  - exists (l1 ++ l2)%list.
    rewrite C2, C1', app_assoc, forallb_app, F1, F2. split; reflexivity.
  - intros n Hn key token Hin.
    destruct (collect_token_balances_on web3 warning wallet_address n
                (balance_items token_addresses) [] w1)
      as (balances2 & w2 & E2 & Hitems & _).
    + exact (constant_later _ _ _ L1 Hn).
    + intros k t t'. apply balance_items_functional.
    + intros k t b _ Hget. discriminate Hget.
    + rewrite E' in E2. injection E2 as <- <-.
      apply Hitems. exact Hin.
Qed.

(** The witness of X18: a wallet asked for two tokens, of which the second
    is not an address, on a web3 for which an address starts with [0x]: the
    result has the BNB balance and the first token, and no entry for the
    second. *)
Lemma get_all_balances_never_raises_witness :
  let n := Fixtures.node (5 * 10 ^ 18) 7 (inr "0xhash"%string) (inr None)
                         (inr 18) in
  let w := Fixtures.world n 10 in
  exists balances w',
    BSCWallet.get_all_balances Doubles.strict_lib "0xme"
                               (Some ["0xtok"; "tok"]%string) w =
    (Ok balances, w')
    /\ BSCWallet.ab_bnb_balance balances =
       Some (BNBTransfer.mkBalance "0xme" (5 * 10 ^ 18) (PyFloat.of_ratio 5 1))
    /\ BSCWallet.dict_get "0xtok" (BSCWallet.ab_token_balances balances) =
       Some (TokenTransfer.mkTokenBalance "0xme" "0xtok" "Token" "TKN"
                                          (5 * 10 ^ 18) (PyFloat.of_ratio 5 1) 18)
    /\ BSCWallet.dict_get "tok" (BSCWallet.ab_token_balances balances) = None.
Proof.
  intros n w.
  destruct (get_all_balances_never_raises
              Doubles.strict_lib "0xme" (Some ["0xtok"; "tok"]%string) w)
    as (balances & w' & E & _ & Hb & _ & _ & Ht).
  exists balances, w'. split; [ exact E | ].
  split; [ rewrite Hb; vm_compute; reflexivity | ].
  split.
  - rewrite (Ht n (fun t => eq_refl) "0xtok"%string "0xtok"%string);
      [ vm_compute; reflexivity | left; reflexivity ].
  - rewrite (Ht n (fun t => eq_refl) "tok"%string "tok"%string);
      [ vm_compute; reflexivity | right; left; reflexivity ].
Defined.

(** X19.  [get_transaction_status] never raises, whatever the two queries
    do.  With a receipt it reports "Success" or "Failed" after the status of
    the receipt, with its block and gas, and makes no second query; without
    one (the query raises or gives nothing) it reports "Pending" when the
    transaction is known and "Not Found" when that query also fails. *)
Theorem get_transaction_status_never_raises
        (eth_get_transaction : string -> M (option BSCWallet.TxInfo))
        (tx_hash : string) (w : World) :
  let url := (Config.BSC_TESTNET_EXPLORER ++ "/tx/" ++ tx_hash)%string in
  let asked := tick (CallGetTransactionReceipt tx_hash) w in
  exists st w',
    BSCWallet.get_transaction_status eth_get_transaction tx_hash w = (Ok st, w')
    /\ In (BSCWallet.status_of st)
          ["Success"; "Failed"; "Pending"; "Not Found"]%string
    /\ (forall rc,
           eth_get_transaction_receipt (w_node w (w_time w)) tx_hash
           = inr (Some rc) ->
           st = BSCWallet.StatusMined
                  tx_hash
                  (if rc_status rc =? 1 then "Success"%string
                   else "Failed"%string)
                  (rc_blockNumber rc) (rc_gasUsed rc) url
           /\ w' = asked)
    /\ ((forall rc,
            eth_get_transaction_receipt (w_node w (w_time w)) tx_hash
            <> inr (Some rc)) ->
        match fst (eth_get_transaction tx_hash asked) with
        | Ok (Some tx) =>
            exists block, st = BSCWallet.StatusPending tx_hash "Pending" block url
                          /\ (block = None \/
                              (block = BSCWallet.txi_blockNumber tx
                               /\ block <> Some 0))
        | _ => st = BSCWallet.StatusNotFound tx_hash "Not Found" url
        end).
Proof.
  intros url asked.
  unfold BSCWallet.get_transaction_status.
  destruct (eth_get_transaction_receipt (w_node w (w_time w)) tx_hash)
    as [err | [rc | ]] eqn:E.
  - (* the receipt query raises *)
    destruct (eth_get_transaction tx_hash asked) as [[[tx | ] | e] w2] eqn:E2.
    + eexists. eexists. split.
      * apply logged_eq. unfold try_except at 1. rewrite bind_rpc_eq, E.
        unfold try_except. fold asked. rewrite (bind_eq _ _ _ _ _ E2). reflexivity.
      * split; [ cbn; tauto | ]. split; [ intros rc H; discriminate H | ].
        intros _. cbn [fst]. eexists. split; [ reflexivity | ].
        destruct (BSCWallet.txi_blockNumber tx) as [ [ | p | p ] | ];
          [ left; reflexivity | right; split; [ reflexivity | discriminate ]
          | right; split; [ reflexivity | discriminate ] | left; reflexivity ].
    + eexists. eexists. split.
      * apply logged_eq. unfold try_except at 1. rewrite bind_rpc_eq, E.
        unfold try_except. fold asked. rewrite (bind_eq _ _ _ _ _ E2). reflexivity.
      * split; [ cbn; tauto | ]. split; [ intros rc H; discriminate H | ].
        intros _. reflexivity.
    + eexists. eexists. split.
      * apply logged_eq. unfold try_except at 1. rewrite bind_rpc_eq, E.
        unfold try_except. fold asked. rewrite (bind_raise _ _ _ _ _ E2). reflexivity.
      * split; [ cbn; tauto | ]. split; [ intros rc H; discriminate H | ].
        intros _. reflexivity.
  - (* a receipt *)
    eexists. eexists. split.
    + apply logged_eq. unfold try_except at 1. rewrite bind_rpc_eq, E. reflexivity.
    + split; [ cbn; destruct (rc_status rc =? 1); tauto | ].
      split.
      * intros rc' H. injection H as <-. split; reflexivity.
      * intros H. exfalso. apply (H rc). reflexivity.
  - (* the receipt query gives nothing *)
    destruct (eth_get_transaction tx_hash asked) as [[[tx | ] | e] w2] eqn:E2.
    + eexists. eexists. split.
      * apply logged_eq. unfold try_except at 1. rewrite bind_rpc_eq, E.
        unfold try_except, raise. fold asked.
        rewrite (bind_eq _ _ _ _ _ E2). reflexivity.
      * split; [ cbn; tauto | ]. split; [ intros rc H; discriminate H | ].
        intros _. cbn [fst]. eexists. split; [ reflexivity | ].
        destruct (BSCWallet.txi_blockNumber tx) as [ [ | p | p ] | ];
          [ left; reflexivity | right; split; [ reflexivity | discriminate ]
          | right; split; [ reflexivity | discriminate ] | left; reflexivity ].
    + eexists. eexists. split.
      * apply logged_eq. unfold try_except at 1. rewrite bind_rpc_eq, E.
        unfold try_except, raise. fold asked.
        rewrite (bind_eq _ _ _ _ _ E2). reflexivity.
      * split; [ cbn; tauto | ]. split; [ intros rc H; discriminate H | ].
        intros _. reflexivity.
    + eexists. eexists. split.
      * apply logged_eq. unfold try_except at 1. rewrite bind_rpc_eq, E.
        unfold try_except, raise. fold asked.
        rewrite (bind_raise _ _ _ _ _ E2). reflexivity.
      * split; [ cbn; tauto | ]. split; [ intros rc H; discriminate H | ].
        intros _. reflexivity.
Qed.

(* ===================================================================== *)
(** * Whole token amounts *)
(* ===================================================================== *)

(* ===================================================================== *)
(** * Whole token amounts *)
(* ===================================================================== *)

Lemma whole_amounts_checked :
  forallb whole_amount_exact (map Z.of_nat (seq 0 2363)) = true.
Proof. vm_compute. reflexivity. Qed.

(** X20.  At 18 decimals the conversion of line 231 is exact on every whole
    amount up to 2362 tokens, and converting the result back (line 164) gives
    the amount again.  The bound is sharp: 2363 tokens become
    [2363 * 10 ^ 18 + 262144] base units. *)
Theorem whole_amounts_exact_up_to_2362 :
  (forall n,
      0 <= n <= 2362 ->
      TokenTransfer.amount_to_raw (PyFloat.of_ratio n 1) 18 = inr (n * 10 ^ 18)
      /\ exists x,
           TokenTransfer.raw_to_amount (n * 10 ^ 18) 18 = inr x
           /\ PyFloat.eqb x (PyFloat.of_ratio n 1) = true)
  /\ TokenTransfer.amount_to_raw (PyFloat.of_ratio 2363 1) 18 =
     inr (2363 * 10 ^ 18 + 262144).
Proof.
  split; [ | vm_compute; reflexivity ].
  intros n Hn.
  assert (Hin : In n (map Z.of_nat (seq 0 2363))).
  { rewrite <- (Z2Nat.id n) by lia. apply in_map. apply in_seq. lia. }
  pose proof (proj1 (forallb_forall _ _) whole_amounts_checked n Hin) as H.
  unfold whole_amount_exact in H.
  destruct (TokenTransfer.amount_to_raw (PyFloat.of_ratio n 1) 18)
    as [err | raw]; [ discriminate H | ].
  apply andb_prop in H. destruct H as [Hr Hx].
  apply Z.eqb_eq in Hr. subst raw. split; [ reflexivity | ].
  destruct (TokenTransfer.raw_to_amount (n * 10 ^ 18) 18) as [err | x];
    [ discriminate Hx | ].
  exists x. split; [ reflexivity | exact Hx ].
Qed.

(** The witness of X20: 1000 tokens. *)
Lemma whole_amounts_exact_up_to_2362_witness :
  TokenTransfer.amount_to_raw (PyFloat.of_ratio 1000 1) 18 = inr (1000 * 10 ^ 18)
  /\ exists x,
       TokenTransfer.raw_to_amount (1000 * 10 ^ 18) 18 = inr x
       /\ PyFloat.eqb x (PyFloat.of_ratio 1000 1) = true.
Proof.
  apply (proj1 whole_amounts_exact_up_to_2362 1000). lia.
Defined.

(* ===================================================================== *)
(** * What a successful [send_bnb] has done *)
(* ===================================================================== *)

Lemma get_balance_ok_inv web3 address w balance w' :
  BNBTransfer.get_balance web3 address w = (Ok balance, w') ->
  Web3.is_address web3 address = true
  /\ eth_get_balance (w_node w (w_time w))
                     (Web3.to_checksum_address web3 address)
     = inr (BNBTransfer.balance_wei balance)
  /\ BNBTransfer.balance_bnb balance =
     PyFloat.of_ratio (BNBTransfer.balance_wei balance) (10 ^ 18)
  /\ 0 <= BNBTransfer.balance_wei balance <= Web3.MAX_WEI
  /\ w_calls w' =
     (w_calls w ++ [CallGetBalance (Web3.to_checksum_address web3 address)])%list
  /\ later w w'.
Proof.
  intros H.
  assert (Hl : later w w').
  { apply (steady_run (BNBTransfer.get_balance web3 address) w (Ok balance));
      [ unfold BNBTransfer.get_balance; steady_tac | exact H ]. }
  unfold BNBTransfer.get_balance in H.
  repeat step_ok H.
  match goal with
  | Hg : log _ _ _ = (Ok _, _) |- _ => unfold log in Hg; injection Hg as _ <-
  end.
  match goal with
  | Hf : Web3.from_wei ?b 18 = inr ?d |- _ =>
      unfold Web3.from_wei, Web3.MIN_WEI in Hf;
      destruct (Z.ltb_spec b 0); [ discriminate Hf | ];
      destruct (Z.ltb_spec Web3.MAX_WEI b); [ discriminate Hf | ];
      injection Hf as <-
  end.
  cbn [BNBTransfer.balance_wei BNBTransfer.balance_bnb w_calls tick].
  match goal with
  | E : negb _ = false |- _ => apply negb_false_iff in E
  end.
  pose proof Hl as (Ln & Lr & Lt).
  repeat split; assumption || reflexivity || lia.
Qed.

Lemma sign_transaction_ok_inv web3 ok_text error_prefix transaction key w raw w' :
  Web3.sign_transaction_with web3 ok_text error_prefix transaction key w =
  (Ok raw, w') ->
  let signing_key :=
    if PyStr.startswith key "0x" then PyStr.drop 2 key else key in
  Web3.account_sign_transaction web3 transaction signing_key = inr raw
  /\ w_calls w' = (w_calls w ++ [CallSignTransaction transaction signing_key])%list
  /\ w_time w' = w_time w /\ w_node w' = w_node w.
Proof.
  intros H signing_key. unfold Web3.sign_transaction_with in H.
  apply logged_ok in H.
  apply bind_ok in H. destruct H as (signed & w1 & Hs & H).
  fold signing_key in Hs. unfold local_call in Hs.
  destruct (Web3.account_sign_transaction web3 transaction signing_key)
    as [err | r]; [ discriminate Hs | ].
  injection Hs as <- <-.
  apply bind_ok in H. destruct H as (u & w2 & Hg & H).
  unfold log in Hg. injection Hg as _ <-.
  unfold ret in H. injection H as <- <-.
  repeat split.
Qed.

Lemma bnb_broadcast_ok_inv raw w tx_hash w' :
  BNBTransfer.broadcast_transaction raw w = (Ok tx_hash, w') ->
  eth_send_raw_transaction (w_node w (w_time w)) raw = inr tx_hash
  /\ w_calls w' = (w_calls w ++ [CallSendRawTransaction raw])%list
  /\ later w w'.
Proof.
  unfold BNBTransfer.broadcast_transaction, bind, rpc_ext.
  destruct (eth_send_raw_transaction (w_node w (w_time w)) raw) as [err | h].
  - repeat match goal with
           | |- context [if ?b then _ else _] => destruct b
           end; intros H; discriminate H.
  - intros H. injection H as <- <-. repeat split.
    unfold later, tick; cbn [w_node w_rtt w_time]. repeat split. lia.
Qed.

(** X21.  When [send_bnb], asked not to wait, returns a result: the key was
    usable; the balance the node reported, as a float, was not less than the
    amount; a transaction to the checksum form of the recipient, with the
    amount as [to_wei] converts it, was signed with the key stripped of its
    prefix; the hash is what the node answered to the submission of that
    signed transaction; and the collaborator calls were, in this order, the
    balance, the gas price, the transaction count, the signature and the
    submission. *)
Theorem send_bnb_success_means
        (web3 : Web3.Lib) (fuel : nat) (private_key to_address : string)
        (amount_bnb : PyFloat.float) (w w' : World)
        (result : BNBTransfer.SendResult) :
  BNBTransfer.send_bnb web3 fuel private_key to_address amount_bnb false w =
  (Ok (Some result), w') ->
  exists from_address bal tx raw,
    let sender := Web3.to_checksum_address web3 from_address in
    let signing_key :=
      if PyStr.startswith private_key "0x" then PyStr.drop 2 private_key
      else private_key in
    Web3.Account_from_key web3 private_key = inr from_address
    /\ eth_get_balance (w_node w (w_time w)) sender = inr bal
    /\ PyFloat.ltb (PyFloat.of_ratio bal (10 ^ 18)) amount_bnb = false
    /\ tx_to tx = Web3.to_checksum_address web3 to_address
    /\ Web3.to_wei_ether web3 amount_bnb = inr (tx_value tx)
    /\ Web3.account_sign_transaction web3 tx signing_key = inr raw
    /\ (exists t, w_time w <= t <= w_time w'
                  /\ eth_send_raw_transaction (w_node w t) raw
                     = inr (BNBTransfer.sr_tx_hash result))
    /\ w_calls w' =
       (w_calls w ++ [CallGetBalance sender; CallGasPrice;
                      CallGetTransactionCount sender;
                      CallSignTransaction tx signing_key;
                      CallSendRawTransaction raw])%list
    /\ BNBTransfer.sr_from_address result = from_address
    /\ BNBTransfer.sr_to_address result = to_address
    /\ BNBTransfer.sr_amount_bnb result = amount_bnb
    /\ BNBTransfer.sr_explorer_url result =
       ("https://testnet.bscscan.com/tx/" ++ BNBTransfer.sr_tx_hash result)%string
    /\ BNBTransfer.sr_confirmation result = None.
Proof.
  intros H. unfold BNBTransfer.send_bnb in H.
  apply logged_ok in H.
  apply bind_ok in H. destruct H as (from_address & w0 & Hk & H).
  apply lift_ext_ok in Hk. destruct Hk as [Hk ->].
  do 4 (apply bind_ok in H; destruct H as (? & ? & Hg & H);
        unfold log in Hg; injection Hg as _ <-).
  apply bind_ok in H. destruct H as (balance & w5 & Hb & H).
  apply get_balance_ok_inv in Hb.
  cbn [w_node w_time w_calls] in Hb.
  destruct Hb as (_ & Hbal & Hbnb & _ & Cb & Lb).
  destruct (PyFloat.ltb (BNBTransfer.balance_bnb balance) amount_bnb) eqn:Hlt;
    [ discriminate H | ].
  apply bind_ok in H. destruct H as (tx & w6 & Hc & H).
  assert (Lc : later w5 w6).
  { apply (steady_run (BNBTransfer.create_transaction
                         web3 from_address to_address amount_bnb None)
                      w5 (Ok tx));
      [ unfold BNBTransfer.create_transaction,
          BNBTransfer.estimate_gas_price; steady_tac
      | exact Hc ]. }
  apply create_transaction_ok_inv in Hc.
  destruct Hc as (_ & _ & Hto & Hval & _ & _ & _ & Cc).
  apply bind_ok in H. destruct H as (raw & w7 & Hs & H).
  apply sign_transaction_ok_inv in Hs. destruct Hs as (Hs & Cs & Ts & Ns).
  apply bind_ok in H. destruct H as (tx_hash & w8 & Hbr & H).
  apply bnb_broadcast_ok_inv in Hbr. destruct Hbr as (Hsend & Cbr & Lbr).
  apply bind_ok in H. destruct H as (u & w9 & Hg & H).
  unfold log in Hg. injection Hg as _ <-.
  unfold ret in H. injection H as <- <-.
  exists from_address, (BNBTransfer.balance_wei balance), tx, raw.
  cbn zeta.
  cbn [BNBTransfer.sr_tx_hash BNBTransfer.sr_from_address
       BNBTransfer.sr_to_address BNBTransfer.sr_amount_bnb
       BNBTransfer.sr_explorer_url BNBTransfer.sr_confirmation w_calls w_time].
  rewrite Hbnb in Hlt.
  destruct Lb as (Nb & _ & Tb). destruct Lc as (Nc & _ & Tc).
  destruct Lbr as (_ & _ & Tbr). cbn [w_node w_time] in Nb, Tb.
  repeat (split; [ assumption || reflexivity | ]).
  split; [ | split; [ | repeat split ] ].
  - exists (w_time w7). rewrite <- Nb, <- Nc, <- Ns. split; [ lia | exact Hsend ].
  - rewrite Cbr, Cs, Cc, Cb, <- !app_assoc. reflexivity.
Qed.

(** The witness of X21: one BNB sent from a wallet that holds five. *)
Lemma send_bnb_success_means_witness :
  let w := Fixtures.world
             (Fixtures.node (5 * 10 ^ 18) 7 (inr "0xhash"%string) (inr None)
                            (inr 18)) 25 in
  let result := BNBTransfer.mkSendResult
                  "0xhash" "addr:0xk" "dest" Fixtures.one
                  "https://testnet.bscscan.com/tx/0xhash" None in
  let run := BNBTransfer.send_bnb Fixtures.lib 0 "0xk" "dest" Fixtures.one
                                  false w in
  fst run = Ok (Some result)
  /\ exists from_address bal tx raw,
      Web3.Account_from_key Fixtures.lib "0xk" = inr from_address
      /\ eth_get_balance (w_node w (w_time w))
                         (Web3.to_checksum_address Fixtures.lib from_address)
         = inr bal
      /\ Web3.account_sign_transaction Fixtures.lib tx "k" = inr raw
      /\ w_calls (snd run) =
         [ CallGetBalance (Web3.to_checksum_address Fixtures.lib from_address);
           CallGasPrice;
           CallGetTransactionCount
             (Web3.to_checksum_address Fixtures.lib from_address);
           CallSignTransaction tx "k";
           CallSendRawTransaction raw ].
Proof.
  intros w result run.
  assert (E : BNBTransfer.send_bnb Fixtures.lib 0 "0xk" "dest" Fixtures.one
                                   false w = (Ok (Some result), snd run))
    by (vm_compute; reflexivity).
  split; [ vm_compute; reflexivity | ].
  destruct (send_bnb_success_means Fixtures.lib 0 "0xk" "dest" Fixtures.one
              w (snd run) result E)
    as (f & bal & tx & raw & Hk & Hb & _ & _ & _ & Hs & _ & Hc & _).
  exists f, bal, tx, raw.
  repeat split; [ exact Hk | exact Hb | exact Hs | exact Hc ].
Defined.
